(** * FTA transit-safety scripts: fatal-event filtering and aggregation

    A shallow embedding of the data pipeline shared by the four scripts
    [fta_deadly_events_map.py], [fta_nyc_basemap.py],
    [fta_nyc_time_slider_map.py] and [fta_safety_analysis.py]:
    agency filter, coordinate/date coercion, fatality selection, the three
    group-by aggregations and the early exits of [main].

    A data frame is a list of rows.  Cells are dynamically typed the way
    pandas holds them; float64 values are represented by their exact
    rational value (or NaN, or an infinity), so comparisons and grouping
    are the IEEE ones up to the sign of zero. *)

From Stdlib Require Import ZArith QArith List String Ascii Bool Lia.
From Stdlib Require Import Permutation Sorted DecimalString.
Import ListNotations.

Local Open Scope Z_scope.

(* ------------------------------------------------------------------ *)
(** ** Binary64 values *)

Module Float64.

Inductive float64 : Type :=
| FNaN
| FInf (neg : bool)
| FFin (q : Q).

(** [2 ^ e] as a rational, for any integer exponent. *)
Definition pow2 (e : Z) : Q :=
  if 0 <=? e then inject_Z (2 ^ e) else 1 # Z.to_pos (2 ^ (- e)).

(** Nearest integer to [n / d] (with [0 < d]), ties to even. *)
Definition round_half_even (n d : Z) : Z :=
  let q := n / d in
  let r := n mod d in
  match 2 * r ?= d with
  | Lt => q
  | Gt => q + 1
  | Eq => if Z.even q then q else q + 1
  end.

(** [floor (log2 (a / d))] for positive [a] and [d]. *)
Definition ilog2 (a d : Z) : Z :=
  let e0 := Z.log2 a - Z.log2 d in
  if d * 2 ^ Z.max 0 e0 <=? a * 2 ^ Z.max 0 (- e0) then e0 else e0 - 1.

(** Rounding of an exact rational to the nearest binary64 value
    (53-bit significand, gradual underflow below [2^-1022], overflow to
    an infinity), ties to even. *)
Definition of_Q (x : Q) : float64 :=
  let n := Qnum x in
  let d := Zpos (Qden x) in
  if n =? 0 then FFin 0 else
  let a := Z.abs n in
  let ex := Z.max (ilog2 a d - 52) (-1074) in
  let m := round_half_even (a * 2 ^ Z.max 0 (- ex)) (d * 2 ^ Z.max 0 ex) in
  if 1024 <=? ex + Z.log2 m then FInf (n <? 0)
  else FFin (Qred (inject_Z (Z.sgn n * m) * pow2 ex)).

Definition is_nan (x : float64) : bool :=
  match x with FNaN => true | _ => false end.

(** IEEE comparison: unordered as soon as one side is NaN. *)
Definition compare (x y : float64) : option comparison :=
  match x, y with
  | FNaN, _ | _, FNaN => None
  | FInf a, FInf b =>
      Some (match a, b with
            | true, false => Lt
            | false, true => Gt
            | _, _ => Eq
            end)
  | FInf a, FFin _ => Some (if a then Lt else Gt)
  | FFin _, FInf b => Some (if b then Gt else Lt)
  | FFin p, FFin q => Some (p ?= q)%Q
  end.

Definition leb (x y : float64) : bool :=
  match compare x y with
  | Some Lt | Some Eq => true
  | _ => false
  end.

Definition geb (x y : float64) : bool := leb y x.

Definition signbit (q : Q) : bool := (Qnum q <? 0).

Definition mul (x y : float64) : float64 :=
  match x, y with
  | FNaN, _ | _, FNaN => FNaN
  | FInf a, FInf b => FInf (xorb a b)
  | FInf a, FFin q | FFin q, FInf a =>
      if Qnum q =? 0 then FNaN else FInf (xorb a (signbit q))
  | FFin p, FFin q => of_Q (p * q)
  end.

Definition div (x y : float64) : float64 :=
  match x, y with
  | FNaN, _ | _, FNaN => FNaN
  | FInf _, FInf _ => FNaN
  | FInf a, FFin q => FInf (xorb a (signbit q))
  | FFin _, FInf _ => FFin 0
  | FFin p, FFin q =>
      if Qnum q =? 0
      then (if Qnum p =? 0 then FNaN else FInf (signbit p))
      else of_Q (p / q)
  end.

(** [numpy.rint]: nearest integer, ties to even. *)
Definition rint (x : float64) : float64 :=
  match x with
  | FFin q => FFin (inject_Z (round_half_even (Qnum q) (Zpos (Qden q))))
  | _ => x
  end.

(** [numpy.round(x, decimals)] for [decimals >= 0]: scale, [rint],
    unscale, each step rounded to binary64. *)
Definition round (decimals : Z) (x : float64) : float64 :=
  let f := of_Q (inject_Z (10 ^ decimals)) in
  div (rint (mul x f)) f.

(** A total order used for sorting group keys; NaN never is a key
    (group-by drops it) and is placed first here. *)
Definition cmp (x y : float64) : comparison :=
  match compare x y with
  | Some c => c
  | None => if is_nan x then (if is_nan y then Eq else Lt) else Gt
  end.

End Float64.
Export Float64.

(* ------------------------------------------------------------------ *)
(** ** Strings *)

Module Str.

Local Open Scope string_scope.

Definition code (c : ascii) : N := N_of_ascii c.

Definition is_digit (c : ascii) : bool :=
  (48 <=? code c)%N && (code c <=? 57)%N.

Definition digit_val (c : ascii) : Z := Z.of_N (code c) - 48.

Definition is_space (c : ascii) : bool :=
  (code c =? 32)%N || ((9 <=? code c)%N && (code c <=? 13)%N).

(** *** Text as code points

    A text is held as its UTF-8 encoding.  [points] reads the code
    points back; a byte that belongs to no well-formed sequence is kept
    as the code point DC00 + byte (the [surrogateescape] convention), so
    that [text (points s)] is [s] for every string. *)

Definition continuation (c : ascii) : bool :=
  (128 <=? code c)%N && (code c <? 192)%N.

Definition low6 (c : ascii) : N := (code c - 128)%N.

Definition stray (c : ascii) : N := (56320 + code c)%N.

Fixpoint points (s : string) : list N :=
  match s with
  | EmptyString => []
  | String c0 s0 =>
      let b := code c0 in
      if (b <? 128)%N then b :: points s0 else
      match s0 with
      | EmptyString => stray c0 :: points s0
      | String c1 s1 =>
          if (194 <=? b)%N && (b <? 224)%N && continuation c1
          then ((b - 192) * 64 + low6 c1)%N :: points s1 else
          match s1 with
          | EmptyString => stray c0 :: points s0
          | String c2 s2 =>
              let p3 := ((b - 224) * 4096 + low6 c1 * 64 + low6 c2)%N in
              if (224 <=? b)%N && (b <? 240)%N
                 && continuation c1 && continuation c2
                 && (2048 <=? p3)%N
                 && negb ((55296 <=? p3)%N && (p3 <? 57344)%N)
              then p3 :: points s2 else
              match s2 with
              | EmptyString => stray c0 :: points s0
              | String c3 s3 =>
                  let p4 := ((b - 240) * 262144 + low6 c1 * 4096
                             + low6 c2 * 64 + low6 c3)%N in
                  if (240 <=? b)%N && (b <? 245)%N
                     && continuation c1 && continuation c2 && continuation c3
                     && (65536 <=? p4)%N && (p4 <? 1114112)%N
                  then p4 :: points s3
                  else stray c0 :: points s0
              end
          end
      end
  end.

Definition byte (n : N) : ascii := ascii_of_N n.

Definition encode_point (p : N) : string :=
  if (p <? 128)%N then String (byte p) ""
  else if (p <? 2048)%N then
    String (byte (192 + p / 64)) (String (byte (128 + p mod 64)) "")
  else if (56448 <=? p)%N && (p <? 56576)%N then
    String (byte (p - 56320)) ""
  else if (p <? 65536)%N then
    String (byte (224 + p / 4096))
      (String (byte (128 + (p / 64) mod 64))
         (String (byte (128 + p mod 64)) ""))
  else
    String (byte (240 + p / 262144))
      (String (byte (128 + (p / 4096) mod 64))
         (String (byte (128 + (p / 64) mod 64))
            (String (byte (128 + p mod 64)) ""))).

Fixpoint text (ps : list N) : string :=
  match ps with
  | [] => ""
  | p :: ps' => encode_point p ++ text ps'
  end.

(** *** [str.upper]

    [str.upper] replaces every code point by its upper-case mapping of
    the Unicode character database (version 14.0), which is one to three
    code points long and does not depend on the neighbours.  The
    mappings to a single code point come in runs [(first, last, step,
    target)]: the code points [first], [first + step], ... up to [last]
    go to [target], [target + step], ...  The mappings to several code
    points are listed one by one.  A code point in neither table is its
    own upper case. *)

Definition upper_runs : list (N * N * N * N) :=
  [(97, 122, 1, 65); (181, 181, 1, 924); (224, 246, 1, 192);
   (248, 254, 1, 216); (255, 255, 1, 376); (257, 303, 2, 256);
   (305, 305, 1, 73); (307, 311, 2, 306); (314, 328, 2, 313);
   (331, 375, 2, 330); (378, 382, 2, 377); (383, 383, 1, 83);
   (384, 384, 1, 579); (387, 389, 2, 386); (392, 392, 1, 391);
   (396, 396, 1, 395); (402, 402, 1, 401); (405, 405, 1, 502);
   (409, 409, 1, 408); (410, 410, 1, 573); (414, 414, 1, 544);
   (417, 421, 2, 416); (424, 424, 1, 423); (429, 429, 1, 428);
   (432, 432, 1, 431); (436, 438, 2, 435); (441, 441, 1, 440);
   (445, 445, 1, 444); (447, 447, 1, 503); (453, 453, 1, 452);
   (454, 454, 1, 452); (456, 456, 1, 455); (457, 457, 1, 455);
   (459, 459, 1, 458); (460, 460, 1, 458); (462, 476, 2, 461);
   (477, 477, 1, 398); (479, 495, 2, 478); (498, 498, 1, 497);
   (499, 499, 1, 497); (501, 501, 1, 500); (505, 543, 2, 504);
   (547, 563, 2, 546); (572, 572, 1, 571); (575, 576, 1, 11390);
   (578, 578, 1, 577); (583, 591, 2, 582); (592, 592, 1, 11375);
   (593, 593, 1, 11373); (594, 594, 1, 11376); (595, 595, 1, 385);
   (596, 596, 1, 390); (598, 599, 1, 393); (601, 601, 1, 399);
   (603, 603, 1, 400); (604, 604, 1, 42923); (608, 608, 1, 403);
   (609, 609, 1, 42924); (611, 611, 1, 404); (613, 613, 1, 42893);
   (614, 614, 1, 42922); (616, 616, 1, 407); (617, 617, 1, 406);
   (618, 618, 1, 42926); (619, 619, 1, 11362); (620, 620, 1, 42925);
   (623, 623, 1, 412); (625, 625, 1, 11374); (626, 626, 1, 413);
   (629, 629, 1, 415); (637, 637, 1, 11364); (640, 640, 1, 422);
   (642, 642, 1, 42949); (643, 643, 1, 425); (647, 647, 1, 42929);
   (648, 648, 1, 430); (649, 649, 1, 580); (650, 651, 1, 433);
   (652, 652, 1, 581); (658, 658, 1, 439); (669, 669, 1, 42930);
   (670, 670, 1, 42928); (837, 837, 1, 921); (881, 883, 2, 880);
   (887, 887, 1, 886); (891, 893, 1, 1021); (940, 940, 1, 902);
   (941, 943, 1, 904); (945, 961, 1, 913); (962, 962, 1, 931);
   (963, 971, 1, 931); (972, 972, 1, 908); (973, 974, 1, 910);
   (976, 976, 1, 914); (977, 977, 1, 920); (981, 981, 1, 934);
   (982, 982, 1, 928); (983, 983, 1, 975); (985, 1007, 2, 984);
   (1008, 1008, 1, 922); (1009, 1009, 1, 929); (1010, 1010, 1, 1017);
   (1011, 1011, 1, 895); (1013, 1013, 1, 917); (1016, 1016, 1, 1015);
   (1019, 1019, 1, 1018); (1072, 1103, 1, 1040); (1104, 1119, 1, 1024);
   (1121, 1153, 2, 1120); (1163, 1215, 2, 1162); (1218, 1230, 2, 1217);
   (1231, 1231, 1, 1216); (1233, 1327, 2, 1232); (1377, 1414, 1, 1329);
   (4304, 4346, 1, 7312); (4349, 4351, 1, 7357); (5112, 5117, 1, 5104);
   (7296, 7296, 1, 1042); (7297, 7297, 1, 1044); (7298, 7298, 1, 1054);
   (7299, 7300, 1, 1057); (7301, 7301, 1, 1058); (7302, 7302, 1, 1066);
   (7303, 7303, 1, 1122); (7304, 7304, 1, 42570); (7545, 7545, 1, 42877);
   (7549, 7549, 1, 11363); (7566, 7566, 1, 42950); (7681, 7829, 2, 7680);
   (7835, 7835, 1, 7776); (7841, 7935, 2, 7840); (7936, 7943, 1, 7944);
   (7952, 7957, 1, 7960); (7968, 7975, 1, 7976); (7984, 7991, 1, 7992);
   (8000, 8005, 1, 8008); (8017, 8023, 2, 8025); (8032, 8039, 1, 8040);
   (8048, 8049, 1, 8122); (8050, 8053, 1, 8136); (8054, 8055, 1, 8154);
   (8056, 8057, 1, 8184); (8058, 8059, 1, 8170); (8060, 8061, 1, 8186);
   (8112, 8113, 1, 8120); (8126, 8126, 1, 921); (8144, 8145, 1, 8152);
   (8160, 8161, 1, 8168); (8165, 8165, 1, 8172); (8526, 8526, 1, 8498);
   (8560, 8575, 1, 8544); (8580, 8580, 1, 8579); (9424, 9449, 1, 9398);
   (11312, 11359, 1, 11264); (11361, 11361, 1, 11360);
   (11365, 11365, 1, 570); (11366, 11366, 1, 574);
   (11368, 11372, 2, 11367); (11379, 11379, 1, 11378);
   (11382, 11382, 1, 11381); (11393, 11491, 2, 11392);
   (11500, 11502, 2, 11499); (11507, 11507, 1, 11506);
   (11520, 11557, 1, 4256); (11559, 11559, 1, 4295);
   (11565, 11565, 1, 4301); (42561, 42605, 2, 42560);
   (42625, 42651, 2, 42624); (42787, 42799, 2, 42786);
   (42803, 42863, 2, 42802); (42874, 42876, 2, 42873);
   (42879, 42887, 2, 42878); (42892, 42892, 1, 42891);
   (42897, 42899, 2, 42896); (42900, 42900, 1, 42948);
   (42903, 42921, 2, 42902); (42933, 42947, 2, 42932);
   (42952, 42954, 2, 42951); (42961, 42961, 1, 42960);
   (42967, 42969, 2, 42966); (42998, 42998, 1, 42997);
   (43859, 43859, 1, 42931); (43888, 43967, 1, 5024);
   (65345, 65370, 1, 65313); (66600, 66639, 1, 66560);
   (66776, 66811, 1, 66736); (66967, 66977, 1, 66928);
   (66979, 66993, 1, 66940); (66995, 67001, 1, 66956);
   (67003, 67004, 1, 66964); (68800, 68850, 1, 68736);
   (71872, 71903, 1, 71840); (93792, 93823, 1, 93760);
   (125218, 125251, 1, 125184)]%N.

Definition upper_special : list (N * list N) :=
  [(223, [83; 83]); (329, [700; 78]); (496, [74; 780]);
   (912, [921; 776; 769]); (944, [933; 776; 769]); (1415, [1333; 1362]);
   (7830, [72; 817]); (7831, [84; 776]); (7832, [87; 778]);
   (7833, [89; 778]); (7834, [65; 702]); (8016, [933; 787]);
   (8018, [933; 787; 768]); (8020, [933; 787; 769]);
   (8022, [933; 787; 834]); (8064, [7944; 921]); (8065, [7945; 921]);
   (8066, [7946; 921]); (8067, [7947; 921]); (8068, [7948; 921]);
   (8069, [7949; 921]); (8070, [7950; 921]); (8071, [7951; 921]);
   (8072, [7944; 921]); (8073, [7945; 921]); (8074, [7946; 921]);
   (8075, [7947; 921]); (8076, [7948; 921]); (8077, [7949; 921]);
   (8078, [7950; 921]); (8079, [7951; 921]); (8080, [7976; 921]);
   (8081, [7977; 921]); (8082, [7978; 921]); (8083, [7979; 921]);
   (8084, [7980; 921]); (8085, [7981; 921]); (8086, [7982; 921]);
   (8087, [7983; 921]); (8088, [7976; 921]); (8089, [7977; 921]);
   (8090, [7978; 921]); (8091, [7979; 921]); (8092, [7980; 921]);
   (8093, [7981; 921]); (8094, [7982; 921]); (8095, [7983; 921]);
   (8096, [8040; 921]); (8097, [8041; 921]); (8098, [8042; 921]);
   (8099, [8043; 921]); (8100, [8044; 921]); (8101, [8045; 921]);
   (8102, [8046; 921]); (8103, [8047; 921]); (8104, [8040; 921]);
   (8105, [8041; 921]); (8106, [8042; 921]); (8107, [8043; 921]);
   (8108, [8044; 921]); (8109, [8045; 921]); (8110, [8046; 921]);
   (8111, [8047; 921]); (8114, [8122; 921]); (8115, [913; 921]);
   (8116, [902; 921]); (8118, [913; 834]); (8119, [913; 834; 921]);
   (8124, [913; 921]); (8130, [8138; 921]); (8131, [919; 921]);
   (8132, [905; 921]); (8134, [919; 834]); (8135, [919; 834; 921]);
   (8140, [919; 921]); (8146, [921; 776; 768]); (8147, [921; 776; 769]);
   (8150, [921; 834]); (8151, [921; 776; 834]); (8162, [933; 776; 768]);
   (8163, [933; 776; 769]); (8164, [929; 787]); (8166, [933; 834]);
   (8167, [933; 776; 834]); (8178, [8186; 921]); (8179, [937; 921]);
   (8180, [911; 921]); (8182, [937; 834]); (8183, [937; 834; 921]);
   (8188, [937; 921]); (64256, [70; 70]); (64257, [70; 73]);
   (64258, [70; 76]); (64259, [70; 70; 73]); (64260, [70; 70; 76]);
   (64261, [83; 84]); (64262, [83; 84]); (64275, [1348; 1350]);
   (64276, [1348; 1333]); (64277, [1348; 1339]); (64278, [1358; 1350]);
   (64279, [1348; 1341])]%N.

Definition in_run (p : N) (r : N * N * N * N) : bool :=
  let '(first, last, step, _) := r in
  (first <=? p)%N && (p <=? last)%N && ((p - first) mod step =? 0)%N.

Definition upper_point (p : N) : list N :=
  match find (in_run p) upper_runs with
  | Some (first, _, _, target) => [(target + (p - first))%N]
  | None =>
      match find (fun e : N * list N => (fst e =? p)%N) upper_special with
      | Some e => snd e
      | None => [p]
      end
  end.

Definition upper (s : string) : string :=
  text (flat_map upper_point (points s)).

(** [str.lower], applied by the scripts to column names only: the
    letters A to Z go to a to z. *)
Definition lower_char (c : ascii) : ascii :=
  if (65 <=? code c)%N && (code c <=? 90)%N
  then ascii_of_N (code c + 32) else c.

Fixpoint map_chars (f : ascii -> ascii) (s : string) : string :=
  match s with
  | EmptyString => EmptyString
  | String c s' => String (f c) (map_chars f s')
  end.

Definition lower : string -> string := map_chars lower_char.

(** [needle in hay] *)
Fixpoint contains (needle hay : string) : bool :=
  prefix needle hay ||
  match hay with
  | EmptyString => false
  | String _ hay' => contains needle hay'
  end.

(** [sep.join(parts)] *)
Fixpoint join (sep : string) (parts : list string) : string :=
  match parts with
  | [] => ""
  | [p] => p
  | p :: ps => p ++ sep ++ join sep ps
  end.

(** [s.split(c)] for a one-character separator. *)
Fixpoint split (c : ascii) (s : string) : list string :=
  match s with
  | EmptyString => [""]
  | String a s' =>
      if Ascii.eqb a c then "" :: split c s'
      else match split c s' with
           | [] => [String a ""]
           | p :: ps => String a p :: ps
           end
  end.

(** [re.search(pat, s) is not None] for the patterns the scripts use:
    an alternation [a1|a2|...] of literal texts. *)
Definition re_search (pat s : string) : bool :=
  existsb (fun alt => contains alt s) (split "|" pat).

Fixpoint lstrip (s : string) : string :=
  match s with
  | String c s' => if is_space c then lstrip s' else s
  | EmptyString => s
  end.

Fixpoint rstrip (s : string) : string :=
  match s with
  | EmptyString => EmptyString
  | String c s' =>
      match rstrip s' with
      | EmptyString => if is_space c then EmptyString else String c EmptyString
      | t => String c t
      end
  end.

Definition strip (s : string) : string := lstrip (rstrip s).

(** Longest run of decimal digits at the front of [s]: its value
    (continuing [acc]), its length, and the rest of [s]. *)
Fixpoint read_digits (s : string) (acc : Z) (n : Z) : Z * Z * string :=
  match s with
  | String c s' =>
      if is_digit c then read_digits s' (10 * acc + digit_val c) (n + 1)
      else (acc, n, s)
  | EmptyString => (acc, n, s)
  end.

Definition show_nat (n : nat) : string :=
  NilEmpty.string_of_uint (Nat.to_uint n).

End Str.

(* ------------------------------------------------------------------ *)
(** ** The pandas operations the scripts call *)

Module Pandas.

Import Str.
Local Open Scope string_scope.

(** A timestamp, as [pd.to_datetime] yields it. *)
Record datetime : Type := mkDatetime {
  year : Z; month : Z; day : Z;
  hour : Z; minute : Z; second : Z
}.

(** A coordinate cell: JSON null, a number, or text. *)
Inductive cell : Type :=
| CNull
| CNum (x : float64)
| CStr (s : string).

(** A date cell: null (None, NaN or NaT), raw text, or a timestamp. *)
Inductive date_cell : Type :=
| DNull
| DStr (s : string)
| DTime (t : datetime).

(** The two text parsers behind [pd.to_numeric] and [pd.to_datetime].
    A text that does not parse gives NaN, respectively no timestamp
    ([errors='coerce']).  The pipeline is defined over any such pair;
    [decimal_iso] below is the one used on concrete inputs. *)
Class Coercion : Type := {
  str_to_float : string -> float64;
  str_to_datetime : string -> option datetime
}.

(** *** Decimal literals *)

Definition read_sign (s : string) : bool * string :=
  match s with
  | String c r =>
      if Ascii.eqb c "-" then (true, r)
      else if Ascii.eqb c "+" then (false, r)
      else (false, s)
  | EmptyString => (false, s)
  end.

(** Optional exponent part [e[+-]ddd] that ends the literal. *)
Definition read_exponent (s : string) : option Z :=
  match s with
  | EmptyString => Some 0%Z
  | String c r =>
      if Ascii.eqb c "e" || Ascii.eqb c "E" then
        let '(eneg, r1) := read_sign r in
        let '(ev, en, r2) := read_digits r1 0 0 in
        if (en =? 0)%Z then None
        else match r2 with
             | EmptyString => Some (if eneg then - ev else ev)%Z
             | String _ _ => None
             end
      else None
  end.

Definition scale10 (m k : Z) : Q :=
  if (0 <=? k)%Z then inject_Z (m * 10 ^ k) else m # Z.to_pos (10 ^ (- k)).

Definition parse_float (s : string) : float64 :=
  let '(neg, body) := read_sign (strip s) in
  let l := lower body in
  if (l =? "inf") || (l =? "infinity") then FInf neg else
  let '(ip, n1, r1) := read_digits body 0 0 in
  let '(m, n2, r2) :=
    match r1 with
    | String c r => if Ascii.eqb c "." then read_digits r ip 0 else (ip, 0%Z, r1)
    | EmptyString => (ip, 0%Z, r1)
    end in
  if (n1 + n2 =? 0)%Z then FNaN else
  match read_exponent r2 with
  | None => FNaN
  | Some e =>
      let v := scale10 m (e - n2) in
      of_Q (if neg then (- v)%Q else v)
  end.

(** *** ISO-8601 dates: [YYYY-MM-DD], optionally [THH:MM:SS[.fff]] *)

Definition is_leap (y : Z) : bool :=
  ((y mod 4 =? 0) && negb (y mod 100 =? 0) || (y mod 400 =? 0))%Z.

Definition days_in_month (y m : Z) : Z :=
  if (m =? 2)%Z then (if is_leap y then 29 else 28)%Z
  else if ((m =? 4) || (m =? 6) || (m =? 9) || (m =? 11))%Z then 30%Z
  else 31%Z.

Definition parse_time (s : string) : option (Z * Z * Z) :=
  let '(h, nh, r1) := read_digits s 0 0 in
  match r1 with
  | String c1 r1' =>
      let '(mi, nmi, r2) := read_digits r1' 0 0 in
      match r2 with
      | String c2 r2' =>
          let '(se, nse, r3) := read_digits r2' 0 0 in
          let frac_ok :=
            match r3 with
            | EmptyString => true
            | String c3 r3' =>
                let '(_, nf, r4) := read_digits r3' 0 0 in
                Ascii.eqb c3 "." && (0 <? nf)%Z &&
                match r4 with EmptyString => true | _ => false end
            end in
          if (Ascii.eqb c1 ":" && Ascii.eqb c2 ":" && frac_ok &&
              (nh =? 2) && (nmi =? 2) && (nse =? 2) &&
              (h <? 24) && (mi <? 60) && (se <? 60))%Z
          then Some (h, mi, se) else None
      | EmptyString => None
      end
  | EmptyString => None
  end.

Definition parse_datetime (s : string) : option datetime :=
  let '(y, ny, r1) := read_digits (strip s) 0 0 in
  match r1 with
  | String c1 r1' =>
      let '(m, nm, r2) := read_digits r1' 0 0 in
      match r2 with
      | String c2 r2' =>
          let '(d, nd, r3) := read_digits r2' 0 0 in
          if (Ascii.eqb c1 "-" && Ascii.eqb c2 "-" &&
              (ny =? 4) && (nm =? 2) && (nd =? 2) &&
              (1678 <=? y) && (y <=? 2261) &&
              (1 <=? m) && (m <=? 12) &&
              (1 <=? d) && (d <=? days_in_month y m))%Z
          then match r3 with
               | EmptyString => Some (mkDatetime y m d 0 0 0)
               | String sep r4 =>
                   if Ascii.eqb sep "T" || Ascii.eqb sep " " then
                     match parse_time r4 with
                     | Some (h, mi, se) => Some (mkDatetime y m d h mi se)
                     | None => None
                     end
                   else None
               end
          else None
      | EmptyString => None
      end
  | EmptyString => None
  end.

Definition decimal_iso : Coercion :=
  {| str_to_float := parse_float; str_to_datetime := parse_datetime |}.

(** *** Element-wise column operations *)

Section Elementwise.
Context {C : Coercion}.

(** [pd.to_numeric(col, errors='coerce')] *)
Definition to_float (c : cell) : float64 :=
  match c with
  | CNull => FNaN
  | CNum x => x
  | CStr s => str_to_float s
  end.

Definition to_numeric (c : cell) : cell := CNum (to_float c).

(** [pd.to_datetime(col, errors='coerce')] *)
Definition to_datetime (d : date_cell) : date_cell :=
  match d with
  | DNull => DNull
  | DStr s => match str_to_datetime s with
              | Some t => DTime t
              | None => DNull
              end
  | DTime t => DTime t
  end.
End Elementwise.

(** [col.notna()] *)
Definition notna (c : cell) : bool :=
  match c with
  | CNull => false
  | CNum x => negb (is_nan x)
  | CStr _ => true
  end.

Definition date_notna (d : date_cell) : bool :=
  match d with DNull => false | _ => true end.

Definition opt_notna {A : Type} (o : option A) : bool :=
  match o with Some _ => true | None => false end.

(** The float a numeric column holds in a cell (NaN for a missing one). *)
Definition num (c : cell) : float64 :=
  match c with CNum x => x | _ => FNaN end.

(** [col >= v] and [col <= v] on a float column. *)
Definition col_ge (c : cell) (v : float64) : bool := geb (num c) v.
Definition col_le (c : cell) (v : float64) : bool := leb (num c) v.

(** [col > 0] on the fatality count; a missing count compares false. *)
Definition gt0 (n : option Z) : bool :=
  match n with Some k => (0 <? k)%Z | None => false end.

(** [col.str.upper()]: null stays null. *)
Definition str_upper (o : option string) : option string :=
  option_map upper o.

(** [col.str.contains(pat, na=na)] *)
Definition str_contains (pat : string) (na : bool) (o : option string) : bool :=
  match o with
  | Some s => re_search pat s
  | None => na
  end.

(** [col.sum()]: missing values are skipped. *)
Definition sum (xs : list (option Z)) : Z :=
  fold_right (fun x acc => match x with Some k => k + acc | None => acc end)%Z 0%Z xs.

(** [col.count()]: the number of non-null cells. *)
Definition count {A : Type} (notnull : A -> bool) (xs : list A) : nat :=
  List.length (filter notnull xs).

(** *** Exceptions *)

Inductive exn : Type := KeyError | TypeError | AttributeError.

Inductive result (A : Type) : Type :=
| Ok (a : A)
| Raise (e : exn).
Arguments Ok {A} a.
Arguments Raise {A} e.

Definition bind {A B : Type} (m : result A) (f : A -> result B) : result B :=
  match m with
  | Ok a => f a
  | Raise e => Raise e
  end.

Fixpoint mapM {A B : Type} (f : A -> result B) (l : list A) : result (list B) :=
  match l with
  | [] => Ok []
  | a :: l' => bind (f a) (fun b => bind (mapM f l') (fun bs => Ok (b :: bs)))
  end.

(** *** Sorting *)

Section Sort.
Context {A : Type} (le : A -> A -> bool).

Fixpoint insert (a : A) (l : list A) : list A :=
  match l with
  | [] => [a]
  | b :: l' => if le a b then a :: l else b :: insert a l'
  end.

(** A stable sort; the relative order pandas gives to equal keys is
    not relied upon anywhere below. *)
Definition sort (l : list A) : list A := fold_right insert [] l.
End Sort.

(** *** Group-by *)

Section GroupBy.
Context {K R : Type} (cmp : K -> K -> comparison).

(** Adds row [r] to the group of key [k]; groups are kept in
    ascending key order ([sort=True]), rows in frame order. *)
Fixpoint add_row (k : K) (r : R) (gs : list (K * list R)) : list (K * list R) :=
  match gs with
  | [] => [(k, [r])]
  | (k', rs) :: gs' =>
      match cmp k k' with
      | Eq => (k', (rs ++ [r])%list) :: gs'
      | Lt => (k, [r]) :: gs
      | Gt => (k', rs) :: add_row k r gs'
      end
  end.

(** [df.groupby(key)]: rows whose key is null are left out
    ([dropna=True]). *)
Definition groupby (key : R -> option K) (df : list R) : list (K * list R) :=
  fold_left (fun gs r => match key r with
                         | Some k => add_row k r gs
                         | None => gs
                         end) df [].
End GroupBy.

(** *** Mode *)

Fixpoint dropna {A : Type} (xs : list (option A)) : list A :=
  match xs with
  | [] => []
  | Some a :: xs' => a :: dropna xs'
  | None :: xs' => dropna xs'
  end.

Definition occurrences (v : string) (vals : list string) : nat :=
  count_occ string_dec vals v.

(** [x.mode()]: the most frequent non-null values, in ascending order. *)
Definition mode (x : list (option string)) : list string :=
  let vals := dropna x in
  let best := fold_right Nat.max 0%nat (map (fun v => occurrences v vals) vals) in
  sort String.leb
    (nodup string_dec (filter (fun v => Nat.eqb (occurrences v vals) best) vals)).

(** [s[0]] on the series [mode] returns. *)
Definition item0 (s : list string) : result string :=
  match s with
  | v :: _ => Ok v
  | [] => Raise KeyError
  end.

End Pandas.

(* ------------------------------------------------------------------ *)
(** ** What a run emits: log records, console lines *)

Module Runtime.

Local Open Scope string_scope.

Inductive level : Type := INFO | WARNING | ERROR.

Inductive event : Type :=
| Log (lvl : level) (msg : string)
| Print (text : string).

(** A computation that appends to the run's trace. *)
Definition io (A : Type) : Type := A * list event.

Definition ret {A : Type} (a : A) : io A := (a, []).

Definition bind {A B : Type} (m : io A) (k : A -> io B) : io B :=
  let '(a, t1) := m in
  let '(b, t2) := k a in
  (b, (t1 ++ t2)%list).

Definition emit (e : event) : io unit := (tt, [e]).
Definition log (lvl : level) (msg : string) : io unit := emit (Log lvl msg).
Definition print (text : string) : io unit := emit (Print text).
Definition emit_all (t : list event) : io unit := (tt, t).

Definition value {A : Type} (m : io A) : A := fst m.
Definition trace {A : Type} (m : io A) : list event := snd m.

Definition nl : string := String (ascii_of_nat 10) "".

(** The answer of the HTTP endpoint as [pd.read_json] sees it. *)
Inductive response (F : Type) : Type :=
| ReadFailed (e : string)
| ReadOk (df : F).
Arguments ReadFailed {F} e.
Arguments ReadOk {F} df.

End Runtime.

Declare Scope io_scope.
Delimit Scope io_scope with io.
Notation "x <- m ;; k" := (Runtime.bind m (fun x => k))
  (at level 61, m at next level, right associativity) : io_scope.
Notation "m ;; k" := (Runtime.bind m (fun _ => k))
  (at level 61, right associativity) : io_scope.

(* ------------------------------------------------------------------ *)
(** ** Python values the report code converts, slices and looks up *)

Module Python.

Local Open Scope string_scope.

Inductive error : Type := ValueError | TypeError.

Inductive outcome (A : Type) : Type :=
| Returns (a : A)
| Throws (e : error).
Arguments Returns {A} a.
Arguments Throws {A} e.

Definition and_then {A B : Type} (m : outcome A) (k : A -> outcome B) : outcome B :=
  match m with
  | Returns a => k a
  | Throws e => Throws e
  end.

(** A [for] loop that builds a list; the first error ends it. *)
Fixpoint for_each {A B : Type} (f : A -> outcome B) (l : list A) : outcome (list B) :=
  match l with
  | [] => Returns []
  | a :: l' =>
      and_then (f a) (fun b => and_then (for_each f l') (fun bs => Returns (b :: bs)))
  end.

(** [int(x)] on a numeric cell: NaN has no integer. *)
Definition int (x : option Z) : outcome Z :=
  match x with
  | Some k => Returns k
  | None => Throws ValueError
  end.


(** [format(c, '.4f')] on a coordinate cell: a float (NaN too) has
    this format, a text raises ValueError and None raises TypeError.
    The result is the float that was formatted. *)
Definition format_f (c : Pandas.cell) : outcome float64 :=
  match c with
  | Pandas.CNum x => Returns x
  | Pandas.CStr _ => Throws ValueError
  | Pandas.CNull => Throws TypeError
  end.

(** [d.get(k, default)]; a null key is in no dictionary. *)
Fixpoint dict_get (d : list (string * string)) (k : option string)
         (default : string) : string :=
  match k, d with
  | Some key, (key', v) :: d' =>
      if String.eqb key key' then v else dict_get d' k default
  | _, _ => default
  end.

(** [col.unique()]: the distinct values, each at its first position. *)
Fixpoint unique (l : list string) : list string :=
  match l with
  | [] => []
  | a :: l' => a :: filter (fun b => negb (String.eqb b a)) (unique l')
  end.





End Python.

(* ------------------------------------------------------------------ *)
(** ** The safety-event records and what the three map scripts share *)

Module Events.

Import Str Pandas Runtime.
Local Open Scope string_scope.
Local Open Scope io_scope.

(** One record of the Major Safety Events dataset.  A field a JSON
    record lacks is a null cell of its column. *)
Record row : Type := mkRow {
  agency : option string;
  event_type : option string;
  location_type : option string;
  incident_date : date_cell;
  latitude : cell;
  longitude : cell;
  total_fatalities : option Z;
  total_injuries : option Z;
  approximate_address : option string
}.

Definition frame : Type := list row.

Definition set_latitude (r : row) (c : cell) : row :=
  mkRow (agency r) (event_type r) (location_type r) (incident_date r)
        c (longitude r)
        (total_fatalities r) (total_injuries r) (approximate_address r).

Definition set_longitude (r : row) (c : cell) : row :=
  mkRow (agency r) (event_type r) (location_type r) (incident_date r)
        (latitude r) c
        (total_fatalities r) (total_injuries r) (approximate_address r).

Definition set_incident_date (r : row) (d : date_cell) : row :=
  mkRow (agency r) (event_type r) (location_type r) d
        (latitude r) (longitude r)
        (total_fatalities r) (total_injuries r) (approximate_address r).

(** [len(df)] *)
Definition len {A : Type} (df : list A) : nat := List.length df.

(** [load_fta_data], the same in all four scripts. *)
Definition load_fta_data {F : Type} (resp : response (list F)) : io (option (list F)) :=
  log INFO "Downloading FTA Major Safety Events data..." ;;
  match resp with
  | ReadOk df =>
      log INFO ("Successfully loaded " ++ show_nat (len df) ++ " safety events") ;;
      ret (Some df)
  | ReadFailed e =>
      log ERROR ("Failed to load data: " ++ e) ;;
      ret None
  end.

Definition ny_keywords : list string :=
  ["NEW YORK"; "NYC"; "MTA"; "METROPOLITAN TRANSPORTATION"].

(** [filter_new_york_data], the same in the three map scripts. *)
Definition filter_new_york_data (df : frame) : io frame :=
  log INFO "Filtering for New York transit agencies..." ;;
  let ny_data :=
    filter (fun r => str_contains (join "|" ny_keywords) false
                                  (str_upper (agency r))) df in
  log INFO ("Found " ++ show_nat (len ny_data) ++ " incidents in New York") ;;
  ret ny_data.

(** The approximate NYC bounds, as the binary64 values of the literals
    [40.4], [41.0], [-74.3] and [-73.7]. *)
Definition lat_min : float64 := of_Q (404 # 10).
Definition lat_max : float64 := of_Q (41 # 1).
Definition lon_min : float64 := of_Q (- 743 # 10).
Definition lon_max : float64 := of_Q (- 737 # 10).

(** *** Group-by on event type (scripts two and three) *)

Record type_bucket : Type := mkTypeBucket {
  tb_event_type : string;
  tb_total_fatalities : Z;
  tb_incidents : nat
}.

(** [df.groupby('event_type').agg({'total_fatalities': 'sum',
    'event_type': 'count'})] *)
Definition event_groups (df : frame) : list type_bucket :=
  map (fun g : string * list row =>
         mkTypeBucket (fst g)
                      (sum (map total_fatalities (snd g)))
                      (count opt_notna (map event_type (snd g))))
      (groupby String.compare event_type df).

(** [.sort_values('total_fatalities', ascending=False)] *)
Definition event_summary (df : frame) : list type_bucket :=
  sort (fun a b => (tb_total_fatalities b <=? tb_total_fatalities a)%Z)
       (event_groups df).

(** The fatality count as a number (0 for a missing one). *)
Definition deaths (r : row) : Z :=
  match total_fatalities r with
  | Some k => k
  | None => 0%Z
  end.

(** The row has a fatality count. *)
Definition has_count (r : row) : bool := opt_notna (total_fatalities r).

(** [df.nlargest(n, 'total_fatalities')]: the rows with a count by
    descending count, equal counts in frame order ([keep='first']),
    then the rows without a count in frame order; the first [n] of
    these. *)
Definition nlargest (n : nat) (df : frame) : frame :=
  firstn n (sort (fun a b => (deaths b <=? deaths a)%Z) (filter has_count df)
            ++ filter (fun r => negb (has_count r)) df).

End Events.

(* ------------------------------------------------------------------ *)
(** ** fta_deadly_events_map.py *)

Module DeadlyEventsMap.

Import Str Pandas Runtime Events.
Local Open Scope string_scope.
Local Open Scope io_scope.

Definition load_fta_data := @Events.load_fta_data row.
Definition filter_new_york_data := Events.filter_new_york_data.

Section Coerce.
Context {C : Coercion}.

Definition prepare_fatal_events (df : frame) : io frame :=
  log INFO "Filtering for fatal events with location data..." ;;
  let fatal_df := filter (fun r => gt0 (total_fatalities r)) df in
  log INFO ("Found " ++ show_nat (len fatal_df) ++ " fatal incidents") ;;
  let fatal_df :=
    filter (fun r => notna (latitude r) && notna (longitude r)) fatal_df in
  let fatal_df :=
    map (fun r => set_latitude r (to_numeric (latitude r))) fatal_df in
  let fatal_df :=
    map (fun r => set_longitude r (to_numeric (longitude r))) fatal_df in
  let fatal_df :=
    filter (fun r => notna (latitude r) && notna (longitude r)) fatal_df in
  log INFO ("Found " ++ show_nat (len fatal_df)
            ++ " fatal incidents with valid coordinates") ;;
  ret fatal_df.
End Coerce.

(** *** The table of [print_deadliest_locations] *)

(** A row with the two columns [lat_rounded] and [lon_rounded] added. *)
Record located : Type := mkLocated {
  base : row;
  lat_rounded : float64;
  lon_rounded : float64
}.

(** [col.round(3)]; a column that still holds text has no [round]. *)
Definition round_col (c : cell) : result float64 :=
  match c with
  | CNull => Ok FNaN
  | CNum x => Ok (Float64.round 3 x)
  | CStr _ => Raise TypeError
  end.

Definition add_rounded (r : row) : result located :=
  Pandas.bind (round_col (latitude r)) (fun la =>
  Pandas.bind (round_col (longitude r)) (fun lo =>
  Ok (mkLocated r la lo))).

Definition coord : Type := float64 * float64.

Definition coord_key (l : located) : option coord :=
  if is_nan (lat_rounded l) || is_nan (lon_rounded l) then None
  else Some (lat_rounded l, lon_rounded l).

Definition coord_cmp (a b : coord) : comparison :=
  match Float64.cmp (fst a) (fst b) with
  | Eq => Float64.cmp (snd a) (snd b)
  | c => c
  end.

Record bucket : Type := mkBucket {
  b_coord : coord;
  b_total_fatalities : Z;
  b_num_incidents : nat;
  b_event_type : string;
  b_location_type : string
}.

(** [lambda x: x.mode()[0] if len(x) > 0 else 'Unknown'] *)
Definition modal_label (x : list (option string)) : result string :=
  if (0 <? len x)%nat then item0 (mode x) else Ok "Unknown".

(** The aggregation of one group: fatalities summed, non-null incident
    dates counted, the two labels from [modal_label]. *)
Definition agg (g : coord * list located) : result bucket :=
  let rows := map base (snd g) in
  Pandas.bind (modal_label (map event_type rows)) (fun et =>
  Pandas.bind (modal_label (map location_type rows)) (fun lt =>
  Ok (mkBucket (fst g)
               (sum (map total_fatalities rows))
               (count date_notna (map incident_date rows))
               et lt))).

(** The grouped table before it is sorted. *)
Definition location_groups (df : frame) : result (list bucket) :=
  Pandas.bind (mapM add_rounded df) (fun located_df =>
  mapM agg (groupby coord_cmp coord_key located_df)).

(** The local [location_fatalities] after [sort_values]. *)
Definition location_fatalities (df : frame) : result (list bucket) :=
  Pandas.bind (location_groups df) (fun t =>
  Ok (sort (fun a b => (b_total_fatalities b <=? b_total_fatalities a)%Z) t)).

(** The rows of the "Top 15 Deadliest Locations" table; an empty frame
    returns before any grouping. *)
Definition print_deadliest_locations (df : frame) : result (list bucket) :=
  if Nat.eqb (len df) 0 then Ok []
  else Pandas.bind (location_fatalities df) (fun t => Ok (firstn 15 t)).

(** *** [main] *)

Section Main.
Context {C : Coercion}.
(** What the report stage (table, figure, closing banner) emits. *)
Variable report : frame -> list event.

Definition main (resp : response frame) : io unit :=
  log INFO "Starting FTA Deadly Events Visualization..." ;;
  df <- load_fta_data resp ;;
  match df with
  | None => log ERROR "Cannot proceed without data"
  | Some df =>
      ny_df <- filter_new_york_data df ;;
      fatal_df <- prepare_fatal_events ny_df ;;
      if Nat.eqb (len fatal_df) 0
      then log ERROR "No fatal incidents with coordinates found for New York"
      else emit_all (report fatal_df)
  end.
End Main.

End DeadlyEventsMap.

(* ------------------------------------------------------------------ *)
(** ** fta_nyc_basemap.py *)

Module NycBasemap.

Import Str Pandas Runtime Events.
Local Open Scope string_scope.
Local Open Scope io_scope.

Definition load_fta_data := @Events.load_fta_data row.
Definition filter_new_york_data := Events.filter_new_york_data.

Section Coerce.
Context {C : Coercion}.

Definition prepare_fatal_events (df : frame) : io frame :=
  log INFO "Filtering for fatal events with location data..." ;;
  let fatal_df := filter (fun r => gt0 (total_fatalities r)) df in
  log INFO ("Found " ++ show_nat (len fatal_df) ++ " fatal incidents") ;;
  let fatal_df :=
    filter (fun r => notna (latitude r) && notna (longitude r)) fatal_df in
  let fatal_df :=
    map (fun r => set_latitude r (to_numeric (latitude r))) fatal_df in
  let fatal_df :=
    map (fun r => set_longitude r (to_numeric (longitude r))) fatal_df in
  let fatal_df :=
    filter (fun r => notna (latitude r) &&
                     notna (longitude r) &&
                     col_ge (latitude r) lat_min &&
                     col_le (latitude r) lat_max &&
                     col_ge (longitude r) lon_min &&
                     col_le (longitude r) lon_max) fatal_df in
  log INFO ("Found " ++ show_nat (len fatal_df)
            ++ " fatal incidents with valid NYC coordinates") ;;
  ret fatal_df.
End Coerce.

(** The "By Event Type" table of [print_summary]. *)
Definition event_summary := Events.event_summary.

Section Main.
Context {C : Coercion}.
(** What the report stage (summary, map file, closing banner) emits. *)
Variable report : frame -> list event.

Definition main (resp : response frame) : io unit :=
  log INFO "Starting FTA NYC Fatal Events Mapping..." ;;
  df <- load_fta_data resp ;;
  match df with
  | None => log ERROR "Cannot proceed without data"
  | Some df =>
      ny_df <- filter_new_york_data df ;;
      fatal_df <- prepare_fatal_events ny_df ;;
      if Nat.eqb (len fatal_df) 0
      then log ERROR "No fatal incidents with coordinates found for NYC"
      else emit_all (report fatal_df)
  end.
End Main.

(** *** [create_interactive_map] *)

Definition event_colors : list (string * string) :=
  [("Suicide", "purple");
   ("Rail Collision", "red");
   ("Non-Rail Collision", "orange");
   ("Homicide", "darkred");
   ("Homicide not against Transit Worker", "darkred");
   ("Other", "gray")].

(** A circle marker: where it is, its radius and colour, and the layer
    it is added to (a feature group, or the map itself). *)
Record marker : Type := mkMarker {
  m_latitude : cell;
  m_longitude : cell;
  m_radius : Z;
  m_color : string;
  m_layer : option string
}.

(** The map object as far as the data decides it: the feature groups,
    the markers and the rows of the heat layer. *)
Record folium_map : Type := mkMap {
  feature_groups : list string;
  markers : list marker;
  heat_data : list (cell * cell * option Z)
}.

(** The keys of [feature_groups]: the non-null event types of the
    frame, each once, in order of first appearance. *)
Definition feature_group_names (df : frame) : list string :=
  Python.unique (dropna (map event_type df)).

(** folium's check of the location of a marker: NaN is no place. *)
Definition validate_location (lat lon : float64) : Python.outcome unit :=
  if is_nan lat || is_nan lon
  then Python.Throws Python.ValueError
  else Python.Returns tt.

(** The body of the marker loop for one row: the two counts, the popup
    text (whose last line formats the coordinates), colour and radius,
    and the circle marker with its layer. *)
Definition make_marker (groups : list string) (r : row) : Python.outcome marker :=
  Python.and_then (Python.int (total_fatalities r)) (fun fatalities =>
  Python.and_then (Python.int (total_injuries r)) (fun injuries =>
  Python.and_then (Python.format_f (latitude r)) (fun lat =>
  Python.and_then (Python.format_f (longitude r)) (fun lon =>
  let color := Python.dict_get event_colors (event_type r) "gray" in
  let radius := (5 + fatalities * 3)%Z in
  Python.and_then (validate_location lat lon) (fun _ =>
  Python.Returns
    (mkMarker (latitude r) (longitude r) radius color
              (match event_type r with
               | Some e => if existsb (String.eqb e) groups then Some e else None
               | None => None
               end))))))).

Definition create_interactive_map (df : frame)
  : io (Python.outcome (option folium_map)) :=
  if Nat.eqb (len df) 0 then
    log WARNING "No fatal events with coordinates found" ;;
    ret (Python.Returns None)
  else
    let groups := feature_group_names df in
    ret (Python.and_then (Python.for_each (make_marker groups) df) (fun ms =>
         Python.Returns
           (Some (mkMap groups ms
                        (map (fun r => (latitude r, longitude r, total_fatalities r))
                             df))))).

(** *** The "By Year" and "Top 10" parts of [print_summary] *)


Section Summary.
Context {C : Coercion}.

(** [df['incident_date'] = pd.to_datetime(df['incident_date'],
    errors='coerce')] *)
Definition with_dates (df : frame) : frame :=
  map (fun r => set_incident_date r (to_datetime (incident_date r))) df.

(** [df['incident_date'].dt.year]; NaT has no year. *)
Definition year_of (r : row) : option Z :=
  match incident_date r with
  | DTime t => Some (year t)
  | _ => None
  end.

(** [df['year'].value_counts().sort_index()]: the number of rows of
    each year, years ascending. *)
Definition year_counts (df : frame) : list (Z * nat) :=
  map (fun g : Z * list row => (fst g, len (snd g)))
      (groupby Z.compare year_of (with_dates df)).



End Summary.

End NycBasemap.

(* ------------------------------------------------------------------ *)
(** ** fta_nyc_time_slider_map.py *)

Module NycTimeSliderMap.

Import Str Pandas Runtime Events.
Local Open Scope string_scope.
Local Open Scope io_scope.

Definition load_fta_data := @Events.load_fta_data row.
Definition filter_new_york_data := Events.filter_new_york_data.

Section Coerce.
Context {C : Coercion}.

Definition prepare_fatal_events (df : frame) : io frame :=
  log INFO "Filtering for fatal events with location data..." ;;
  let fatal_df := filter (fun r => gt0 (total_fatalities r)) df in
  log INFO ("Found " ++ show_nat (len fatal_df) ++ " fatal incidents") ;;
  let fatal_df :=
    filter (fun r => notna (latitude r) && notna (longitude r)) fatal_df in
  let fatal_df :=
    map (fun r => set_latitude r (to_numeric (latitude r))) fatal_df in
  let fatal_df :=
    map (fun r => set_longitude r (to_numeric (longitude r))) fatal_df in
  let fatal_df :=
    map (fun r => set_incident_date r (to_datetime (incident_date r))) fatal_df in
  let fatal_df :=
    filter (fun r => notna (latitude r) &&
                     notna (longitude r) &&
                     date_notna (incident_date r) &&
                     col_ge (latitude r) lat_min &&
                     col_le (latitude r) lat_max &&
                     col_ge (longitude r) lon_min &&
                     col_le (longitude r) lon_max) fatal_df in
  log INFO ("Found " ++ show_nat (len fatal_df)
            ++ " fatal incidents with valid NYC coordinates and dates") ;;
  ret fatal_df.
End Coerce.

(** *** The tables of [print_temporal_summary] *)

Definition period : Type := Z * Z.

(** [df['incident_date'].dt.to_period('M')]; NaT stays null. *)
Definition year_month (r : row) : option period :=
  match incident_date r with
  | DTime t => Some (year t, month t)
  | _ => None
  end.

Definition period_cmp (a b : period) : comparison :=
  match (fst a ?= fst b)%Z with
  | Eq => (snd a ?= snd b)%Z
  | c => c
  end.

(** The [.dt] accessor exists on timestamp columns only. *)
Definition is_text_date (r : row) : bool :=
  match incident_date r with DStr _ => true | _ => false end.

Record month_bucket : Type := mkMonthBucket {
  mb_period : period;
  mb_total_fatalities : Z;
  mb_incidents : nat
}.

Definition month_groups (df : frame) : list month_bucket :=
  map (fun g : period * list row =>
         mkMonthBucket (fst g)
                       (sum (map total_fatalities (snd g)))
                       (count opt_notna (map year_month (snd g))))
      (groupby period_cmp year_month df).

(** The local [month_summary], sorted by fatalities, descending. *)
Definition month_summary (df : frame) : result (list month_bucket) :=
  if existsb is_text_date df then Raise AttributeError
  else Ok (sort (fun a b => (mb_total_fatalities b <=? mb_total_fatalities a)%Z)
                (month_groups df)).

(** The local [event_summary]. *)
Definition event_summary := Events.event_summary.

Section Main.
Context {C : Coercion}.
(** What the report stage (summary, map file, closing banner) emits. *)
Variable report : frame -> list event.

Definition main (resp : response frame) : io unit :=
  log INFO "Starting FTA NYC Fatal Events Time Slider Map..." ;;
  df <- load_fta_data resp ;;
  match df with
  | None => log ERROR "Cannot proceed without data"
  | Some df =>
      ny_df <- filter_new_york_data df ;;
      fatal_df <- prepare_fatal_events ny_df ;;
      if Nat.eqb (len fatal_df) 0
      then log ERROR "No fatal incidents with coordinates found for NYC"
      else emit_all (report fatal_df)
  end.
End Main.

End NycTimeSliderMap.

(* ------------------------------------------------------------------ *)
(** ** fta_safety_analysis.py *)

Module SafetyAnalysis.

Import Str Pandas Runtime.
Local Open Scope string_scope.
Local Open Scope io_scope.

(** A frame with named columns; every record holds one cell per
    column, text or null. *)
Record dataframe : Type := mkFrame {
  columns : list string;
  records : list (list (option string))
}.

Definition len (df : dataframe) : nat := List.length (records df).

(** [c in df.columns] *)
Definition has_column (df : dataframe) (c : string) : bool :=
  existsb (String.eqb c) (columns df).

Fixpoint position (c : string) (cols : list string) : nat :=
  match cols with
  | [] => 0
  | c' :: cols' => if String.eqb c c' then 0 else S (position c cols')
  end.

(** The cell of record [r] in column [c]. *)
Definition cell_of (df : dataframe) (c : string) (r : list (option string)) : option string :=
  nth (position c (columns df)) r None.

(** [df[mask]] with the mask given record by record. *)
Definition select (df : dataframe) (p : list (option string) -> bool) : dataframe :=
  mkFrame (columns df) (filter p (records df)).

(** [col.astype(str)]: a missing value becomes the text [nan]. *)
Definition astype_str (o : option string) : option string :=
  match o with
  | Some s => Some s
  | None => Some "nan"
  end.

(** [col == v] on text; a null compares false. *)
Definition eq_text (o : option string) (v : string) : bool :=
  match o with
  | Some s => String.eqb s v
  | None => false
  end.

(** Python's rendering of a list of texts. *)
Definition repr_list (l : list string) : string :=
  "[" ++ join ", " (map (fun s => "'" ++ s ++ "'") l) ++ "]".

Definition ny_keywords : list string :=
  ["NEW YORK"; "NYC"; "MTA"; "METROPOLITAN TRANSPORTATION"].

Definition is_location_col (col : string) : bool :=
  contains "location" (lower col) || contains "city" (lower col) ||
  contains "state" (lower col) || contains "agency" (lower col).

Definition filter_new_york_data (df : dataframe) : io dataframe :=
  log INFO "Filtering for New York transit agencies..." ;;
  print (nl ++ "Available columns: " ++ repr_list (columns df)) ;;
  ny_data <-
    (if has_column df "state" then
       ret (select df (fun r => eq_text (str_upper (cell_of df "state" r)) "NY"))
     else if has_column df "agency_name" then
       ret (select df (fun r =>
              str_contains (join "|" ny_keywords) false
                           (str_upper (cell_of df "agency_name" r))))
     else
       let location_cols := filter is_location_col (columns df) in
       print (nl ++ "Found potential location columns: " ++ repr_list location_cols) ;;
       match location_cols with
       | c :: _ =>
           ret (select df (fun r =>
                  str_contains "NEW YORK|NY|NYC|MTA" false
                               (str_upper (astype_str (cell_of df c r)))))
       | [] =>
           log WARNING "Could not identify location field. Showing all data." ;;
           ret df
       end) ;;
  log INFO ("Found " ++ show_nat (len ny_data) ++ " incidents in New York") ;;
  ret ny_data.

Definition load_fta_data (resp : response dataframe) : io (option dataframe) :=
  log INFO "Downloading FTA Major Safety Events data..." ;;
  match resp with
  | ReadOk df =>
      log INFO ("Successfully loaded " ++ show_nat (len df) ++ " safety events") ;;
      ret (Some df)
  | ReadFailed e =>
      log ERROR ("Failed to load data: " ++ e) ;;
      ret None
  end.

Section Main.
(** What [explore_dataset] prints, and what the three analyses and
    the closing banner print. *)
Variable explore_dataset : dataframe -> list event.
Variable analyze : dataframe -> list event.

Definition main (resp : response dataframe) : io unit :=
  log INFO "Starting FTA Safety Events Analysis for New York..." ;;
  df <- load_fta_data resp ;;
  match df with
  | None => log ERROR "Cannot proceed without data"
  | Some df =>
      emit_all (explore_dataset df) ;;
      ny_df <- filter_new_york_data df ;;
      if Nat.eqb (len ny_df) 0
      then
        log WARNING "No New York data found. Showing guidance for manual filtering." ;;
        print (nl ++ "Please review the dataset columns above and filter manually.")
      else emit_all (analyze ny_df)
  end.
End Main.

End SafetyAnalysis.

(* ------------------------------------------------------------------ *)
(** ** The pipeline as the specification words it

    These definitions follow the text of the specification, not the
    scripts; the theorems below compare the two. *)

Module Spec.

Import Str Pandas Events.
Local Open Scope string_scope.

(** Agency Filter: the rows whose agency name, upper-cased, contains
    one of the keywords; a null name never matches. *)
Definition agency_matches (keywords : list string) (r : row) : bool :=
  match agency r with
  | Some a => existsb (fun k => contains k (upper a)) keywords
  | None => false
  end.

Definition agency_filter (keywords : list string) (df : frame) : frame :=
  filter (agency_matches keywords) df.

(** What a script asks of the Event Normalizer. *)
Record config : Type := mkConfig {
  bounding_box : option (float64 * float64 * float64 * float64);
  date_required : bool
}.

Definition in_box (cfg : config) (r : row) : bool :=
  match bounding_box cfg with
  | None => true
  | Some (la0, la1, lo0, lo1) =>
      col_ge (latitude r) la0 && col_le (latitude r) la1 &&
      col_ge (longitude r) lo0 && col_le (longitude r) lo1
  end.

Section Normalize.
Context {C : Coercion}.

(** Coordinates (and the date, where one is required) are coerced;
    what fails to parse becomes absent. *)
Definition coerce (cfg : config) (r : row) : row :=
  let r := set_latitude r (to_numeric (latitude r)) in
  let r := set_longitude r (to_numeric (longitude r)) in
  if date_required cfg
  then set_incident_date r (to_datetime (incident_date r))
  else r.

(** Rows with an absent coordinate or required date, or outside the
    box, are dropped. *)
Definition complete (cfg : config) (r : row) : bool :=
  notna (latitude r) && notna (longitude r) &&
  (if date_required cfg then date_notna (incident_date r) else true) &&
  in_box cfg r.



End Normalize.

Definition nyc_box : option (float64 * float64 * float64 * float64) :=
  Some (lat_min, lat_max, lon_min, lon_max).

Definition deadly_events_map : config := mkConfig None false.
Definition nyc_basemap : config := mkConfig nyc_box false.
Definition nyc_time_slider_map : config := mkConfig nyc_box true.

(** The modal value with the tie-break the specification names: among
    the most frequent values, the one met first in the group. *)
Definition first_encountered_mode (x : list (option string)) : option string :=
  let vals := dropna x in
  let best := fold_right Nat.max 0%nat (map (fun v => occurrences v vals) vals) in
  hd_error (filter (fun v => Nat.eqb (occurrences v vals) best) vals).

End Spec.

(* ------------------------------------------------------------------ *)
(** ** Vocabulary of the statements *)

Module Terms.

Import Str Pandas Events.

(** [needle] occurs in [hay]. *)
Definition Substring (needle hay : string) : Prop :=
  exists p q : string, hay = (p ++ needle ++ q)%string.

(** The input rows [prepare_fatal_events] lets through, script by
    script: positive fatalities, coordinates that coerce to numbers,
    then the bounds (and the date) where the script has them. *)
Definition survives {C : Coercion} (cfg : Spec.config) (r : row) : bool :=
  gt0 (total_fatalities r) && Spec.complete cfg (Spec.coerce cfg r).



(** The float of a cell lies between two rationals. *)
Definition within (c : cell) (lo hi : Q) : bool :=
  Float64.leb (FFin lo) (num c) && Float64.leb (num c) (FFin hi).

(** Sample rows: a fatal incident in Manhattan, and variations. *)
Definition sample (lat lon : cell) (date : date_cell) (etype : option string)
           (fatalities : Z) : row :=
  mkRow (Some "MTA NYC TRANSIT"%string) etype (Some "Station"%string) date
        lat lon (Some fatalities) (Some 0%Z) None.

Definition manhattan : row :=
  sample (CStr "40.75") (CStr "-73.98") (DStr "2019-03-01")
         (Some "Suicide"%string) 2.

Definition unparsable_latitude : row :=
  sample (CStr "abc") (CStr "-73.98") (DStr "2019-03-01")
         (Some "Suicide"%string) 2.

Definition far_north : row :=
  sample (CStr "95.0") (CStr "-73.98") (DStr "2019-03-01")
         (Some "Suicide"%string) 1.

(** An informational log record. *)
Definition is_info (e : Runtime.event) : Prop :=
  exists m, e = Runtime.Log Runtime.INFO m.

(** The trace holds a warning and a printed message. *)
Definition warns_and_guides (t : list Runtime.event) : Prop :=
  (exists m, In (Runtime.Log Runtime.WARNING m) t)
  /\ (exists s, In (Runtime.Print s) t).

(** The records a map script logs up to its check on [fatal_df]. *)
Definition preamble (start : string) (df : frame)
           (prepare : frame -> Runtime.io frame) : list Runtime.event :=
  ([Runtime.Log Runtime.INFO start;
    Runtime.Log Runtime.INFO "Downloading FTA Major Safety Events data...";
    Runtime.Log Runtime.INFO
      ("Successfully loaded " ++ show_nat (len df) ++ " safety events")%string]
   ++ Runtime.trace (Events.filter_new_york_data df)
   ++ Runtime.trace (prepare (Runtime.value (Events.filter_new_york_data df))))%list.

(** What a run logs when the download fails. *)
Definition failed_fetch (start e : string) : list Runtime.event :=
  [Runtime.Log Runtime.INFO start;
   Runtime.Log Runtime.INFO "Downloading FTA Major Safety Events data...";
   Runtime.Log Runtime.ERROR ("Failed to load data: " ++ e)%string;
   Runtime.Log Runtime.ERROR "Cannot proceed without data"].

Definition manhattan_homicide : row :=
  sample (CStr "40.75") (CStr "-73.98") (DStr "2019-05-17")
         (Some "Homicide"%string) 1.

(** An incident whose fatality count was not reported. *)
Definition uncounted : row :=
  mkRow (Some "MTA NYC TRANSIT"%string) (Some "Suicide"%string)
        (Some "Station"%string) (DStr "2019-03-01")
        (CStr "40.75") (CStr "-73.98") None (Some 0%Z) None.

(** A fatal incident whose event type was not reported. *)
Definition untyped : row :=
  sample (CStr "40.75") (CStr "-73.98") (DStr "2019-03-01") None 1.

(** A record of which only the agency name is known. *)
Definition agency_only (a : option string) : row :=
  mkRow a None None DNull CNull CNull None None None.

(** "Metropolitan Transportation Authority" written with a long s
    (U+017F, the bytes C5 BF), whose upper case is the letter S. *)
Definition long_s_agency : string :=
  ("Metropolitan Tran"
   ++ String (ascii_of_nat 197) (String (ascii_of_nat 191) "portation Authority"))%string.

(** Agency names in lower and mixed case, one of another state, and a
    missing one. *)
Definition mixed_case_rows : frame :=
  [agency_only (Some "mta bus company"%string);
   agency_only (Some "New Jersey Transit"%string);
   agency_only None;
   agency_only (Some long_s_agency);
   agency_only (Some "Staten Island Railway (Nyc)"%string)].

(** The two records of the specification's worked example; it leaves
    the event types (and the other fields) out. *)
Definition example_rows (etype1 etype2 : option string) : frame :=
  [mkRow (Some "MTA NYC TRANSIT"%string) etype1 None (DStr "2019-03-01")
         (CStr "40.75") (CStr "-73.98") (Some 2%Z) None None;
   mkRow (Some "LA METRO"%string) etype2 None (DStr "2019-04-01")
         (CStr "34.0") (CStr "-118.2") (Some 1%Z) None None].

(** The first record once its coordinates are floats. *)
Definition example_survivor (etype1 : option string) (date : date_cell) : row :=
  mkRow (Some "MTA NYC TRANSIT"%string) etype1 None date
        (CNum (FFin (163 # 4)))
        (CNum (FFin (- 5205879694263583 # 70368744177664)))
        (Some 2%Z) None None.

Definition march_first_2019 : datetime := mkDatetime 2019 3 1 0 0 0.

(** The sum of a numeric column of a table of buckets. *)
Fixpoint sum_by {A : Type} (f : A -> Z) (l : list A) : Z :=
  match l with
  | [] => 0%Z
  | a :: l' => (f a + sum_by f l')%Z
  end.

(** The amounts of all the rows held in a list of groups. *)
Definition held {K R : Type} (amount : R -> option Z) (gs : list (K * list R)) : Z :=
  sum_by (fun g => Pandas.sum (map amount (snd g))) gs.

(** [df['total_fatalities'].sum()] *)
Definition fatalities (df : frame) : Z := Pandas.sum (map total_fatalities df).

(** The group key of a row: its coordinates rounded to three decimals,
    when both exist and neither is NaN. *)
Definition rounded_coord (r : row) : option DeadlyEventsMap.coord :=
  match DeadlyEventsMap.add_rounded r with
  | Ok l => DeadlyEventsMap.coord_key l
  | Raise _ => None
  end.

Definition has_coord_key (r : row) : bool := opt_notna (rounded_coord r).

(** Two keys are the same key. *)
Definition same_key {K : Type} (cmp : K -> K -> comparison) (a b : K) : bool :=
  match cmp a b with Eq => true | _ => false end.

(** The row belongs to the group of key [k]. *)
Definition member {K R : Type} (cmp : K -> K -> comparison)
           (key : R -> option K) (k : K) (r : R) : bool :=
  match key r with
  | Some k' => same_key cmp k' k
  | None => false
  end.

(** The rows of [df] that fall in the bucket of coordinate [k]. *)
Definition bucket_rows (k : DeadlyEventsMap.coord) (df : frame) : frame :=
  filter (member DeadlyEventsMap.coord_cmp rounded_coord k) df.

(** [m] is the smallest, in string order, of the most frequent non-null
    values of [x]. *)
Definition smallest_mode (m : string) (x : list (option string)) : Prop :=
  In (Some m) x
  /\ forall v, In (Some v) x ->
               (occurrences v (dropna x) <= occurrences m (dropna x))%nat
               /\ (occurrences v (dropna x) = occurrences m (dropna x) ->
                   String.leb m v = true).

(** Keys in strictly ascending order. *)
Definition ascending {K A : Type} (cmp : K -> K -> comparison) (key : A -> K)
           (l : list A) : Prop :=
  StronglySorted (fun a b => cmp (key a) (key b) = Lt) l.

(** The three facts that say [gs] is the grouping of [df]: keys
    ascending, each group the rows of its key in frame order and not
    empty, no keyed row left out. *)
Definition grouping {K R : Type} (cmp : K -> K -> comparison)
           (key : R -> option K) (df : list R) (gs : list (K * list R)) : Prop :=
  ascending cmp fst gs
  /\ (forall g, In g gs ->
                snd g = filter (member cmp key (fst g)) df /\ snd g <> [])
  /\ (forall r k, In r df -> key r = Some k ->
                  exists g, In g gs /\ cmp k (fst g) = Eq).

(** A comparison that orders its keys. *)
Record ordering {K : Type} (cmp : K -> K -> comparison) : Prop := mkOrdering {
  cmp_refl : forall a, cmp a a = Eq;
  cmp_antisym : forall a b, cmp b a = CompOpp (cmp a b);
  cmp_lt_trans : forall a b c, cmp a b = Lt -> cmp b c = Lt -> cmp a c = Lt;
  cmp_eq_lt : forall a b c, cmp a b = Eq -> cmp b c = Lt -> cmp a c = Lt;
  cmp_eq_trans : forall a b c, cmp a b = Eq -> cmp b c = Eq -> cmp a c = Eq
}.

(** The row has event type [e]. *)
Definition of_type (e : string) (r : row) : bool :=
  match event_type r with
  | Some e' => String.eqb e' e
  | None => false
  end.

(** The row's incident date falls in the month [p]. *)
Definition in_month (p : NycTimeSliderMap.period) (r : row) : bool :=
  match NycTimeSliderMap.year_month r with
  | Some p' => (fst p' =? fst p)%Z && (snd p' =? snd p)%Z
  | None => false
  end.

(** 1 for a non-null cell, 0 for a null one: what [count] adds up. *)
Definition counted {A : Type} (notnull : A -> bool) (a : A) : option Z :=
  Some (if notnull a then 1 else 0)%Z.

(** The row's incident date coerces to a timestamp of year [y]. *)
Definition in_year {C : Coercion} (y : Z) (r : row) : bool :=
  match to_datetime (incident_date r) with
  | DTime t => (year t =? y)%Z
  | _ => false
  end.

(** A table in descending order of a numeric column. *)
Definition descending {A : Type} (f : A -> Z) (l : list A) : Prop :=
  StronglySorted (fun a b => (f b <= f a)%Z) l.

(** The cell holds a float (NaN included), as every cell of a numeric
    column does. *)
Definition is_float (c : cell) : bool :=
  match c with CNum _ => true | _ => false end.

(** The coordinates of every row of the frame are floats. *)
Definition float_coordinates (df : frame) : Prop :=
  forall r, In r df ->
            is_float (latitude r) = true /\ is_float (longitude r) = true.

(** The cell holds a float other than NaN. *)
Definition locatable (c : cell) : bool :=
  match c with CNum x => negb (is_nan x) | _ => false end.

(** The row lacks a fatality or injury count, or one of its coordinates
    is not a float other than NaN. *)
Definition unmappable (r : row) : bool :=
  negb (opt_notna (total_fatalities r))
  || negb (opt_notna (total_injuries r))
  || negb (locatable (latitude r))
  || negb (locatable (longitude r)).

(** A frame none of whose columns names a place or an agency. *)
Definition anonymous_frame : SafetyAnalysis.dataframe :=
  SafetyAnalysis.mkFrame
    ["event_id"; "incident_date"]%string
    [[Some "1"; Some "2019-03-01"]; [Some "2"; None]]%string.

End Terms.

(* ================================================================== *)
(** * Properties *)

Import Str Pandas Runtime Events Terms.

(** ** Text search *)

Lemma prefix_iff (n h : string) :
  prefix n h = true <-> exists q, h = (n ++ q)%string.
Proof.
  revert h; induction n as [| c n IH]; intros h; simpl.
  - split; [intros _; exists h; reflexivity | intros _; destruct h; reflexivity].
  - destruct h as [| d h]; simpl.
    + split; [discriminate | intros [q Hq]; discriminate].
    + destruct (ascii_dec c d) as [-> | Hne].
      * rewrite IH. split; intros [q Hq]; exists q; congruence.
      * split; [discriminate | intros [q Hq]; congruence].
Qed.

Lemma contains_iff (n h : string) :
  contains n h = true <-> Substring n h.
Proof.
  induction h as [| d h IH]; cbn [contains].
  - rewrite orb_false_r, prefix_iff. split.
    + intros [q Hq]. exists EmptyString, q. exact Hq.
    + intros [p [q Hq]]. destruct p; simpl in Hq.
      * exists q; exact Hq.
      * discriminate.
  - rewrite orb_true_iff, prefix_iff, IH. split.
    + intros [[q Hq] | [p [q Hq]]].
      * exists EmptyString, q. exact Hq.
      * exists (String d p), q. simpl. now rewrite Hq.
    + intros [p [q Hq]]. destruct p as [| e p]; simpl in Hq.
      * left. exists q. exact Hq.
      * right. exists p, q. congruence.
Qed.

(** The joined keyword pattern searches for each keyword in turn. *)
Lemma keyword_pattern (s : string) :
  re_search (join "|" ny_keywords) s = existsb (fun k => contains k s) ny_keywords.
Proof. reflexivity. Qed.

Lemma filter_ext_all {A : Type} (f g : A -> bool) (l : list A) :
  (forall a, f a = g a) -> filter f l = filter g l.
Proof. intros E. apply filter_ext. exact E. Qed.

Lemma agency_mask (r : row) :
  str_contains (join "|" ny_keywords) false (str_upper (agency r))
  = Spec.agency_matches ny_keywords r.
Proof.
  unfold Spec.agency_matches, str_contains, str_upper.
  destruct (agency r) as [a |]; simpl option_map; cbv iota.
  - apply keyword_pattern.
  - reflexivity.
Qed.

Lemma agency_matches_iff (r : row) :
  Spec.agency_matches ny_keywords r = true <->
  exists a k, agency r = Some a /\ In k ny_keywords /\ Substring k (upper a).
Proof.
  unfold Spec.agency_matches. destruct (agency r) as [a |].
  - rewrite existsb_exists. split.
    + intros [k [Hk Hc]]. exists a, k. rewrite <- contains_iff. auto.
    + intros [a' [k [Ha [Hk Hs]]]]. injection Ha as <-.
      exists k. rewrite contains_iff. auto.
  - split; [discriminate | intros [a [k [Ha _]]]; discriminate].
Qed.

(** C5: the Agency Filter returns, in input order, exactly the rows whose
    non-null agency name, upper-cased, contains one of the four keywords
    "NEW YORK", "NYC", "MTA", "METROPOLITAN TRANSPORTATION"; a row with a
    null agency name is left out, and the filter is a total function (no
    input makes it raise).  Upper-casing is [str.upper], so that a name
    in lower or mixed case matches as its capitals do.  The three map
    scripts share the definition. *)
Theorem C5_agency_filter_keeps_keyword_rows :
  forall df : frame,
    value (DeadlyEventsMap.filter_new_york_data df)
      = Spec.agency_filter
          ["NEW YORK"; "NYC"; "MTA"; "METROPOLITAN TRANSPORTATION"]%string df
    /\ value (NycBasemap.filter_new_york_data df)
       = value (DeadlyEventsMap.filter_new_york_data df)
    /\ value (NycTimeSliderMap.filter_new_york_data df)
       = value (DeadlyEventsMap.filter_new_york_data df)
    /\ (forall r, In r (value (DeadlyEventsMap.filter_new_york_data df)) <->
                  In r df /\
                  exists a k, agency r = Some a /\
                              In k ["NEW YORK"; "NYC"; "MTA";
                                    "METROPOLITAN TRANSPORTATION"]%string /\
                              Substring k (upper a))
    /\ (forall r, agency r = None ->
                  ~ In r (value (DeadlyEventsMap.filter_new_york_data df))).
Proof.
  intros df.
  assert (E : value (DeadlyEventsMap.filter_new_york_data df)
              = Spec.agency_filter ny_keywords df).
  { unfold Spec.agency_filter. cbn [value fst].
    change (value (DeadlyEventsMap.filter_new_york_data df))
      with (filter (fun r => str_contains (join "|" ny_keywords) false
                                          (str_upper (agency r))) df).
    apply filter_ext_all, agency_mask. }
  split; [exact E |].
  split; [reflexivity |].
  split; [reflexivity |].
  rewrite E. unfold Spec.agency_filter. split.
  - intros r. rewrite filter_In, agency_matches_iff. reflexivity.
  - intros r Hnull Hin. apply filter_In in Hin. destruct Hin as [_ Hm].
    unfold Spec.agency_matches in Hm. rewrite Hnull in Hm. discriminate.
Qed.

Lemma C5_mixed_case_witness :
  value (DeadlyEventsMap.filter_new_york_data mixed_case_rows)
  = [agency_only (Some "mta bus company"%string);
     agency_only (Some long_s_agency);
     agency_only (Some "Staten Island Railway (Nyc)"%string)].
Proof.
  rewrite (proj1 (C5_agency_filter_keeps_keyword_rows mixed_case_rows)).
  vm_compute. reflexivity.
Defined.

(** ** Frames: filters and maps *)

Lemma filter_map_swap {A B : Type} (f : A -> B) (p : B -> bool) (l : list A) :
  filter p (map f l) = map f (filter (fun a => p (f a)) l).
Proof.
  induction l as [| a l IH]; simpl; [reflexivity |].
  destruct (p (f a)); simpl; now rewrite IH.
Qed.

Lemma filter_filter {A : Type} (p q : A -> bool) (l : list A) :
  filter p (filter q l) = filter (fun a => q a && p a) l.
Proof.
  induction l as [| a l IH]; simpl; [reflexivity |].
  destruct (q a); simpl; [destruct (p a) |]; now rewrite IH.
Qed.

Section Normalization.
Context {C : Coercion}.

Lemma notna_to_numeric (c : cell) :
  notna (to_numeric c) = true -> notna c = true.
Proof. destruct c; simpl; auto. Qed.

Lemma notna_both (c : cell) :
  notna c && notna (to_numeric c) = notna (to_numeric c).
Proof.
  destruct c as [| x | s]; simpl; try reflexivity.
  destruct (is_nan x); reflexivity.
Qed.

Lemma deadly_prepare_value (df : frame) :
  value (DeadlyEventsMap.prepare_fatal_events df)
  = map (Spec.coerce Spec.deadly_events_map)
        (filter (survives Spec.deadly_events_map) df).
Proof.
  change (value (DeadlyEventsMap.prepare_fatal_events df)) with
    (filter (fun r => notna (latitude r) && notna (longitude r))
       (map (fun r => set_longitude r (to_numeric (longitude r)))
          (map (fun r => set_latitude r (to_numeric (latitude r)))
             (filter (fun r => notna (latitude r) && notna (longitude r))
                (filter (fun r => gt0 (total_fatalities r)) df))))).
  rewrite map_map, filter_map_swap, !filter_filter.
  apply f_equal. apply filter_ext_all. intros r.
  unfold survives, Spec.complete, Spec.coerce, Spec.in_box.
  cbn [Spec.date_required Spec.bounding_box Spec.deadly_events_map
       Spec.nyc_basemap Spec.nyc_time_slider_map Spec.nyc_box
       set_latitude set_longitude set_incident_date
       latitude longitude incident_date total_fatalities].
  rewrite <- (notna_both (latitude r)), <- (notna_both (longitude r)).
  destruct (gt0 (total_fatalities r)), (notna (latitude r)),
    (notna (longitude r)), (notna (to_numeric (latitude r))),
    (notna (to_numeric (longitude r))); reflexivity.
Qed.

Lemma basemap_prepare_value (df : frame) :
  value (NycBasemap.prepare_fatal_events df)
  = map (Spec.coerce Spec.nyc_basemap)
        (filter (survives Spec.nyc_basemap) df).
Proof.
  change (value (NycBasemap.prepare_fatal_events df)) with
    (filter (fun r => notna (latitude r) && notna (longitude r) &&
                      col_ge (latitude r) lat_min && col_le (latitude r) lat_max &&
                      col_ge (longitude r) lon_min && col_le (longitude r) lon_max)
       (map (fun r => set_longitude r (to_numeric (longitude r)))
          (map (fun r => set_latitude r (to_numeric (latitude r)))
             (filter (fun r => notna (latitude r) && notna (longitude r))
                (filter (fun r => gt0 (total_fatalities r)) df))))).
  rewrite map_map, filter_map_swap, !filter_filter.
  apply f_equal. apply filter_ext_all. intros r.
  unfold survives, Spec.complete, Spec.coerce, Spec.in_box.
  cbn [Spec.date_required Spec.bounding_box Spec.deadly_events_map
       Spec.nyc_basemap Spec.nyc_time_slider_map Spec.nyc_box
       set_latitude set_longitude set_incident_date
       latitude longitude incident_date total_fatalities].
  rewrite <- (notna_both (latitude r)), <- (notna_both (longitude r)).
  destruct (gt0 (total_fatalities r)), (notna (latitude r)),
    (notna (longitude r)), (notna (to_numeric (latitude r))),
    (notna (to_numeric (longitude r))); cbn [andb];
    rewrite ?andb_assoc; reflexivity.
Qed.

Lemma slider_prepare_value (df : frame) :
  value (NycTimeSliderMap.prepare_fatal_events df)
  = map (Spec.coerce Spec.nyc_time_slider_map)
        (filter (survives Spec.nyc_time_slider_map) df).
Proof.
  change (value (NycTimeSliderMap.prepare_fatal_events df)) with
    (filter (fun r => notna (latitude r) && notna (longitude r) &&
                      date_notna (incident_date r) &&
                      col_ge (latitude r) lat_min && col_le (latitude r) lat_max &&
                      col_ge (longitude r) lon_min && col_le (longitude r) lon_max)
       (map (fun r => set_incident_date r (to_datetime (incident_date r)))
          (map (fun r => set_longitude r (to_numeric (longitude r)))
             (map (fun r => set_latitude r (to_numeric (latitude r)))
                (filter (fun r => notna (latitude r) && notna (longitude r))
                   (filter (fun r => gt0 (total_fatalities r)) df)))))).
  rewrite !map_map, filter_map_swap, !filter_filter.
  apply f_equal. apply filter_ext_all. intros r.
  unfold survives, Spec.complete, Spec.coerce, Spec.in_box.
  cbn [Spec.date_required Spec.bounding_box Spec.deadly_events_map
       Spec.nyc_basemap Spec.nyc_time_slider_map Spec.nyc_box
       set_latitude set_longitude set_incident_date
       latitude longitude incident_date total_fatalities].
  rewrite <- (notna_both (latitude r)), <- (notna_both (longitude r)).
  destruct (gt0 (total_fatalities r)), (notna (latitude r)),
    (notna (longitude r)), (notna (to_numeric (latitude r))),
    (notna (to_numeric (longitude r))); cbn [andb];
    rewrite ?andb_assoc; reflexivity.
Qed.


End Normalization.


(** ** Rows that fail coercion *)

Section Dropping.
Context {C : Coercion}.




End Dropping.



(** ** Coordinate bounds *)

Lemma lat_min_value : lat_min = FFin (5685794529555251 # 140737488355328).
Proof. vm_compute. reflexivity. Qed.

Lemma lat_max_value : lat_max = FFin 41.
Proof. vm_compute. reflexivity. Qed.

Lemma lon_min_value : lon_min = FFin (- 5228397692400435 # 70368744177664).
Proof. vm_compute. reflexivity. Qed.

Lemma lon_max_value : lon_max = FFin (- 5186176445893837 # 70368744177664).
Proof. vm_compute. reflexivity. Qed.

(** A float between two finite floats is finite, and its value lies
    between theirs. *)
Lemma between_finite (a b : Q) (x : float64) :
  Float64.geb x (FFin a) = true -> Float64.leb x (FFin b) = true ->
  exists q, x = FFin q /\ (a <= q <= b)%Q.
Proof.
  unfold Float64.geb, Float64.leb.
  destruct x as [| [|] | q]; simpl; try discriminate.
  intros Ha Hb. exists q. split; [reflexivity |]. split.
  - apply Qle_alt. intros E. rewrite E in Ha. discriminate.
  - apply Qle_alt. intros E. rewrite E in Hb. discriminate.
Qed.

Lemma leb_finite (p q : Q) :
  (p <= q)%Q -> Float64.leb (FFin p) (FFin q) = true.
Proof.
  intros Hle. unfold Float64.leb. cbn [Float64.compare].
  apply (proj1 (Qle_alt p q)) in Hle. destruct (p ?= q)%Q; congruence.
Qed.

Section Bounds.
Context {C : Coercion}.

Lemma survivor_coordinates (cfg : Spec.config) (r : row) :
  survives cfg r = true ->
  exists x y, latitude (Spec.coerce cfg r) = CNum x
              /\ longitude (Spec.coerce cfg r) = CNum y
              /\ is_nan x = false /\ is_nan y = false.
Proof.
  unfold survives, Spec.complete. intros S.
  exists (to_float (latitude r)), (to_float (longitude r)).
  assert (La : latitude (Spec.coerce cfg r) = CNum (to_float (latitude r)))
    by (unfold Spec.coerce; destruct (Spec.date_required cfg); reflexivity).
  assert (Lo : longitude (Spec.coerce cfg r) = CNum (to_float (longitude r)))
    by (unfold Spec.coerce; destruct (Spec.date_required cfg); reflexivity).
  rewrite La, Lo in *. simpl in S.
  repeat (apply andb_true_iff in S; destruct S as [S ?]).
  repeat (match goal with
          | E : _ && _ = true |- _ => apply andb_true_iff in E; destruct E
          end).
  repeat split; try reflexivity; now apply negb_true_iff.
Qed.

Lemma survivor_in_box (cfg : Spec.config) (r : row) :
  Spec.bounding_box cfg = Spec.nyc_box ->
  survives cfg r = true ->
  exists x y : Q,
    latitude (Spec.coerce cfg r) = CNum (FFin x)
    /\ longitude (Spec.coerce cfg r) = CNum (FFin y)
    /\ (5685794529555251 # 140737488355328 <= x <= 41)%Q
    /\ (- 5228397692400435 # 70368744177664 <= y
        <= - 5186176445893837 # 70368744177664)%Q.
Proof.
  intros B S. destruct (survivor_coordinates cfg r S) as [x [y [La [Lo _]]]].
  unfold survives, Spec.complete, Spec.in_box in S. rewrite B in S.
  unfold Spec.nyc_box, col_ge, col_le in S. rewrite La, Lo in S.
  cbn [num] in S.
  rewrite lat_min_value, lat_max_value, lon_min_value, lon_max_value in S.
  repeat (match goal with
          | E : _ && _ = true |- _ => apply andb_true_iff in E; destruct E
          end).
  match goal with
  | A : Float64.geb x _ = true, B' : Float64.leb x _ = true |- _ =>
      destruct (between_finite _ _ _ A B') as [p [-> Hp]]
  end.
  match goal with
  | A : Float64.geb y _ = true, B' : Float64.leb y _ = true |- _ =>
      destruct (between_finite _ _ _ A B') as [q [-> Hq]]
  end.
  exists p, q. auto.
Qed.

End Bounds.

(** C1, as the scripts have it: every row [prepare_fatal_events] returns
    holds numeric, non-NaN coordinates; in the two scripts with the NYC
    bounding box ([fta_nyc_basemap.py], [fta_nyc_time_slider_map.py]) the
    latitude lies between the binary64 values of 40.4 and 41.0 and the
    longitude between those of -74.3 and -73.7, hence within [-90, 90]
    and [-180, 180].  [fta_deadly_events_map.py] checks no range. *)
Theorem C1_surviving_coordinates :
  forall (C : Coercion) (df : frame) (r : row),
    (In r (value (DeadlyEventsMap.prepare_fatal_events df)) ->
       exists x y, latitude r = CNum x /\ longitude r = CNum y
                   /\ is_nan x = false /\ is_nan y = false)
    /\ (In r (value (NycBasemap.prepare_fatal_events df)) \/
        In r (value (NycTimeSliderMap.prepare_fatal_events df)) ->
          exists x y : Q,
            latitude r = CNum (FFin x) /\ longitude r = CNum (FFin y)
            /\ Float64.geb (FFin x) lat_min = true
            /\ Float64.leb (FFin x) lat_max = true
            /\ Float64.geb (FFin y) lon_min = true
            /\ Float64.leb (FFin y) lon_max = true
            /\ (-90 <= x <= 90)%Q /\ (-180 <= y <= 180)%Q).
Proof.
  intros C df r. split.
  - rewrite deadly_prepare_value, in_map_iff.
    intros [r0 [<- Hin]]. apply filter_In in Hin.
    apply survivor_coordinates, Hin.
  - intros Hin.
    assert (B : exists cfg r0, Spec.bounding_box cfg = Spec.nyc_box
                               /\ r = Spec.coerce cfg r0
                               /\ survives cfg r0 = true).
    { destruct Hin as [Hin | Hin].
      - rewrite basemap_prepare_value, in_map_iff in Hin.
        destruct Hin as [r0 [<- Hin]]. apply filter_In in Hin.
        exists Spec.nyc_basemap, r0. now repeat split.
      - rewrite slider_prepare_value, in_map_iff in Hin.
        destruct Hin as [r0 [<- Hin]]. apply filter_In in Hin.
        exists Spec.nyc_time_slider_map, r0. now repeat split. }
    destruct B as [cfg [r0 [B [-> S]]]].
    destruct (survivor_in_box cfg r0 B S) as [x [y [La [Lo [Hx Hy]]]]].
    exists x, y. rewrite lat_min_value, lat_max_value, lon_min_value, lon_max_value.
    unfold Float64.geb.
    destruct Hx as [Hx1 Hx2], Hy as [Hy1 Hy2].
    repeat split; try assumption; try (now apply leb_finite).
    + eapply Qle_trans; [| exact Hx1]. discriminate.
    + eapply Qle_trans; [exact Hx2 |]. discriminate.
    + eapply Qle_trans; [| exact Hy1]. discriminate.
    + eapply Qle_trans; [exact Hy2 |]. discriminate.
Qed.

Lemma C1_manhattan_witness :
  exists x y : Q,
    latitude (Spec.coerce (C := decimal_iso) Spec.nyc_basemap manhattan) = CNum (FFin x)
    /\ (-90 <= x <= 90)%Q /\ (-180 <= y <= 180)%Q.
Proof.
  destruct (C1_surviving_coordinates decimal_iso [manhattan]
              (Spec.coerce (C := decimal_iso) Spec.nyc_basemap manhattan))
    as [_ Hbox].
  destruct Hbox as [x [y [La [_ [_ [_ [_ [_ [Hx Hy]]]]]]]]].
  - left. vm_compute. left. reflexivity.
  - exists x, y. auto.
Defined.

(** C1 as stated fails in [fta_deadly_events_map.py]: a fatal incident
    reported at latitude 95.0 passes [prepare_fatal_events]. *)
Lemma C1_latitude_out_of_range :
  ~ (forall (df : frame) (r : row),
        In r (value (DeadlyEventsMap.prepare_fatal_events (C := decimal_iso) df)) ->
        within (latitude r) (-90) 90 = true
        /\ within (longitude r) (-180) 180 = true).
Proof.
  intros claim.
  destruct (claim [far_north]
              (Spec.coerce (C := decimal_iso) Spec.deadly_events_map far_north))
    as [Hlat _].
  - vm_compute. left. reflexivity.
  - vm_compute in Hlat. discriminate.
Qed.

(** ** Traces *)

Lemma trace_bind {A B : Type} (m : io A) (k : A -> io B) :
  trace (Runtime.bind m k) = trace m ++ trace (k (value m)).
Proof.
  destruct m as [a t]. unfold Runtime.bind, trace, value. simpl.
  destruct (k a). reflexivity.
Qed.

Lemma value_bind {A B : Type} (m : io A) (k : A -> io B) :
  value (Runtime.bind m k) = value (k (value m)).
Proof.
  destruct m as [a t]. unfold Runtime.bind, trace, value. simpl.
  destruct (k a). reflexivity.
Qed.

Ltac run_trace :=
  rewrite ?trace_bind;
  cbn [trace value fst snd app log print emit emit_all ret Runtime.bind
       Events.load_fta_data DeadlyEventsMap.load_fta_data
       NycBasemap.load_fta_data NycTimeSliderMap.load_fta_data
       SafetyAnalysis.load_fta_data].

Ltac all_info := repeat constructor; eexists; reflexivity.

Lemma filter_trace_info (df : frame) :
  Forall is_info (trace (Events.filter_new_york_data df)).
Proof. unfold Events.filter_new_york_data. run_trace. all_info. Qed.

(** ** The column-heuristic filter of fta_safety_analysis.py *)

Lemma no_location_cols (cols : list string) :
  (forall c, In c cols -> SafetyAnalysis.is_location_col c = false) ->
  filter SafetyAnalysis.is_location_col cols = [].
Proof.
  induction cols as [| c cols IH]; intros Hno; simpl; [reflexivity |].
  rewrite (Hno c (or_introl eq_refl)). apply IH.
  intros c' Hin. apply Hno. now right.
Qed.

(** C10: in [fta_safety_analysis.py], a frame with no [state] column, no
    [agency_name] column and no column whose lower-cased name contains
    "location", "city", "state" or "agency" goes through
    [filter_new_york_data] unchanged: every row passes. *)
Theorem C10_unidentified_frame_passes_unfiltered :
  forall df : SafetyAnalysis.dataframe,
    SafetyAnalysis.has_column df "state" = false ->
    SafetyAnalysis.has_column df "agency_name" = false ->
    (forall c, In c (SafetyAnalysis.columns df) ->
               contains "location" (lower c) = false
               /\ contains "city" (lower c) = false
               /\ contains "state" (lower c) = false
               /\ contains "agency" (lower c) = false) ->
    value (SafetyAnalysis.filter_new_york_data df) = df.
Proof.
  intros df Hstate Hagency Hcols.
  unfold SafetyAnalysis.filter_new_york_data.
  rewrite Hstate, Hagency, no_location_cols.
  - rewrite !value_bind. reflexivity.
  - intros c Hin. destruct (Hcols c Hin) as [H1 [H2 [H3 H4]]].
    unfold SafetyAnalysis.is_location_col. now rewrite H1, H2, H3, H4.
Qed.

Lemma C10_anonymous_frame_witness :
  value (SafetyAnalysis.filter_new_york_data anonymous_frame) = anonymous_frame.
Proof.
  apply C10_unidentified_frame_passes_unfiltered; try reflexivity.
  intros c [<- | [<- | []]]; repeat split; reflexivity.
Defined.

(** ** Early exits of [main] *)

Section EarlyExit.
Context {C : Coercion}.

Lemma deadly_prepare_trace_info (df : frame) :
  Forall is_info (trace (DeadlyEventsMap.prepare_fatal_events df)).
Proof. unfold DeadlyEventsMap.prepare_fatal_events. run_trace. all_info. Qed.

Lemma basemap_prepare_trace_info (df : frame) :
  Forall is_info (trace (NycBasemap.prepare_fatal_events df)).
Proof. unfold NycBasemap.prepare_fatal_events. run_trace. all_info. Qed.

Lemma slider_prepare_trace_info (df : frame) :
  Forall is_info (trace (NycTimeSliderMap.prepare_fatal_events df)).
Proof. unfold NycTimeSliderMap.prepare_fatal_events. run_trace. all_info. Qed.

Lemma preamble_info (start : string) (df : frame) (prepare : frame -> io frame) :
  (forall d, Forall is_info (trace (prepare d))) ->
  Forall is_info (preamble start df prepare).
Proof.
  intros Hp. unfold preamble. rewrite !Forall_app. repeat split.
  - all_info.
  - apply filter_trace_info.
  - apply Hp.
Qed.

Lemma deadly_main_empty (report : frame -> list event) (df : frame) :
  value (DeadlyEventsMap.prepare_fatal_events
           (value (DeadlyEventsMap.filter_new_york_data df))) = [] ->
  trace (DeadlyEventsMap.main report (ReadOk df))
  = preamble "Starting FTA Deadly Events Visualization..." df
             DeadlyEventsMap.prepare_fatal_events
    ++ [Log ERROR "No fatal incidents with coordinates found for New York"].
Proof.
  intros E. unfold DeadlyEventsMap.main, preamble. rewrite ?trace_bind.
  change (value (DeadlyEventsMap.load_fta_data (ReadOk df))) with (Some df).
  cbv iota beta. rewrite ?trace_bind, E, <- !app_assoc. reflexivity.
Qed.

Lemma basemap_main_empty (report : frame -> list event) (df : frame) :
  value (NycBasemap.prepare_fatal_events
           (value (NycBasemap.filter_new_york_data df))) = [] ->
  trace (NycBasemap.main report (ReadOk df))
  = preamble "Starting FTA NYC Fatal Events Mapping..." df
             NycBasemap.prepare_fatal_events
    ++ [Log ERROR "No fatal incidents with coordinates found for NYC"].
Proof.
  intros E. unfold NycBasemap.main, preamble. rewrite ?trace_bind.
  change (value (NycBasemap.load_fta_data (ReadOk df))) with (Some df).
  cbv iota beta. rewrite ?trace_bind, E, <- !app_assoc. reflexivity.
Qed.

Lemma slider_main_empty (report : frame -> list event) (df : frame) :
  value (NycTimeSliderMap.prepare_fatal_events
           (value (NycTimeSliderMap.filter_new_york_data df))) = [] ->
  trace (NycTimeSliderMap.main report (ReadOk df))
  = preamble "Starting FTA NYC Fatal Events Time Slider Map..." df
             NycTimeSliderMap.prepare_fatal_events
    ++ [Log ERROR "No fatal incidents with coordinates found for NYC"].
Proof.
  intros E. unfold NycTimeSliderMap.main, preamble. rewrite ?trace_bind.
  change (value (NycTimeSliderMap.load_fta_data (ReadOk df))) with (Some df).
  cbv iota beta. rewrite ?trace_bind, E, <- !app_assoc. reflexivity.
Qed.

End EarlyExit.

Lemma safety_main_empty (explore_dataset analyze : SafetyAnalysis.dataframe -> list event)
      (df : SafetyAnalysis.dataframe) :
  SafetyAnalysis.len (value (SafetyAnalysis.filter_new_york_data df)) = 0%nat ->
  trace (SafetyAnalysis.main explore_dataset analyze (ReadOk df))
  = [Log INFO "Starting FTA Safety Events Analysis for New York...";
     Log INFO "Downloading FTA Major Safety Events data...";
     Log INFO ("Successfully loaded " ++ show_nat (SafetyAnalysis.len df)
               ++ " safety events")]
    ++ explore_dataset df
    ++ trace (SafetyAnalysis.filter_new_york_data df)
    ++ [Log WARNING "No New York data found. Showing guidance for manual filtering.";
        Print (nl ++ "Please review the dataset columns above and filter manually.")].
Proof.
  intros E. unfold SafetyAnalysis.main. rewrite ?trace_bind.
  change (value (SafetyAnalysis.load_fta_data (ReadOk df))) with (Some df).
  cbv iota beta. rewrite ?trace_bind, E. reflexivity.
Qed.

(** C8, as the scripts have it.  A failed download logs two errors and
    prints nothing, in all four scripts.  [fta_safety_analysis.py] meets
    an empty agency filter with a warning and a printed guidance message
    and runs no analysis.  The three map scripts have no check after the
    agency filter; when [prepare_fatal_events] returns no row they log an
    error (no warning, no printed guidance) after informational records
    only, and the report stage is not run. *)
Theorem C8_early_exits :
  forall C : Coercion,
    (forall (report : frame -> list event) (e : string),
        trace (DeadlyEventsMap.main report (ReadFailed e))
          = failed_fetch "Starting FTA Deadly Events Visualization..." e
        /\ trace (NycBasemap.main report (ReadFailed e))
           = failed_fetch "Starting FTA NYC Fatal Events Mapping..." e
        /\ trace (NycTimeSliderMap.main report (ReadFailed e))
           = failed_fetch "Starting FTA NYC Fatal Events Time Slider Map..." e)
    /\ (forall explore_dataset analyze (e : string),
           trace (SafetyAnalysis.main explore_dataset analyze (ReadFailed e))
           = failed_fetch "Starting FTA Safety Events Analysis for New York..." e)
    /\ (forall explore_dataset analyze (df : SafetyAnalysis.dataframe),
           SafetyAnalysis.len (value (SafetyAnalysis.filter_new_york_data df)) = 0%nat ->
           trace (SafetyAnalysis.main explore_dataset analyze (ReadOk df))
           = [Log INFO "Starting FTA Safety Events Analysis for New York...";
              Log INFO "Downloading FTA Major Safety Events data...";
              Log INFO ("Successfully loaded " ++ show_nat (SafetyAnalysis.len df)
                        ++ " safety events")]
             ++ explore_dataset df
             ++ trace (SafetyAnalysis.filter_new_york_data df)
             ++ [Log WARNING
                   "No New York data found. Showing guidance for manual filtering.";
                 Print (nl ++ "Please review the dataset columns above and filter manually.")])
    /\ (forall (report : frame -> list event) (df : frame),
           (value (DeadlyEventsMap.prepare_fatal_events
                     (value (DeadlyEventsMap.filter_new_york_data df))) = [] ->
            exists pre,
              Forall is_info pre
              /\ trace (DeadlyEventsMap.main report (ReadOk df))
                 = pre ++ [Log ERROR
                             "No fatal incidents with coordinates found for New York"])
           /\ (value (NycBasemap.prepare_fatal_events
                        (value (NycBasemap.filter_new_york_data df))) = [] ->
               exists pre,
                 Forall is_info pre
                 /\ trace (NycBasemap.main report (ReadOk df))
                    = pre ++ [Log ERROR
                                "No fatal incidents with coordinates found for NYC"])
           /\ (value (NycTimeSliderMap.prepare_fatal_events
                        (value (NycTimeSliderMap.filter_new_york_data df))) = [] ->
               exists pre,
                 Forall is_info pre
                 /\ trace (NycTimeSliderMap.main report (ReadOk df))
                    = pre ++ [Log ERROR
                                "No fatal incidents with coordinates found for NYC"])).
Proof.
  intros C. split; [| split; [| split]].
  - intros report e. repeat split.
  - reflexivity.
  - apply safety_main_empty.
  - intros report df. split; [| split]; intros E; eexists; split.
    + apply preamble_info, deadly_prepare_trace_info.
    + now apply deadly_main_empty.
    + apply preamble_info, basemap_prepare_trace_info.
    + now apply basemap_main_empty.
    + apply preamble_info, slider_prepare_trace_info.
    + now apply slider_main_empty.
Qed.

Lemma C8_empty_basemap_witness :
  exists pre,
    Forall is_info pre
    /\ trace (NycBasemap.main (C := decimal_iso) (fun _ => [Print "report"]) (ReadOk []))
       = pre ++ [Log ERROR "No fatal incidents with coordinates found for NYC"].
Proof.
  destruct (C8_early_exits decimal_iso) as [_ [_ [_ Hmaps]]].
  destruct (Hmaps (fun _ => [Print "report"]) []) as [_ [Hbasemap _]].
  apply Hbasemap. reflexivity.
Defined.

(** C8 as stated fails in the map scripts: on a download with no record
    the basemap run ends with an error record; its trace holds neither a
    warning nor a printed message. *)
Lemma C8_basemap_neither_warns_nor_guides :
  ~ (forall df : frame,
        value (NycBasemap.prepare_fatal_events (C := decimal_iso)
                 (value (NycBasemap.filter_new_york_data df))) = [] ->
        warns_and_guides
          (trace (NycBasemap.main (C := decimal_iso) (fun _ => []) (ReadOk df)))).
Proof.
  intros claim. destruct (claim [] eq_refl) as [[m Hwarn] _].
  vm_compute in Hwarn.
  repeat (destruct Hwarn as [Hwarn | Hwarn]; [discriminate |]).
  exact Hwarn.
Qed.

(** ** The modal label of a bucket *)

Lemma dropna_all_null {A : Type} (n : nat) :
  dropna (repeat (@None A) n) = [].
Proof. induction n as [| n IH]; simpl; auto. Qed.

(** C3 (the script departs from it): on a bucket whose event-type (or
    location-type) cells are all null, the label expression
    [x.mode()[0] if len(x) > 0 else 'Unknown'] raises: the group is not
    empty, its mode is, and [[0]] on the empty mode fails.  So does the
    whole table on a frame holding such a bucket. *)
Theorem C3_all_null_bucket_raises :
  (forall n : nat,
      DeadlyEventsMap.modal_label (repeat None (S n)) = Raise KeyError)
  /\ DeadlyEventsMap.print_deadliest_locations
       (value (DeadlyEventsMap.prepare_fatal_events (C := decimal_iso) [untyped]))
     = Raise KeyError.
Proof.
  split.
  - intros n. unfold DeadlyEventsMap.modal_label, mode.
    rewrite dropna_all_null. unfold len. rewrite repeat_length. reflexivity.
  - vm_compute. reflexivity.
Qed.

(** ** The worked example *)

(** C4, as the scripts have it: with the NYC keywords and bounding box
    the pipeline keeps exactly the first of the two example records
    (coordinates coerced to floats); when that record carries an event
    type, the by-event-type table is the single bucket of that type and
    its fatality sum is 2. *)
Theorem C4_worked_example :
  (forall etype1 etype2 : option string,
      value (NycBasemap.prepare_fatal_events (C := decimal_iso)
               (value (NycBasemap.filter_new_york_data (example_rows etype1 etype2))))
        = [example_survivor etype1 (DStr "2019-03-01")]
      /\ value (NycTimeSliderMap.prepare_fatal_events (C := decimal_iso)
                  (value (NycTimeSliderMap.filter_new_york_data
                            (example_rows etype1 etype2))))
         = [example_survivor etype1 (DTime march_first_2019)])
  /\ (forall (etype : string) (etype2 : option string),
         NycBasemap.event_summary
           (value (NycBasemap.prepare_fatal_events (C := decimal_iso)
                     (value (NycBasemap.filter_new_york_data
                               (example_rows (Some etype) etype2)))))
           = [mkTypeBucket etype 2 1]
         /\ sum_by tb_total_fatalities
              (NycBasemap.event_summary
                 (value (NycBasemap.prepare_fatal_events (C := decimal_iso)
                           (value (NycBasemap.filter_new_york_data
                                     (example_rows (Some etype) etype2))))))
            = 2%Z).
Proof.
  split.
  - intros etype1 etype2. split; vm_compute; reflexivity.
  - intros etype etype2. split; vm_compute; reflexivity.
Qed.

(** C4 as stated fails on the example as written: its records carry no
    event type, group-by leaves such rows out, and the by-event-type
    table is empty. *)
Lemma C4_example_without_event_type :
  ~ (sum_by tb_total_fatalities
       (NycBasemap.event_summary
          (value (NycBasemap.prepare_fatal_events (C := decimal_iso)
                    (value (NycBasemap.filter_new_york_data
                              (example_rows None None))))))
     = 2%Z).
Proof. vm_compute. discriminate. Qed.

(** ** Sums over groups *)

Lemma sum_app (xs ys : list (option Z)) :
  Pandas.sum (xs ++ ys) = (Pandas.sum xs + Pandas.sum ys)%Z.
Proof.
  induction xs as [| [k |] xs IH]; simpl; rewrite ?IH; lia.
Qed.

Lemma sum_by_app {A : Type} (f : A -> Z) (l1 l2 : list A) :
  sum_by f (l1 ++ l2) = (sum_by f l1 + sum_by f l2)%Z.
Proof.
  induction l1 as [| a l1 IH]; simpl; rewrite ?IH; lia.
Qed.

Lemma sum_by_perm {A : Type} (f : A -> Z) (l1 l2 : list A) :
  Permutation l1 l2 -> sum_by f l1 = sum_by f l2.
Proof.
  induction 1; simpl; lia.
Qed.

Lemma sum_by_map {A B : Type} (g : A -> B) (f : B -> Z) (l : list A) :
  sum_by f (map g l) = sum_by (fun a => f (g a)) l.
Proof.
  induction l as [| a l IH]; simpl; rewrite ?IH; reflexivity.
Qed.

Lemma insert_perm {A : Type} (le : A -> A -> bool) (a : A) (l : list A) :
  Permutation (insert le a l) (a :: l).
Proof.
  induction l as [| b l IH]; simpl; [reflexivity |].
  destruct (le a b); [reflexivity |].
  rewrite IH. apply perm_swap.
Qed.

Lemma sort_perm {A : Type} (le : A -> A -> bool) (l : list A) :
  Permutation (sort le l) l.
Proof.
  induction l as [| a l IH]; simpl; [reflexivity |].
  unfold sort in *. simpl. rewrite insert_perm. now constructor.
Qed.

Section GroupSums.
Context {K R : Type} (cmp : K -> K -> comparison).
Variable key : R -> option K.
Variable amount : R -> option Z.

Lemma add_row_held (k : K) (r : R) (gs : list (K * list R)) :
  held amount (add_row cmp k r gs) = (held amount gs + Pandas.sum [amount r])%Z.
Proof.
  induction gs as [| [k' rs] gs IH]; cbn [add_row].
  - unfold held. simpl. destruct (amount r); lia.
  - destruct (cmp k k').
    + unfold held. cbn [sum_by snd]. rewrite map_app, sum_app. simpl map. lia.
    + unfold held. cbn [sum_by snd map]. simpl Pandas.sum. destruct (amount r); lia.
    + unfold held in *. cbn [sum_by snd]. rewrite IH. lia.
Qed.

Lemma groupby_held_from (df : list R) (gs : list (K * list R)) :
  held amount (fold_left (fun gs r => match key r with
                               | Some k => add_row cmp k r gs
                               | None => gs
                               end) df gs)
  = (held amount gs
     + Pandas.sum (map amount (filter (fun r => opt_notna (key r)) df)))%Z.
Proof.
  revert gs. induction df as [| r df IH]; intros gs; simpl.
  - lia.
  - rewrite IH. destruct (key r) as [k |]; simpl.
    + rewrite add_row_held. simpl. destruct (amount r); lia.
    + reflexivity.
Qed.

(** Group-by keeps every amount of a keyed row, once. *)
Lemma groupby_held (df : list R) :
  held amount (groupby cmp key df)
  = Pandas.sum (map amount (filter (fun r => opt_notna (key r)) df)).
Proof. unfold groupby. rewrite groupby_held_from. reflexivity. Qed.
End GroupSums.

Lemma mapM_Ok {A B : Type} (f : A -> result B) (l : list A) (bs : list B) :
  mapM f l = Ok bs -> Forall2 (fun a b => f a = Ok b) l bs.
Proof.
  revert bs. induction l as [| a l IH]; intros bs; simpl.
  - intros E. injection E as <-. constructor.
  - destruct (f a) as [b | e] eqn:Fa; simpl; [| discriminate].
    destruct (mapM f l) as [bs' | e]; simpl; [| discriminate].
    intros E. injection E as <-. constructor; auto.
Qed.

Lemma filter_all {A : Type} (p : A -> bool) (l : list A) :
  (forall a, In a l -> p a = true) -> filter p l = l.
Proof.
  induction l as [| a l IH]; intros Hall; simpl; [reflexivity |].
  rewrite (Hall a (or_introl eq_refl)), IH; [reflexivity |].
  intros b Hb. apply Hall. now right.
Qed.

Lemma filter_all_false {A : Type} (p : A -> bool) (l : list A) :
  (forall a, In a l -> p a = false) -> filter p l = [].
Proof.
  induction l as [| a l IH]; intros Hall; simpl; [reflexivity |].
  rewrite (Hall a (or_introl eq_refl)). apply IH.
  intros b Hb. apply Hall. now right.
Qed.

(** *** By event type *)

Lemma event_summary_total (df : frame) :
  sum_by tb_total_fatalities (Events.event_summary df)
  = fatalities (filter (fun r => opt_notna (event_type r)) df).
Proof.
  unfold Events.event_summary, Events.event_groups, fatalities.
  rewrite (sum_by_perm _ _ _ (sort_perm _ _)), sum_by_map.
  cbn [tb_total_fatalities].
  apply (groupby_held String.compare event_type total_fatalities).
Qed.

(** *** By year-month *)

Lemma month_summary_total (df : frame) (ms : list NycTimeSliderMap.month_bucket) :
  NycTimeSliderMap.month_summary df = Ok ms ->
  sum_by NycTimeSliderMap.mb_total_fatalities ms
  = fatalities (filter (fun r => opt_notna (NycTimeSliderMap.year_month r)) df).
Proof.
  unfold NycTimeSliderMap.month_summary, NycTimeSliderMap.month_groups, fatalities.
  destruct (existsb NycTimeSliderMap.is_text_date df); [discriminate |].
  intros E. injection E as <-.
  rewrite (sum_by_perm _ _ _ (sort_perm _ _)), sum_by_map.
  cbn [NycTimeSliderMap.mb_total_fatalities].
  apply (groupby_held NycTimeSliderMap.period_cmp NycTimeSliderMap.year_month
                      total_fatalities).
Qed.

(** *** By rounded coordinate *)

Lemma agg_total (g : DeadlyEventsMap.coord * list DeadlyEventsMap.located)
      (b : DeadlyEventsMap.bucket) :
  DeadlyEventsMap.agg g = Ok b ->
  DeadlyEventsMap.b_coord b = fst g
  /\ DeadlyEventsMap.b_total_fatalities b
     = Pandas.sum (map total_fatalities (map DeadlyEventsMap.base (snd g)))
  /\ DeadlyEventsMap.b_num_incidents b
     = count date_notna (map incident_date (map DeadlyEventsMap.base (snd g)))
  /\ DeadlyEventsMap.modal_label
       (map event_type (map DeadlyEventsMap.base (snd g)))
     = Ok (DeadlyEventsMap.b_event_type b)
  /\ DeadlyEventsMap.modal_label
       (map location_type (map DeadlyEventsMap.base (snd g)))
     = Ok (DeadlyEventsMap.b_location_type b).
Proof.
  unfold DeadlyEventsMap.agg.
  destruct (DeadlyEventsMap.modal_label (map event_type _)) as [et | e];
    simpl; [| discriminate].
  destruct (DeadlyEventsMap.modal_label (map location_type _)) as [lt | e];
    simpl; [| discriminate].
  intros E. injection E as <-. simpl. auto.
Qed.

Lemma agg_all_total (gs : list (DeadlyEventsMap.coord * list DeadlyEventsMap.located))
      (bs : list DeadlyEventsMap.bucket) :
  Forall2 (fun g b => DeadlyEventsMap.agg g = Ok b) gs bs ->
  sum_by DeadlyEventsMap.b_total_fatalities bs
  = held (fun l => total_fatalities (DeadlyEventsMap.base l)) gs.
Proof.
  induction 1 as [| g b gs bs Hg _ IH]; [reflexivity |].
  unfold held in *. cbn [sum_by]. rewrite IH.
  destruct (agg_total g b Hg) as [_ [-> _]]. now rewrite map_map.
Qed.

Lemma located_keyed_total (df : frame) (ldf : list DeadlyEventsMap.located) :
  Forall2 (fun r l => DeadlyEventsMap.add_rounded r = Ok l) df ldf ->
  Pandas.sum (map (fun l => total_fatalities (DeadlyEventsMap.base l))
                  (filter (fun l => opt_notna (DeadlyEventsMap.coord_key l)) ldf))
  = fatalities (filter has_coord_key df).
Proof.
  unfold fatalities.
  induction 1 as [| r l df ldf Hr _ IH]; [reflexivity |].
  cbn [filter]. unfold has_coord_key at 1, rounded_coord. rewrite Hr.
  assert (B : DeadlyEventsMap.base l = r).
  { unfold DeadlyEventsMap.add_rounded in Hr.
    destruct (DeadlyEventsMap.round_col (latitude r)); simpl in Hr; [| discriminate].
    destruct (DeadlyEventsMap.round_col (longitude r)); simpl in Hr; [| discriminate].
    injection Hr as <-. reflexivity. }
  destruct (opt_notna (DeadlyEventsMap.coord_key l)); cbn [map Pandas.sum fold_right].
  - rewrite B. unfold Pandas.sum in IH. now rewrite IH.
  - exact IH.
Qed.

Lemma location_fatalities_total (df : frame) (bs : list DeadlyEventsMap.bucket) :
  DeadlyEventsMap.location_fatalities df = Ok bs ->
  sum_by DeadlyEventsMap.b_total_fatalities bs = fatalities (filter has_coord_key df).
Proof.
  unfold DeadlyEventsMap.location_fatalities, DeadlyEventsMap.location_groups.
  destruct (mapM DeadlyEventsMap.add_rounded df) as [ldf | e] eqn:L;
    simpl; [| discriminate].
  destruct (mapM DeadlyEventsMap.agg _) as [t | e] eqn:T; simpl; [| discriminate].
  intros E. injection E as <-.
  rewrite (sum_by_perm _ _ _ (sort_perm _ _)).
  rewrite (agg_all_total _ _ (mapM_Ok _ _ _ T)).
  rewrite (groupby_held DeadlyEventsMap.coord_cmp DeadlyEventsMap.coord_key).
  apply located_keyed_total, mapM_Ok, L.
Qed.

(** *** Every prepared row has its keys *)

Lemma of_Q_not_nan (x : Q) : is_nan (of_Q x) = false.
Proof.
  unfold of_Q. cbv zeta.
  destruct (Qnum x =? 0)%Z; [reflexivity |].
  match goal with |- context [if ?b then FInf _ else _] => destruct b end;
    reflexivity.
Qed.

Lemma thousand : of_Q (inject_Z (10 ^ 3)) = FFin 1000.
Proof. vm_compute. reflexivity. Qed.

(** Rounding a number to three decimals gives a number. *)
Lemma round3_not_nan (x : float64) :
  is_nan x = false -> is_nan (Float64.round 3 x) = false.
Proof.
  unfold Float64.round. rewrite thousand.
  destruct x as [| a | p]; [discriminate | reflexivity |]. intros _.
  cbn [Float64.mul].
  destruct (of_Q (p * 1000)) as [| a | q] eqn:M.
  - pose proof (of_Q_not_nan (p * 1000)) as N. rewrite M in N. discriminate.
  - reflexivity.
  - cbn [Float64.rint Float64.div]. change (Qnum 1000 =? 0)%Z with false.
    cbv iota. apply of_Q_not_nan.
Qed.

Lemma numeric_row_has_key (r : row) (x y : float64) :
  latitude r = CNum x -> longitude r = CNum y ->
  is_nan x = false -> is_nan y = false ->
  has_coord_key r = true.
Proof.
  intros La Lo Nx Ny.
  unfold has_coord_key, rounded_coord,
    DeadlyEventsMap.add_rounded, DeadlyEventsMap.round_col.
  rewrite La, Lo. cbn [Pandas.bind]. unfold DeadlyEventsMap.coord_key.
  cbn [DeadlyEventsMap.lat_rounded DeadlyEventsMap.lon_rounded].
  now rewrite (round3_not_nan x Nx), (round3_not_nan y Ny).
Qed.

Section PreparedKeys.
Context {C : Coercion}.

Lemma deadly_prepared_keyed (df : frame) :
  filter has_coord_key (value (DeadlyEventsMap.prepare_fatal_events df))
  = value (DeadlyEventsMap.prepare_fatal_events df).
Proof.
  apply filter_all. intros r. rewrite deadly_prepare_value, in_map_iff.
  intros [r0 [<- Hin]]. apply filter_In in Hin. destruct Hin as [_ S].
  destruct (survivor_coordinates _ _ S) as [x [y [La [Lo [Nx Ny]]]]].
  now apply (numeric_row_has_key _ x y).
Qed.

Lemma slider_prepared_dated (df : frame) (r : row) :
  In r (value (NycTimeSliderMap.prepare_fatal_events df)) ->
  exists t, incident_date r = DTime t.
Proof.
  rewrite slider_prepare_value, in_map_iff.
  intros [r0 [<- Hin]]. apply filter_In in Hin. destruct Hin as [_ S].
  unfold survives, Spec.complete in S.
  cbn [Spec.date_required Spec.nyc_time_slider_map] in S.
  repeat (match goal with
          | E : _ && _ = true |- _ => apply andb_true_iff in E; destruct E
          end).
  match goal with
  | D : date_notna _ = true |- _ => revert D
  end.
  unfold Spec.coerce.
  cbn [Spec.date_required Spec.nyc_time_slider_map set_incident_date incident_date
       set_latitude set_longitude].
  unfold to_datetime. destruct (incident_date r0) as [| s | t].
  - discriminate.
  - destruct (str_to_datetime s) as [t |]; [eauto | discriminate].
  - eauto.
Qed.

Lemma slider_prepared_keyed (df : frame) :
  existsb NycTimeSliderMap.is_text_date
          (value (NycTimeSliderMap.prepare_fatal_events df)) = false
  /\ filter (fun r => opt_notna (NycTimeSliderMap.year_month r))
            (value (NycTimeSliderMap.prepare_fatal_events df))
     = value (NycTimeSliderMap.prepare_fatal_events df).
Proof.
  split.
  - destruct (existsb _ _) eqn:E; [| reflexivity].
    apply existsb_exists in E. destruct E as [r [Hin T]].
    destruct (slider_prepared_dated df r Hin) as [t D].
    unfold NycTimeSliderMap.is_text_date in T. rewrite D in T. discriminate.
  - apply filter_all. intros r Hin.
    destruct (slider_prepared_dated df r Hin) as [t D].
    unfold NycTimeSliderMap.year_month. now rewrite D.
Qed.

End PreparedKeys.

(** C2, as pandas groups: the fatality sums of the buckets add up to the
    total fatalities of the input rows whose group key is not null; rows
    with a null key (no event type, no date, no coordinate) are in no
    bucket.  On the output of [prepare_fatal_events] every row has a
    coordinate key and, in the time-slider script, a year-month key, so
    there the coordinate and year-month tables add up to the total of all
    rows. *)
Theorem C2_bucket_sums_cover_keyed_rows :
  forall (C : Coercion) (df : frame),
    sum_by tb_total_fatalities (Events.event_summary df)
      = fatalities (filter (fun r => opt_notna (event_type r)) df)
    /\ (forall ms,
           NycTimeSliderMap.month_summary df = Ok ms ->
           sum_by NycTimeSliderMap.mb_total_fatalities ms
           = fatalities (filter (fun r => opt_notna (NycTimeSliderMap.year_month r)) df))
    /\ (forall bs,
           DeadlyEventsMap.location_fatalities df = Ok bs ->
           sum_by DeadlyEventsMap.b_total_fatalities bs
           = fatalities (filter has_coord_key df))
    /\ (forall bs,
           DeadlyEventsMap.location_fatalities
             (value (DeadlyEventsMap.prepare_fatal_events df)) = Ok bs ->
           sum_by DeadlyEventsMap.b_total_fatalities bs
           = fatalities (value (DeadlyEventsMap.prepare_fatal_events df)))
    /\ (exists ms,
           NycTimeSliderMap.month_summary
             (value (NycTimeSliderMap.prepare_fatal_events df)) = Ok ms
           /\ sum_by NycTimeSliderMap.mb_total_fatalities ms
              = fatalities (value (NycTimeSliderMap.prepare_fatal_events df))).
Proof.
  intros C df.
  split; [apply event_summary_total |].
  split; [apply month_summary_total |].
  split; [apply location_fatalities_total |].
  split.
  - intros bs E. rewrite (location_fatalities_total _ _ E).
    now rewrite deadly_prepared_keyed.
  - destruct (slider_prepared_keyed df) as [T K].
    unfold NycTimeSliderMap.month_summary at 1. rewrite T.
    eexists. split; [reflexivity |].
    rewrite (month_summary_total (value (NycTimeSliderMap.prepare_fatal_events df))).
    + now rewrite K.
    + unfold NycTimeSliderMap.month_summary. now rewrite T.
Qed.

Lemma C2_manhattan_witness :
  sum_by DeadlyEventsMap.b_total_fatalities
    [DeadlyEventsMap.mkBucket
       (FFin (163 # 4), FFin (- 5205879694263583 # 70368744177664))
       4 2 "Suicide" "Station"]
  = fatalities (value (DeadlyEventsMap.prepare_fatal_events (C := decimal_iso)
                         [manhattan; manhattan])).
Proof.
  destruct (C2_bucket_sums_cover_keyed_rows decimal_iso [manhattan; manhattan])
    as [_ [_ [_ [Hprepared _]]]].
  apply Hprepared. vm_compute. reflexivity.
Defined.

(** C2 as stated fails for the by-event-type table: a fatal incident
    with no event type is in no bucket, so the buckets add up to less
    than the input. *)
Lemma C2_untyped_row_is_not_counted :
  ~ (forall df : frame,
        sum_by tb_total_fatalities (Events.event_summary df) = fatalities df).
Proof.
  intros claim. specialize (claim [untyped]). vm_compute in claim. discriminate.
Qed.

(** ** What group-by builds *)

Section GroupInvariant.
Context {K R : Type} (cmp : K -> K -> comparison) (key : R -> option K).
Hypothesis order : ordering cmp.

Lemma same_key_iff (a b : K) : same_key cmp a b = true <-> cmp a b = Eq.
Proof. unfold same_key. destruct (cmp a b); split; congruence. Qed.

Lemma cmp_eq_sym (a b : K) : cmp a b = Eq -> cmp b a = Eq.
Proof. intros E. rewrite (cmp_antisym cmp order a b), E. reflexivity. Qed.

Lemma cmp_gt_lt (a b : K) : cmp a b = Gt -> cmp b a = Lt.
Proof. intros E. rewrite (cmp_antisym cmp order a b), E. reflexivity. Qed.

(** The keys of [add_row k r gs] are [k] and the keys of [gs]. *)
Lemma add_row_keys (k : K) (r : R) (gs : list (K * list R)) (g : K * list R) :
  In g (add_row cmp k r gs) ->
  fst g = k \/ exists g0, In g0 gs /\ fst g = fst g0.
Proof.
  induction gs as [| [k' rs] gs IH]; cbn [add_row].
  - intros [<- | []]. now left.
  - destruct (cmp k k').
    + intros [<- | Hin]; right.
      * exists (k', rs). split; [now left | reflexivity].
      * exists g. split; [now right | reflexivity].
    + intros [<- | Hin]; [now left | right].
      exists g. split; [exact Hin | reflexivity].
    + intros [<- | Hin].
      * right. exists (k', rs). split; [now left | reflexivity].
      * destruct (IH Hin) as [E | [g0 [H0 E]]]; [now left | right].
        exists g0. split; [now right | exact E].
Qed.

Lemma add_row_ascending (k : K) (r : R) (gs : list (K * list R)) :
  ascending cmp fst gs -> ascending cmp fst (add_row cmp k r gs).
Proof.
  unfold ascending. induction gs as [| [k' rs] gs IH]; cbn [add_row]; intros S.
  - repeat constructor.
  - inversion S as [| ? ? S' F]; subst.
    destruct (cmp k k') eqn:E.
    + constructor; [exact S' | exact F].
    + constructor; [exact S |]. constructor; [exact E |].
      rewrite Forall_forall in *. intros g Hg. cbn [fst].
      apply (cmp_lt_trans cmp order k k' (fst g) E). apply (F g Hg).
    + constructor; [apply IH, S' |].
      rewrite Forall_forall in *. intros g Hg. cbn [fst].
      destruct (add_row_keys k r gs g Hg) as [-> | [g0 [H0 ->]]].
      * now apply cmp_gt_lt.
      * apply (F g0 H0).
Qed.

(** Where the rows of a group of [add_row k r gs] come from. *)
Lemma add_row_groups (k : K) (r : R) (gs : list (K * list R)) (g : K * list R) :
  ascending cmp fst gs ->
  In g (add_row cmp k r gs) ->
  (In g gs /\ cmp k (fst g) <> Eq)
  \/ (exists rs, In (fst g, rs) gs /\ cmp k (fst g) = Eq /\ snd g = rs ++ [r])
  \/ (g = (k, [r]) /\ forall g0, In g0 gs -> cmp k (fst g0) <> Eq).
Proof.
  unfold ascending. induction gs as [| [k' rs] gs IH]; cbn [add_row]; intros S.
  - intros [<- | []]. right. right. split; [reflexivity | intros g0 []].
  - inversion S as [| ? ? S' F]; subst. rewrite Forall_forall in F.
    destruct (cmp k k') eqn:E.
    + intros [<- | Hin].
      * right. left. exists rs. cbn [fst snd]. repeat split; [now left | exact E].
      * left. split; [now right |].
        rewrite (cmp_eq_lt cmp order k k' (fst g) E (F g Hin)). discriminate.
    + intros [<- | Hin].
      * right. right. split; [reflexivity |].
        intros g0 [<- | H0]; cbn [fst].
        -- rewrite E. discriminate.
        -- rewrite (cmp_lt_trans cmp order k k' (fst g0) E (F g0 H0)). discriminate.
      * left. split; [exact Hin |].
        destruct Hin as [<- | Hin]; cbn [fst].
        -- rewrite E. discriminate.
        -- rewrite (cmp_lt_trans cmp order k k' (fst g) E (F g Hin)). discriminate.
    + intros [<- | Hin].
      * left. split; [now left |]. cbn [fst]. rewrite E. discriminate.
      * destruct (IH S' Hin) as [[H0 N] | [[rs0 [H0 [Ek Es]]] | [-> N]]].
        -- left. split; [now right | exact N].
        -- right. left. exists rs0. repeat split; [now right | exact Ek | exact Es].
        -- right. right. split; [reflexivity |].
           intros g0 [<- | H0]; cbn [fst]; [rewrite E; discriminate | now apply N].
Qed.

(** Every key of [gs], and [k], is a key of [add_row k r gs]. *)
Lemma add_row_covers (k : K) (r : R) (gs : list (K * list R)) :
  (exists g, In g (add_row cmp k r gs) /\ cmp k (fst g) = Eq)
  /\ (forall g0, In g0 gs -> exists g, In g (add_row cmp k r gs) /\ fst g = fst g0).
Proof.
  induction gs as [| [k' rs] gs [IHk IHg]]; cbn [add_row].
  - split.
    + exists (k, [r]). split; [now left | apply (cmp_refl cmp order)].
    + intros g0 [].
  - destruct (cmp k k') eqn:E.
    + split.
      * exists (k', rs ++ [r]). split; [now left | exact E].
      * intros g0 [<- | H0].
        -- exists (k', rs ++ [r]). split; [now left | reflexivity].
        -- exists g0. split; [now right | reflexivity].
    + split.
      * exists (k, [r]). split; [now left | apply (cmp_refl cmp order)].
      * intros g0 H0. exists g0. split; [now right | reflexivity].
    + split.
      * destruct IHk as [g [Hg Eg]]. exists g. split; [now right | exact Eg].
      * intros g0 [<- | H0].
        -- exists (k', rs). split; [now left | reflexivity].
        -- destruct (IHg g0 H0) as [g [Hg Eg]]. exists g. split; [now right | exact Eg].
Qed.

Lemma grouping_step (df : list R) (gs : list (K * list R)) (r : R) :
  grouping cmp key df gs ->
  grouping cmp key (df ++ [r])
           (match key r with
            | Some k => add_row cmp k r gs
            | None => gs
            end).
Proof.
  intros [S [G V]]. destruct (key r) as [k |] eqn:Kr.
  - split; [now apply add_row_ascending |]. split.
    + intros g Hg. rewrite filter_app. cbn [filter]. unfold member at 2. rewrite Kr.
      destruct (add_row_groups k r gs g S Hg)
        as [[H0 N] | [[rs [H0 [Ek Es]]] | [-> N]]].
      * destruct (G g H0) as [E Hne].
        replace (same_key cmp k (fst g)) with false
          by (unfold same_key; destruct (cmp k (fst g)); congruence).
        rewrite app_nil_r. auto.
      * destruct (G _ H0) as [E _]. cbn [snd fst] in E.
        rewrite (proj2 (same_key_iff _ _) Ek), Es, E. split; [reflexivity |].
        intros Z. now apply app_eq_nil in Z.
      * cbn [fst snd]. unfold same_key. rewrite (cmp_refl cmp order).
        split; [| discriminate].
        replace (filter (member cmp key k) df) with (@nil R); [reflexivity |].
        symmetry. apply filter_all_false. intros r0 Hr0.
        unfold member. destruct (key r0) as [k0 |] eqn:K0; [| reflexivity].
        destruct (same_key cmp k0 k) eqn:Sk; [| reflexivity].
        apply same_key_iff in Sk.
        destruct (V r0 k0 Hr0 K0) as [g [Hg0 Eg]].
        exfalso. apply (N g Hg0).
        apply (cmp_eq_trans cmp order k k0 (fst g)); [now apply cmp_eq_sym | exact Eg].
    + intros r0 k0 Hr0 K0. apply in_app_or in Hr0.
      destruct (add_row_covers k r gs) as [[g [Hg Eg]] Hold].
      destruct Hr0 as [Hr0 | [<- | []]].
      * destruct (V r0 k0 Hr0 K0) as [g0 [Hg0 Eg0]].
        destruct (Hold g0 Hg0) as [g1 [Hg1 E1]].
        exists g1. split; [exact Hg1 | now rewrite E1].
      * exists g. split; [exact Hg |]. congruence.
  - split; [exact S |]. split.
    + intros g Hg. rewrite filter_app. cbn [filter]. unfold member at 2.
      rewrite Kr, app_nil_r. now apply G.
    + intros r0 k0 Hr0 K0. apply in_app_or in Hr0.
      destruct Hr0 as [Hr0 | [<- | []]]; [now apply (V r0 k0) | congruence].
Qed.

(** [groupby] builds the grouping of its frame: keys ascending, each
    group the rows of its key in frame order, no keyed row left out. *)
Lemma groupby_grouping (df : list R) : grouping cmp key df (groupby cmp key df).
Proof.
  unfold groupby. induction df as [| r df IH] using rev_ind.
  - split; [constructor |]. split; [intros g [] | intros r k []].
  - rewrite fold_left_app. cbn [fold_left]. now apply grouping_step.
Qed.

End GroupInvariant.

(** ** The order on coordinate keys *)

Lemma cmp_lt_eq {K : Type} (cmp : K -> K -> comparison) (order : ordering cmp)
      (a b c : K) :
  cmp a b = Lt -> cmp b c = Eq -> cmp a c = Lt.
Proof.
  intros Hab Hbc.
  assert (Hcb : cmp c b = Eq) by now apply (cmp_eq_sym cmp order).
  rewrite (cmp_antisym cmp order c a).
  destruct (cmp c a) eqn:Hca; [| | reflexivity]; exfalso.
  - rewrite (cmp_eq_lt cmp order c a b Hca Hab) in Hcb. discriminate.
  - rewrite (cmp_lt_trans cmp order c a b Hca Hab) in Hcb. discriminate.
Qed.

Lemma lexicographic_ordering {A B : Type}
      (c1 : A -> A -> comparison) (c2 : B -> B -> comparison) :
  ordering c1 -> ordering c2 ->
  ordering (fun a b : A * B =>
              match c1 (fst a) (fst b) with
              | Eq => c2 (snd a) (snd b)
              | c => c
              end).
Proof.
  intros O1 O2. constructor.
  - intros a. now rewrite (cmp_refl c1 O1), (cmp_refl c2 O2).
  - intros a b. rewrite (cmp_antisym c1 O1 (fst a) (fst b)).
    destruct (c1 (fst a) (fst b)); cbn [CompOpp]; try reflexivity.
    apply (cmp_antisym c2 O2).
  - intros a b c.
    destruct (c1 (fst a) (fst b)) eqn:Eab; try discriminate;
      destruct (c1 (fst b) (fst c)) eqn:Ebc; try discriminate; intros Hab Hbc.
    + rewrite (cmp_eq_trans c1 O1 _ _ _ Eab Ebc).
      exact (cmp_lt_trans c2 O2 _ _ _ Hab Hbc).
    + now rewrite (cmp_eq_lt c1 O1 _ _ _ Eab Ebc).
    + now rewrite (cmp_lt_eq c1 O1 _ _ _ Eab Ebc).
    + now rewrite (cmp_lt_trans c1 O1 _ _ _ Eab Ebc).
  - intros a b c.
    destruct (c1 (fst a) (fst b)) eqn:Eab; try discriminate;
      destruct (c1 (fst b) (fst c)) eqn:Ebc; try discriminate; intros Hab Hbc.
    + rewrite (cmp_eq_trans c1 O1 _ _ _ Eab Ebc).
      exact (cmp_eq_lt c2 O2 _ _ _ Hab Hbc).
    + now rewrite (cmp_eq_lt c1 O1 _ _ _ Eab Ebc).
  - intros a b c.
    destruct (c1 (fst a) (fst b)) eqn:Eab; try discriminate;
      destruct (c1 (fst b) (fst c)) eqn:Ebc; try discriminate; intros Hab Hbc.
    rewrite (cmp_eq_trans c1 O1 _ _ _ Eab Ebc).
    exact (cmp_eq_trans c2 O2 _ _ _ Hab Hbc).
Qed.

Lemma Qcompare_refl (p : Q) : (p ?= p)%Q = Eq.
Proof. apply Qeq_alt. reflexivity. Qed.

Lemma float_ordering : ordering Float64.cmp.
Proof.
  constructor.
  - intros [| [|] | p]; try reflexivity.
    unfold Float64.cmp. cbn [Float64.compare]. apply Qcompare_refl.
  - intros [| [|] | p] [| [|] | q]; try reflexivity.
    unfold Float64.cmp. cbn [Float64.compare]. symmetry. apply Qcompare_antisym.
  - intros [| [|] | p] [| [|] | q] [| [|] | r];
      unfold Float64.cmp; cbn [Float64.compare is_nan];
      try congruence; try discriminate.
    rewrite <- !Qlt_alt. apply Qlt_trans.
  - intros [| [|] | p] [| [|] | q] [| [|] | r];
      unfold Float64.cmp; cbn [Float64.compare is_nan];
      try congruence; try discriminate.
    rewrite <- Qeq_alt, <- !Qlt_alt. intros E L. now rewrite E.
  - intros [| [|] | p] [| [|] | q] [| [|] | r];
      unfold Float64.cmp; cbn [Float64.compare is_nan];
      try congruence; try discriminate.
    rewrite <- !Qeq_alt. apply Qeq_trans.
Qed.

Lemma coord_ordering : ordering DeadlyEventsMap.coord_cmp.
Proof.
  exact (lexicographic_ordering Float64.cmp Float64.cmp float_ordering float_ordering).
Qed.

(** ** Sorting *)

Section SortFacts.
Context {A : Type} (le : A -> A -> bool).
Hypothesis le_total : forall a b, le a b = false -> le b a = true.
Hypothesis le_trans : forall a b c, le a b = true -> le b c = true -> le a c = true.

Lemma insert_sorted (a : A) (l : list A) :
  StronglySorted (fun x y => le x y = true) l ->
  StronglySorted (fun x y => le x y = true) (insert le a l).
Proof.
  induction l as [| b l IH]; cbn [insert]; intros S.
  - repeat constructor.
  - inversion S as [| ? ? S' F]; subst. destruct (le a b) eqn:E.
    + constructor; [exact S |]. constructor; [exact E |].
      rewrite Forall_forall in *. intros c Hc. apply (le_trans a b c E), F, Hc.
    + constructor; [apply IH, S' |].
      rewrite Forall_forall in *. intros c Hc.
      apply (Permutation_in _ (insert_perm le a l)) in Hc.
      destruct Hc as [<- | Hc]; [now apply le_total | now apply F].
Qed.

Lemma sort_sorted (l : list A) :
  StronglySorted (fun x y => le x y = true) (sort le l).
Proof.
  induction l as [| a l IH]; [constructor |].
  unfold sort in *. cbn [fold_right]. now apply insert_sorted.
Qed.

Hypothesis le_refl : forall a, le a a = true.

(** The first element of a sorted list is below all of them. *)
Lemma sort_head_least (l : list A) (m : A) (rest : list A) :
  sort le l = m :: rest -> forall v, In v l -> le m v = true.
Proof.
  intros E v Hv. pose proof (sort_sorted l) as S. rewrite E in S.
  apply (Permutation_in _ (Permutation_sym (sort_perm le l))) in Hv.
  rewrite E in Hv. inversion S as [| ? ? _ F]; subst.
  destruct Hv as [<- | Hv]; [apply le_refl |].
  rewrite Forall_forall in F. now apply F.
Qed.
End SortFacts.

(** ** The order on labels *)

Lemma ascii_compare_trans (c : comparison) (x y z : ascii) :
  Ascii.compare x y = c -> Ascii.compare y z = c -> Ascii.compare x z = c.
Proof.
  unfold Ascii.compare. destruct c.
  - rewrite !N.compare_eq_iff. congruence.
  - rewrite !N.compare_lt_iff. apply N.lt_trans.
  - rewrite !N.compare_gt_iff. intros H1 H2. now apply N.lt_trans with (N_of_ascii y).
Qed.

Lemma ascii_compare_eq (x y : ascii) : Ascii.compare x y = Eq -> x = y.
Proof. apply Ascii.compare_eq_iff. Qed.

Lemma string_compare_refl (s : string) : String.compare s s = Eq.
Proof.
  induction s as [| a s IH]; [reflexivity |]. cbn [String.compare].
  unfold Ascii.compare. now rewrite N.compare_refl.
Qed.

Lemma string_leb_trans (s1 s2 s3 : string) :
  String.leb s1 s2 = true -> String.leb s2 s3 = true -> String.leb s1 s3 = true.
Proof.
  unfold String.leb. revert s2 s3.
  induction s1 as [| a s1 IH]; intros [| b s2] [| c s3]; cbn [String.compare];
    try congruence; try discriminate.
  destruct (Ascii.compare a b) eqn:Eab; try discriminate;
    destruct (Ascii.compare b c) eqn:Ebc; try discriminate.
  - apply ascii_compare_eq in Eab, Ebc. subst.
    unfold Ascii.compare at 1. rewrite N.compare_refl. apply IH.
  - apply ascii_compare_eq in Eab. subst. now rewrite Ebc.
  - apply ascii_compare_eq in Ebc. subst. now rewrite Eab.
  - now rewrite (ascii_compare_trans Lt a b c Eab Ebc).
Qed.

Lemma string_leb_total (s1 s2 : string) :
  String.leb s1 s2 = false -> String.leb s2 s1 = true.
Proof.
  intros F. destruct (String.leb_total s1 s2) as [E | E]; congruence.
Qed.

Lemma string_leb_refl (s : string) : String.leb s s = true.
Proof. unfold String.leb. now rewrite string_compare_refl. Qed.

(** ** Modes *)

Lemma dropna_In {A : Type} (x : list (option A)) (v : A) :
  In v (dropna x) <-> In (Some v) x.
Proof.
  induction x as [| [a |] x IH]; cbn [dropna In].
  - reflexivity.
  - rewrite IH. split; intros [E | H]; auto; left; congruence.
  - rewrite IH. split; [auto | intros [E | H]; [discriminate | exact H]].
Qed.

Lemma max_bound (f : string -> nat) (vals : list string) (v : string) :
  In v vals -> (f v <= fold_right Nat.max 0 (map f vals))%nat.
Proof.
  induction vals as [| a vals IH]; [intros [] |].
  intros [<- | H]; cbn [map fold_right]; [apply Nat.le_max_l |].
  apply Nat.le_trans with (1 := IH H). apply Nat.le_max_r.
Qed.

(** The label [x.mode()[0]] is the smallest of the most frequent values. *)
Lemma item0_mode (x : list (option string)) (m : string) :
  item0 (mode x) = Ok m -> smallest_mode m x.
Proof.
  unfold item0, mode.
  set (vals := dropna x).
  set (best := fold_right Nat.max 0%nat (map (fun v => occurrences v vals) vals)).
  set (top := nodup string_dec
                    (filter (fun v => Nat.eqb (occurrences v vals) best) vals)).
  destruct (sort String.leb top) as [| m' rest] eqn:E; [discriminate |].
  intros M. injection M as ->.
  assert (Hm : In m top).
  { apply (Permutation_in _ (sort_perm String.leb top)). rewrite E. now left. }
  unfold top in Hm. rewrite nodup_In, filter_In, Nat.eqb_eq in Hm.
  destruct Hm as [Hin Hbest]. unfold smallest_mode. fold vals.
  split; [now apply dropna_In |].
  intros v Hv. apply dropna_In in Hv. fold vals in Hv.
  pose proof (max_bound (fun v => occurrences v vals) vals v Hv) as B.
  fold best in B. cbv beta in B. split; [lia |].
  intros Eq. apply (sort_head_least String.leb string_leb_total string_leb_trans
                                    string_leb_refl top m rest E).
  unfold top. rewrite nodup_In, filter_In, Nat.eqb_eq. split; [exact Hv | lia].
Qed.

(** On a group that has rows, [modal_label] is that label. *)
Lemma modal_label_mode (x : list (option string)) (m : string) :
  x <> [] -> DeadlyEventsMap.modal_label x = Ok m -> smallest_mode m x.
Proof.
  intros Hne. unfold DeadlyEventsMap.modal_label, len.
  destruct x as [| a x]; [congruence |]. cbn [List.length Nat.ltb Nat.leb].
  apply item0_mode.
Qed.

(** ** The table of deadliest locations *)

Lemma Forall2_In_l {A B : Type} (P : A -> B -> Prop) (l : list A) (l' : list B) (a : A) :
  Forall2 P l l' -> In a l -> exists b, In b l' /\ P a b.
Proof.
  induction 1 as [| x y l l' Hxy _ IH]; [intros [] |].
  intros [<- | Hin].
  - exists y. split; [now left | exact Hxy].
  - destruct (IH Hin) as [b [Hb Pb]]. exists b. split; [now right | exact Pb].
Qed.

Lemma Forall2_In_r {A B : Type} (P : A -> B -> Prop) (l : list A) (l' : list B) (b : B) :
  Forall2 P l l' -> In b l' -> exists a, In a l /\ P a b.
Proof.
  induction 1 as [| x y l l' Hxy _ IH]; [intros [] |].
  intros [<- | Hin].
  - exists x. split; [now left | exact Hxy].
  - destruct (IH Hin) as [a [Ha Pa]]. exists a. split; [now right | exact Pa].
Qed.

Lemma add_rounded_base (r : row) (l : DeadlyEventsMap.located) :
  DeadlyEventsMap.add_rounded r = Ok l ->
  DeadlyEventsMap.base l = r /\ rounded_coord r = DeadlyEventsMap.coord_key l.
Proof.
  intros E. unfold rounded_coord. rewrite E. split; [| reflexivity].
  unfold DeadlyEventsMap.add_rounded in E.
  destruct (DeadlyEventsMap.round_col (latitude r)); simpl in E; [| discriminate].
  destruct (DeadlyEventsMap.round_col (longitude r)); simpl in E; [| discriminate].
  injection E as <-. reflexivity.
Qed.

(** The rows of a group of the located frame are the bucket's rows of
    the frame itself. *)
Lemma located_bucket_rows (df : frame) (ldf : list DeadlyEventsMap.located)
      (k : DeadlyEventsMap.coord) :
  Forall2 (fun r l => DeadlyEventsMap.add_rounded r = Ok l) df ldf ->
  map DeadlyEventsMap.base
      (filter (member DeadlyEventsMap.coord_cmp DeadlyEventsMap.coord_key k) ldf)
  = bucket_rows k df.
Proof.
  unfold bucket_rows.
  induction 1 as [| r l df ldf Hr _ IH]; [reflexivity |].
  destruct (add_rounded_base r l Hr) as [B Kr].
  assert (M : member DeadlyEventsMap.coord_cmp DeadlyEventsMap.coord_key k l
              = member DeadlyEventsMap.coord_cmp rounded_coord k r)
    by (unfold member; now rewrite Kr).
  cbn [filter]. rewrite M.
  destruct (member DeadlyEventsMap.coord_cmp rounded_coord k r); [| exact IH].
  cbn [map]. now rewrite B, IH.
Qed.

Lemma agg_ascending (gs : list (DeadlyEventsMap.coord * list DeadlyEventsMap.located))
      (t : list DeadlyEventsMap.bucket) :
  Forall2 (fun g b => DeadlyEventsMap.agg g = Ok b) gs t ->
  ascending DeadlyEventsMap.coord_cmp fst gs ->
  ascending DeadlyEventsMap.coord_cmp DeadlyEventsMap.b_coord t.
Proof.
  unfold ascending.
  induction 1 as [| g b gs t Hg Hrest IH]; intros S; [constructor |].
  inversion S as [| ? ? S' F]; subst. constructor; [now apply IH |].
  rewrite Forall_forall in *. intros b' Hb'.
  destruct (Forall2_In_r _ _ _ _ Hrest Hb') as [g' [Hg' Ag']].
  destruct (agg_total g b Hg) as [-> _], (agg_total g' b' Ag') as [-> _].
  now apply F.
Qed.

Lemma rounded_coord_numeric (r : row) (x y : float64) :
  latitude r = CNum x -> longitude r = CNum y ->
  is_nan x = false -> is_nan y = false ->
  rounded_coord r = Some (Float64.round 3 x, Float64.round 3 y).
Proof.
  intros La Lo Nx Ny.
  unfold rounded_coord, DeadlyEventsMap.add_rounded, DeadlyEventsMap.round_col.
  rewrite La, Lo. cbn [Pandas.bind]. unfold DeadlyEventsMap.coord_key.
  cbn [DeadlyEventsMap.lat_rounded DeadlyEventsMap.lon_rounded].
  now rewrite (round3_not_nan x Nx), (round3_not_nan y Ny).
Qed.

Lemma descending_total (a b : DeadlyEventsMap.bucket) :
  (DeadlyEventsMap.b_total_fatalities b <=? DeadlyEventsMap.b_total_fatalities a)%Z = false ->
  (DeadlyEventsMap.b_total_fatalities a <=? DeadlyEventsMap.b_total_fatalities b)%Z = true.
Proof. rewrite Z.leb_gt, Z.leb_le. lia. Qed.

Lemma descending_trans (a b c : DeadlyEventsMap.bucket) :
  (DeadlyEventsMap.b_total_fatalities b <=? DeadlyEventsMap.b_total_fatalities a)%Z = true ->
  (DeadlyEventsMap.b_total_fatalities c <=? DeadlyEventsMap.b_total_fatalities b)%Z = true ->
  (DeadlyEventsMap.b_total_fatalities c <=? DeadlyEventsMap.b_total_fatalities a)%Z = true.
Proof. rewrite !Z.leb_le. lia. Qed.

(** C6, as pandas computes it.  The table of [print_deadliest_locations]
    has one bucket per pair of coordinates rounded to three decimals; a
    bucket holds the sum of the fatalities of its rows, the number of its
    rows with a non-null incident date, and as event and location type
    the most frequent non-null value of its rows, the smallest in string
    order among equally frequent ones ([mode] returns its values sorted);
    the buckets come in descending order of their fatality sum and the
    first 15 are reported. *)
Theorem C6_deadliest_locations_table :
  forall (df : frame) (t : list DeadlyEventsMap.bucket),
    DeadlyEventsMap.location_fatalities df = Ok t ->
    (forall r x y, latitude r = CNum x -> longitude r = CNum y ->
                   is_nan x = false -> is_nan y = false ->
                   rounded_coord r = Some (Float64.round 3 x, Float64.round 3 y))
    /\ (exists groups,
           Permutation groups t
           /\ ascending DeadlyEventsMap.coord_cmp DeadlyEventsMap.b_coord groups)
    /\ (forall r, In r df -> has_coord_key r = true ->
                  exists b, In b t
                            /\ member DeadlyEventsMap.coord_cmp rounded_coord
                                      (DeadlyEventsMap.b_coord b) r = true)
    /\ (forall b, In b t ->
          let rows := bucket_rows (DeadlyEventsMap.b_coord b) df in
          rows <> []
          /\ DeadlyEventsMap.b_total_fatalities b = fatalities rows
          /\ DeadlyEventsMap.b_num_incidents b
             = count date_notna (map incident_date rows)
          /\ smallest_mode (DeadlyEventsMap.b_event_type b) (map event_type rows)
          /\ smallest_mode (DeadlyEventsMap.b_location_type b)
                           (map location_type rows))
    /\ StronglySorted
         (fun a b => (DeadlyEventsMap.b_total_fatalities b
                      <= DeadlyEventsMap.b_total_fatalities a)%Z) t
    /\ DeadlyEventsMap.print_deadliest_locations df = Ok (firstn 15 t).
Proof.
  intros df t Ht.
  split; [exact rounded_coord_numeric |].
  assert (Hprint : DeadlyEventsMap.print_deadliest_locations df = Ok (firstn 15 t)).
  { unfold DeadlyEventsMap.print_deadliest_locations. rewrite Ht.
    destruct df as [| r df]; [| reflexivity].
    vm_compute in Ht. injection Ht as <-. reflexivity. }
  revert Ht.
  unfold DeadlyEventsMap.location_fatalities, DeadlyEventsMap.location_groups.
  destruct (mapM DeadlyEventsMap.add_rounded df) as [ldf | e] eqn:L;
    cbn [Pandas.bind]; [| discriminate].
  destruct (mapM DeadlyEventsMap.agg _) as [t0 | e] eqn:T;
    cbn [Pandas.bind]; [| discriminate].
  intros E. injection E as <-.
  apply mapM_Ok in L, T.
  pose proof (groupby_grouping DeadlyEventsMap.coord_cmp DeadlyEventsMap.coord_key
                               coord_ordering ldf) as [S [G V]].
  set (le := fun a b => (DeadlyEventsMap.b_total_fatalities b
                         <=? DeadlyEventsMap.b_total_fatalities a)%Z) in *.
  pose proof (sort_perm le t0) as P.
  split; [| split; [| split; [| split]]].
  - exists t0. split; [now apply Permutation_sym | now apply (agg_ascending _ _ T)].
  - intros r Hr Hk.
    destruct (Forall2_In_l _ _ _ _ L Hr) as [l [Hl Al]].
    destruct (add_rounded_base r l Al) as [_ Kr].
    unfold has_coord_key in Hk.
    destruct (rounded_coord r) as [k |] eqn:Rk; [| discriminate].
    destruct (V l k Hl (eq_sym Kr)) as [g [Hg Eg]].
    destruct (Forall2_In_l _ _ _ _ T Hg) as [b [Hb Ab]].
    exists b. split; [now apply (Permutation_in _ (Permutation_sym P)) |].
    destruct (agg_total g b Ab) as [-> _].
    unfold member. rewrite Rk. unfold same_key. now rewrite Eg.
  - intros b Hb. cbv zeta.
    set (rows := bucket_rows (DeadlyEventsMap.b_coord b) df).
    apply (Permutation_in _ P) in Hb.
    destruct (Forall2_In_r _ _ _ _ T Hb) as [g [Hg Ab]].
    destruct (G g Hg) as [Rg Ng].
    destruct (agg_total g b Ab) as [Kb [Tb [Cb [Eb Lb]]]].
    assert (R : map DeadlyEventsMap.base (snd g) = rows).
    { unfold rows. rewrite Kb, Rg. now apply located_bucket_rows. }
    rewrite R in *.
    assert (Ne : rows <> []).
    { intros Z. rewrite Z in R. apply map_eq_nil in R. contradiction. }
    refine (conj Ne (conj Tb (conj Cb (conj _ _)))).
    + apply modal_label_mode; [| exact Eb].
      intros Z. apply map_eq_nil in Z. contradiction.
    + apply modal_label_mode; [| exact Lb].
      intros Z. apply map_eq_nil in Z. contradiction.
  - pose proof (sort_sorted le descending_total descending_trans t0) as Sd.
    clear - Sd. induction Sd as [| a l _ IH F]; constructor; [exact IH |].
    rewrite Forall_forall in *. intros b Hb. apply Z.leb_le. now apply F.
  - exact Hprint.
Qed.

Lemma C6_two_incidents_witness :
  DeadlyEventsMap.print_deadliest_locations
    (value (DeadlyEventsMap.prepare_fatal_events (C := decimal_iso)
              [manhattan; manhattan_homicide]))
  = Ok (firstn 15
          [DeadlyEventsMap.mkBucket
             (FFin (163 # 4), FFin (- 5205879694263583 # 70368744177664))
             3 2 "Homicide" "Station"]).
Proof.
  apply C6_deadliest_locations_table. vm_compute. reflexivity.
Defined.

(** C6 as stated fails on ties: a bucket whose first row is a suicide
    and whose second is a homicide gets the label "Homicide", the smaller
    of the two in string order, not the first one met. *)
Lemma C6_tie_goes_to_the_smaller_label :
  ~ (forall (df : frame) (t : list DeadlyEventsMap.bucket),
        DeadlyEventsMap.location_fatalities df = Ok t ->
        forall b, In b t ->
                  Spec.first_encountered_mode
                    (map event_type (bucket_rows (DeadlyEventsMap.b_coord b) df))
                  = Some (DeadlyEventsMap.b_event_type b)).
Proof.
  intros claim.
  pose (df := value (DeadlyEventsMap.prepare_fatal_events (C := decimal_iso)
                       [manhattan; manhattan_homicide])).
  pose (b := DeadlyEventsMap.mkBucket
               (FFin (163 # 4), FFin (- 5205879694263583 # 70368744177664))
               3 2 "Homicide" "Station").
  assert (E : DeadlyEventsMap.location_fatalities df = Ok [b])
    by (vm_compute; reflexivity).
  specialize (claim df [b] E b (or_introl eq_refl)).
  clear E. vm_compute in claim. discriminate claim.
Qed.

(* ================================================================== *)
(** * Further properties of the scripts *)

(** ** What [prepare_fatal_events] keeps and changes *)

Section Prepared.
Context {C : Coercion}.

Lemma coerce_fields (cfg : Spec.config) (r : row) :
  agency (Spec.coerce cfg r) = agency r
  /\ event_type (Spec.coerce cfg r) = event_type r
  /\ location_type (Spec.coerce cfg r) = location_type r
  /\ total_fatalities (Spec.coerce cfg r) = total_fatalities r
  /\ total_injuries (Spec.coerce cfg r) = total_injuries r
  /\ approximate_address (Spec.coerce cfg r) = approximate_address r.
Proof.
  unfold Spec.coerce. destruct (Spec.date_required cfg); repeat split.
Qed.

Lemma to_datetime_idem (d : date_cell) : to_datetime (to_datetime d) = to_datetime d.
Proof.
  destruct d as [| s | t]; cbn [to_datetime]; try reflexivity.
  destruct (str_to_datetime s); reflexivity.
Qed.

Lemma coerce_idem (cfg : Spec.config) (r : row) :
  Spec.coerce cfg (Spec.coerce cfg r) = Spec.coerce cfg r.
Proof.
  unfold Spec.coerce. destruct (Spec.date_required cfg);
    cbn [set_latitude set_longitude set_incident_date latitude longitude
         incident_date agency event_type location_type total_fatalities
         total_injuries approximate_address to_numeric to_float];
    rewrite ?to_datetime_idem; reflexivity.
Qed.

Lemma survives_coerce (cfg : Spec.config) (r : row) :
  survives cfg (Spec.coerce cfg r) = survives cfg r.
Proof.
  unfold survives. rewrite coerce_idem.
  now destruct (coerce_fields cfg r) as [_ [_ [_ [-> _]]]].
Qed.

Lemma prepared_again (cfg : Spec.config) (df : frame) :
  map (Spec.coerce cfg)
      (filter (survives cfg) (map (Spec.coerce cfg) (filter (survives cfg) df)))
  = map (Spec.coerce cfg) (filter (survives cfg) df).
Proof.
  rewrite filter_map_swap, map_map, filter_filter.
  rewrite (filter_ext_all (fun a => survives cfg a && survives cfg (Spec.coerce cfg a))
                          (survives cfg)).
  - apply map_ext. intros r. apply coerce_idem.
  - intros r. rewrite survives_coerce. apply andb_diag.
Qed.

Lemma survivor_origin (cfg : Spec.config) (df : frame) (r : row) :
  In r (map (Spec.coerce cfg) (filter (survives cfg) df)) ->
  exists r0, In r0 df
             /\ agency r = agency r0
             /\ event_type r = event_type r0
             /\ location_type r = location_type r0
             /\ total_fatalities r = total_fatalities r0
             /\ total_injuries r = total_injuries r0
             /\ approximate_address r = approximate_address r0
             /\ exists k, total_fatalities r = Some k /\ (1 <= k)%Z.
Proof.
  rewrite in_map_iff. intros [r0 [<- Hin]]. apply filter_In in Hin.
  destruct Hin as [Hin S]. exists r0.
  destruct (coerce_fields cfg r0) as [A [E [L [F [I D]]]]].
  repeat (split; [assumption |]).
  rewrite F. unfold survives in S. apply andb_true_iff in S. destruct S as [G _].
  unfold gt0 in G. destruct (total_fatalities r0) as [k |]; [| discriminate].
  exists k. split; [reflexivity |]. apply Z.ltb_lt in G. lia.
Qed.

End Prepared.

(** X1: a row returned by [prepare_fatal_events] is an input row with
    only its coordinate cells (and, in the time-slider script, its date
    cell) rewritten: agency, event type, location type, fatalities,
    injuries and address are those of an input row, and the fatality
    count is a number, at least 1. *)
Theorem X1_survivors_are_fatal_input_rows :
  forall (C : Coercion) (df : frame) (r : row),
    In r (value (DeadlyEventsMap.prepare_fatal_events df))
    \/ In r (value (NycBasemap.prepare_fatal_events df))
    \/ In r (value (NycTimeSliderMap.prepare_fatal_events df)) ->
    exists r0, In r0 df
               /\ agency r = agency r0
               /\ event_type r = event_type r0
               /\ location_type r = location_type r0
               /\ total_fatalities r = total_fatalities r0
               /\ total_injuries r = total_injuries r0
               /\ approximate_address r = approximate_address r0
               /\ exists k, total_fatalities r = Some k /\ (1 <= k)%Z.
Proof.
  intros C df r.
  rewrite deadly_prepare_value, basemap_prepare_value, slider_prepare_value.
  intros [H | [H | H]]; eapply survivor_origin; exact H.
Qed.

Lemma X1_manhattan_witness :
  exists r0, In r0 [manhattan; unparsable_latitude]
             /\ total_injuries
                  (Spec.coerce (C := decimal_iso) Spec.nyc_basemap manhattan)
                = total_injuries r0.
Proof.
  destruct (X1_survivors_are_fatal_input_rows decimal_iso
              [manhattan; unparsable_latitude]
              (Spec.coerce (C := decimal_iso) Spec.nyc_basemap manhattan))
    as [r0 [Hin [_ [_ [_ [_ [Hinj _]]]]]]].
  - right. left. vm_compute. left. reflexivity.
  - exists r0. split; assumption.
Defined.

(** X2: [prepare_fatal_events] is idempotent: applied to its own output
    it returns that output, in each of the three map scripts. *)
Theorem X2_prepare_fatal_events_idempotent :
  forall (C : Coercion) (df : frame),
    value (DeadlyEventsMap.prepare_fatal_events
             (value (DeadlyEventsMap.prepare_fatal_events df)))
      = value (DeadlyEventsMap.prepare_fatal_events df)
    /\ value (NycBasemap.prepare_fatal_events
                (value (NycBasemap.prepare_fatal_events df)))
       = value (NycBasemap.prepare_fatal_events df)
    /\ value (NycTimeSliderMap.prepare_fatal_events
                (value (NycTimeSliderMap.prepare_fatal_events df)))
       = value (NycTimeSliderMap.prepare_fatal_events df).
Proof.
  intros C df.
  rewrite !deadly_prepare_value, !basemap_prepare_value, !slider_prepare_value.
  repeat split; apply prepared_again.
Qed.

(** ** How the three variants of [prepare_fatal_events] relate *)

Section Variants.
Context {C : Coercion}.



End Variants.


(** ** The agency filter and [prepare_fatal_events] *)




(** ** A run that has something to report *)

Section Reporting.
Context {C : Coercion}.

Lemma nonempty_len {A : Type} (l : list A) : l <> [] -> Nat.eqb (len l) 0 = false.
Proof. destruct l; [congruence | reflexivity]. Qed.

Lemma deadly_main_reports (report : frame -> list event) (df : frame) :
  value (DeadlyEventsMap.prepare_fatal_events
           (value (DeadlyEventsMap.filter_new_york_data df))) <> [] ->
  trace (DeadlyEventsMap.main report (ReadOk df))
  = preamble "Starting FTA Deadly Events Visualization..." df
             DeadlyEventsMap.prepare_fatal_events
    ++ report (value (DeadlyEventsMap.prepare_fatal_events
                        (value (DeadlyEventsMap.filter_new_york_data df)))).
Proof.
  intros E. unfold DeadlyEventsMap.main, preamble. rewrite ?trace_bind.
  change (value (DeadlyEventsMap.load_fta_data (ReadOk df))) with (Some df).
  cbv iota beta. rewrite ?trace_bind, (nonempty_len _ E), <- !app_assoc. reflexivity.
Qed.

Lemma basemap_main_reports (report : frame -> list event) (df : frame) :
  value (NycBasemap.prepare_fatal_events
           (value (NycBasemap.filter_new_york_data df))) <> [] ->
  trace (NycBasemap.main report (ReadOk df))
  = preamble "Starting FTA NYC Fatal Events Mapping..." df
             NycBasemap.prepare_fatal_events
    ++ report (value (NycBasemap.prepare_fatal_events
                        (value (NycBasemap.filter_new_york_data df)))).
Proof.
  intros E. unfold NycBasemap.main, preamble. rewrite ?trace_bind.
  change (value (NycBasemap.load_fta_data (ReadOk df))) with (Some df).
  cbv iota beta. rewrite ?trace_bind, (nonempty_len _ E), <- !app_assoc. reflexivity.
Qed.

Lemma slider_main_reports (report : frame -> list event) (df : frame) :
  value (NycTimeSliderMap.prepare_fatal_events
           (value (NycTimeSliderMap.filter_new_york_data df))) <> [] ->
  trace (NycTimeSliderMap.main report (ReadOk df))
  = preamble "Starting FTA NYC Fatal Events Time Slider Map..." df
             NycTimeSliderMap.prepare_fatal_events
    ++ report (value (NycTimeSliderMap.prepare_fatal_events
                        (value (NycTimeSliderMap.filter_new_york_data df)))).
Proof.
  intros E. unfold NycTimeSliderMap.main, preamble. rewrite ?trace_bind.
  change (value (NycTimeSliderMap.load_fta_data (ReadOk df))) with (Some df).
  cbv iota beta. rewrite ?trace_bind, (nonempty_len _ E), <- !app_assoc. reflexivity.
Qed.

End Reporting.

(** X5: when fatal incidents remain, [main] of each map script logs
    informational records only, then runs the report stage once, on the
    frame [prepare_fatal_events] returned for the agency-filtered
    download; nothing follows the report. *)
Theorem X5_main_reports_the_prepared_frame :
  forall (C : Coercion) (report : frame -> list event) (df : frame),
    (value (DeadlyEventsMap.prepare_fatal_events
              (value (DeadlyEventsMap.filter_new_york_data df))) <> [] ->
     exists pre,
       Forall is_info pre
       /\ trace (DeadlyEventsMap.main report (ReadOk df))
          = pre ++ report (value (DeadlyEventsMap.prepare_fatal_events
                                    (value (DeadlyEventsMap.filter_new_york_data df)))))
    /\ (value (NycBasemap.prepare_fatal_events
                 (value (NycBasemap.filter_new_york_data df))) <> [] ->
        exists pre,
          Forall is_info pre
          /\ trace (NycBasemap.main report (ReadOk df))
             = pre ++ report (value (NycBasemap.prepare_fatal_events
                                       (value (NycBasemap.filter_new_york_data df)))))
    /\ (value (NycTimeSliderMap.prepare_fatal_events
                 (value (NycTimeSliderMap.filter_new_york_data df))) <> [] ->
        exists pre,
          Forall is_info pre
          /\ trace (NycTimeSliderMap.main report (ReadOk df))
             = pre ++ report (value (NycTimeSliderMap.prepare_fatal_events
                                       (value (NycTimeSliderMap.filter_new_york_data df))))).
Proof.
  intros C report df. split; [| split]; intros E; eexists; split.
  - apply preamble_info, deadly_prepare_trace_info.
  - now apply deadly_main_reports.
  - apply preamble_info, basemap_prepare_trace_info.
  - now apply basemap_main_reports.
  - apply preamble_info, slider_prepare_trace_info.
  - now apply slider_main_reports.
Qed.

Lemma X5_manhattan_witness :
  exists pre,
    Forall is_info pre
    /\ trace (NycBasemap.main (C := decimal_iso) (fun _ => [Print "report"])
                (ReadOk [manhattan]))
       = pre ++ [Print "report"].
Proof.
  destruct (X5_main_reports_the_prepared_frame decimal_iso
              (fun _ => [Print "report"]) [manhattan]) as [_ [Hbasemap _]].
  apply Hbasemap. vm_compute. discriminate.
Defined.

(** ** The column heuristics of fta_safety_analysis.py *)

Lemma safety_filter_value (df : SafetyAnalysis.dataframe) :
  value (SafetyAnalysis.filter_new_york_data df)
  = if SafetyAnalysis.has_column df "state" then
      SafetyAnalysis.select df (fun r =>
        SafetyAnalysis.eq_text (str_upper (SafetyAnalysis.cell_of df "state" r)) "NY")
    else if SafetyAnalysis.has_column df "agency_name" then
      SafetyAnalysis.select df (fun r =>
        str_contains (join "|" SafetyAnalysis.ny_keywords) false
                     (str_upper (SafetyAnalysis.cell_of df "agency_name" r)))
    else match filter SafetyAnalysis.is_location_col (SafetyAnalysis.columns df) with
         | c :: _ =>
             SafetyAnalysis.select df (fun r =>
               str_contains "NEW YORK|NY|NYC|MTA" false
                 (str_upper (SafetyAnalysis.astype_str (SafetyAnalysis.cell_of df c r))))
         | [] => df
         end.
Proof.
  unfold SafetyAnalysis.filter_new_york_data. rewrite !value_bind.
  destruct (SafetyAnalysis.has_column df "state"); [reflexivity |].
  destruct (SafetyAnalysis.has_column df "agency_name"); [reflexivity |].
  rewrite !value_bind.
  destruct (filter SafetyAnalysis.is_location_col (SafetyAnalysis.columns df));
    rewrite ?value_bind; reflexivity.
Qed.

Lemma select_sub (df : SafetyAnalysis.dataframe) (p : list (option string) -> bool) :
  SafetyAnalysis.columns (SafetyAnalysis.select df p) = SafetyAnalysis.columns df
  /\ (forall rec, In rec (SafetyAnalysis.records (SafetyAnalysis.select df p)) ->
                  In rec (SafetyAnalysis.records df))
  /\ (SafetyAnalysis.len (SafetyAnalysis.select df p) <= SafetyAnalysis.len df)%nat.
Proof.
  unfold SafetyAnalysis.select, SafetyAnalysis.len. cbn. repeat split.
  - intros rec Hin. now apply filter_In in Hin.
  - apply filter_length_le.
Qed.

(** X6: whatever branch it takes, [filter_new_york_data] of
    [fta_safety_analysis.py] returns a frame with the columns of its
    input and with records taken from the input's records, never more
    of them. *)
Theorem X6_safety_filter_returns_a_subframe :
  forall df : SafetyAnalysis.dataframe,
    SafetyAnalysis.columns (value (SafetyAnalysis.filter_new_york_data df))
      = SafetyAnalysis.columns df
    /\ (forall rec,
           In rec (SafetyAnalysis.records
                     (value (SafetyAnalysis.filter_new_york_data df))) ->
           In rec (SafetyAnalysis.records df))
    /\ (SafetyAnalysis.len (value (SafetyAnalysis.filter_new_york_data df))
        <= SafetyAnalysis.len df)%nat.
Proof.
  intros df. rewrite safety_filter_value.
  destruct (SafetyAnalysis.has_column df "state"); [apply select_sub |].
  destruct (SafetyAnalysis.has_column df "agency_name"); [apply select_sub |].
  destruct (filter SafetyAnalysis.is_location_col (SafetyAnalysis.columns df));
    [| apply select_sub].
  repeat split; auto.
Qed.

Lemma has_column_location (df : SafetyAnalysis.dataframe) (c : string) :
  SafetyAnalysis.is_location_col c = true ->
  SafetyAnalysis.has_column df c = true ->
  exists c', In c' (SafetyAnalysis.columns df)
             /\ SafetyAnalysis.is_location_col c' = true.
Proof.
  intros L H. unfold SafetyAnalysis.has_column in H.
  apply existsb_exists in H. destruct H as [c' [Hin E]].
  apply String.eqb_eq in E. subst c'. eauto.
Qed.

Lemma no_location_filter (cols : list string) :
  filter SafetyAnalysis.is_location_col cols = [] <->
  (forall c, In c cols -> SafetyAnalysis.is_location_col c = false).
Proof.
  split; [| apply no_location_cols].
  intros E c Hin. destruct (SafetyAnalysis.is_location_col c) eqn:L; [| reflexivity].
  assert (H : In c (filter SafetyAnalysis.is_location_col cols))
    by (apply filter_In; auto).
  rewrite E in H. destruct H.
Qed.

Ltac no_warning H :=
  cbn [In] in H;
  repeat (destruct H as [H | H]; [discriminate H |]);
  destruct H.

(** X7: [filter_new_york_data] of [fta_safety_analysis.py] logs its
    warning exactly when no column name contains "location", "city",
    "state" or "agency" (the [state] and [agency_name] columns are such
    names), and then it returns its input unchanged. *)
Theorem X7_safety_filter_warns_iff_unidentified :
  forall df : SafetyAnalysis.dataframe,
    ((exists m, In (Log WARNING m) (trace (SafetyAnalysis.filter_new_york_data df)))
     <-> (forall c, In c (SafetyAnalysis.columns df) ->
                    SafetyAnalysis.is_location_col c = false))
    /\ ((exists m, In (Log WARNING m) (trace (SafetyAnalysis.filter_new_york_data df)))
        -> value (SafetyAnalysis.filter_new_york_data df) = df).
Proof.
  intros df.
  assert (W : (exists m, In (Log WARNING m)
                            (trace (SafetyAnalysis.filter_new_york_data df)))
              <-> (SafetyAnalysis.has_column df "state" = false
                   /\ SafetyAnalysis.has_column df "agency_name" = false
                   /\ filter SafetyAnalysis.is_location_col
                             (SafetyAnalysis.columns df) = [])).
  { unfold SafetyAnalysis.filter_new_york_data. rewrite ?trace_bind.
    destruct (SafetyAnalysis.has_column df "state").
    { rewrite ?trace_bind. cbn [trace value fst snd log print emit ret app].
      split; [intros [m H]; no_warning H | intros [H _]; discriminate]. }
    destruct (SafetyAnalysis.has_column df "agency_name").
    { rewrite ?trace_bind. cbn [trace value fst snd log print emit ret app].
      split; [intros [m H]; no_warning H | intros [_ [H _]]; discriminate]. }
    rewrite ?trace_bind.
    destruct (filter SafetyAnalysis.is_location_col (SafetyAnalysis.columns df)).
    - rewrite ?trace_bind. cbn [trace value fst snd log print emit ret app].
      split; [auto |]. intros _. eexists. cbn [In]. right. right. right. left.
      reflexivity.
    - rewrite ?trace_bind. cbn [trace value fst snd log print emit ret app].
      split; [intros [m H]; no_warning H | intros [_ [_ H]]; discriminate]. }
  split.
  - rewrite W, no_location_filter. split; [tauto |]. intros N. repeat split.
    + destruct (SafetyAnalysis.has_column df "state") eqn:H; [| reflexivity].
      destruct (has_column_location df "state" eq_refl H) as [c [Hin L]].
      rewrite (N c Hin) in L. discriminate.
    + destruct (SafetyAnalysis.has_column df "agency_name") eqn:H; [| reflexivity].
      destruct (has_column_location df "agency_name" eq_refl H) as [c [Hin L]].
      rewrite (N c Hin) in L. discriminate.
    + exact N.
  - intros H. apply W in H. destruct H as [S [A L]].
    rewrite safety_filter_value, S, A, L. reflexivity.
Qed.

Lemma X7_anonymous_frame_witness :
  value (SafetyAnalysis.filter_new_york_data anonymous_frame) = anonymous_frame.
Proof.
  apply (proj2 (X7_safety_filter_warns_iff_unidentified anonymous_frame)).
  eexists. vm_compute. right. right. right. left. reflexivity.
Defined.

Lemma substring_weaken (a b hay : string) :
  Substring (a ++ b) hay -> Substring a hay.
Proof.
  intros [p [q E]]. exists p, (b ++ q)%string. rewrite E.
  f_equal. clear. induction a as [| c a IH]; cbn; [reflexivity | now rewrite IH].
Qed.

(** In the fallback pattern the alternative [NYC] adds nothing to [NY]. *)
Lemma fallback_pattern (s : string) :
  re_search "NEW YORK|NY|NYC|MTA" s
  = contains "NEW YORK" s || contains "NY" s || contains "MTA" s.
Proof.
  change (re_search "NEW YORK|NY|NYC|MTA" s)
    with (contains "NEW YORK" s
          || (contains "NY" s || (contains "NYC" s || (contains "MTA" s || false)))).
  destruct (contains "NYC" s) eqn:E.
  - apply contains_iff in E.
    apply (substring_weaken "NY" "C") in E. apply contains_iff in E.
    rewrite E. now rewrite !orb_true_r.
  - rewrite orb_false_r. cbn [orb]. now rewrite orb_assoc.
Qed.

(** X8: in the fallback branch of [filter_new_york_data] (no [state]
    and no [agency_name] column, [c] the first location-like column),
    on a frame whose cells are texts or nulls, a record is kept exactly
    when its cell in column [c] is a text that, upper-cased by
    [str.upper], contains "NEW YORK", "NY" or "MTA".  The alternative
    "NYC" of the pattern is subsumed by "NY", which any text holding
    these two letters in a row satisfies; a null cell is never kept. *)
Theorem X8_fallback_keeps_any_text_with_ny :
  forall (df : SafetyAnalysis.dataframe) (c : string) (rest : list string),
    SafetyAnalysis.has_column df "state" = false ->
    SafetyAnalysis.has_column df "agency_name" = false ->
    filter SafetyAnalysis.is_location_col (SafetyAnalysis.columns df) = c :: rest ->
    forall rec,
      In rec (SafetyAnalysis.records (value (SafetyAnalysis.filter_new_york_data df)))
      <-> In rec (SafetyAnalysis.records df)
          /\ exists s, SafetyAnalysis.cell_of df c rec = Some s
                       /\ (Substring "NEW YORK" (upper s)
                           \/ Substring "NY" (upper s)
                           \/ Substring "MTA" (upper s)).
Proof.
  intros df c rest S A L rec.
  rewrite safety_filter_value, S, A, L.
  unfold SafetyAnalysis.select. cbn [SafetyAnalysis.records].
  rewrite filter_In. apply and_iff_compat_l.
  unfold str_contains, str_upper, SafetyAnalysis.astype_str.
  destruct (SafetyAnalysis.cell_of df c rec) as [s |]; cbn [option_map].
  - rewrite fallback_pattern, !orb_true_iff, !contains_iff. split.
    + intros H. exists s. split; [reflexivity | tauto].
    + intros [s' [E H]]. injection E as <-. tauto.
  - split; [intros H; vm_compute in H; discriminate H
           | intros [s [E _]]; discriminate].
Qed.

Lemma X8_albany_witness :
  In [Some "7"; Some "Albany"]%string
     (SafetyAnalysis.records
        (value (SafetyAnalysis.filter_new_york_data
                  (SafetyAnalysis.mkFrame ["event_id"; "city"]%string
                     [[Some "7"; Some "Albany"]; [Some "8"; Some "Boston"]]%string)))).
Proof.
  apply (X8_fallback_keeps_any_text_with_ny
           (SafetyAnalysis.mkFrame ["event_id"; "city"]%string
              [[Some "7"; Some "Albany"]; [Some "8"; Some "Boston"]]%string)
           "city"%string []); try reflexivity.
  split; [left; reflexivity |].
  exists "Albany"%string. split; [reflexivity |].
  right. left. exists "ALBA"%string, ""%string. reflexivity.
Defined.

(** ** The by-event-type and by-month tables *)

Lemma string_compare_lt_trans (s1 s2 s3 : string) :
  String.compare s1 s2 = Lt -> String.compare s2 s3 = Lt -> String.compare s1 s3 = Lt.
Proof.
  revert s2 s3.
  induction s1 as [| a s1 IH]; intros [| b s2] [| c s3]; cbn [String.compare];
    try congruence; try discriminate.
  destruct (Ascii.compare a b) eqn:Eab; try discriminate;
    destruct (Ascii.compare b c) eqn:Ebc; try discriminate.
  - apply ascii_compare_eq in Eab, Ebc. subst.
    unfold Ascii.compare at 1. rewrite N.compare_refl. apply IH.
  - apply ascii_compare_eq in Eab. subst. now rewrite Ebc.
  - apply ascii_compare_eq in Ebc. subst. now rewrite Eab.
  - now rewrite (ascii_compare_trans Lt a b c Eab Ebc).
Qed.

Lemma string_ordering : ordering String.compare.
Proof.
  constructor.
  - apply string_compare_refl.
  - intros a b. apply String.compare_antisym.
  - apply string_compare_lt_trans.
  - intros a b c E. apply String.compare_eq_iff in E. now subst.
  - intros a b c E. apply String.compare_eq_iff in E. now subst.
Qed.

Lemma Z_ordering : ordering Z.compare.
Proof.
  constructor.
  - apply Z.compare_refl.
  - intros a b. apply Z.compare_antisym.
  - intros a b c. rewrite !Z.compare_lt_iff. lia.
  - intros a b c E. apply Z.compare_eq in E. now subst.
  - intros a b c E. apply Z.compare_eq in E. now subst.
Qed.

Lemma period_ordering : ordering NycTimeSliderMap.period_cmp.
Proof. exact (lexicographic_ordering Z.compare Z.compare Z_ordering Z_ordering). Qed.

Section Tables.
Context {K R B : Type} (cmp : K -> K -> comparison) (key : R -> option K).
Context (mk : K * list R -> B) (bkey : B -> K) (le : B -> B -> bool).
Hypothesis order : ordering cmp.
Hypothesis bkey_mk : forall g, bkey (mk g) = fst g.
Hypothesis le_total : forall a b, le a b = false -> le b a = true.
Hypothesis le_trans : forall a b c, le a b = true -> le b c = true -> le a c = true.

Lemma map_ascending (gs : list (K * list R)) :
  ascending cmp fst gs -> ascending cmp bkey (map mk gs).
Proof.
  unfold ascending. induction 1 as [| g gs _ IH F]; cbn [map]; constructor.
  - exact IH.
  - rewrite Forall_forall in *. intros b Hb. apply in_map_iff in Hb.
    destruct Hb as [g' [<- Hg']]. rewrite !bkey_mk. now apply F.
Qed.

(** A grouped, aggregated and sorted table: one line per key, each
    line built from the rows of its key, every keyed row in a line. *)
Lemma table_of_groups (df : list R) :
  (exists groups, Permutation groups (sort le (map mk (groupby cmp key df)))
                  /\ ascending cmp bkey groups)
  /\ (forall r k, In r df -> key r = Some k ->
                  exists b, In b (sort le (map mk (groupby cmp key df)))
                            /\ cmp k (bkey b) = Eq)
  /\ (forall b, In b (sort le (map mk (groupby cmp key df))) ->
                exists g, b = mk g
                          /\ snd g = filter (member cmp key (fst g)) df
                          /\ snd g <> [])
  /\ StronglySorted (fun a b => le a b = true)
                    (sort le (map mk (groupby cmp key df))).
Proof.
  destruct (groupby_grouping cmp key order df) as [S [G V]].
  pose proof (sort_perm le (map mk (groupby cmp key df))) as P.
  split; [| split; [| split]].
  - exists (map mk (groupby cmp key df)).
    split; [now apply Permutation_sym | now apply map_ascending].
  - intros r k Hr Hk. destruct (V r k Hr Hk) as [g [Hg Eg]].
    exists (mk g). split.
    + apply (Permutation_in _ (Permutation_sym P)). now apply in_map.
    + now rewrite bkey_mk.
  - intros b Hb. apply (Permutation_in _ P) in Hb. apply in_map_iff in Hb.
    destruct Hb as [g [<- Hg]]. exists g. destruct (G g Hg). auto.
  - now apply sort_sorted.
Qed.
End Tables.

Lemma count_all_notna {A B : Type} (f : A -> option B) (l : list A) :
  (forall a, In a l -> opt_notna (f a) = true) ->
  count opt_notna (map f l) = List.length l.
Proof.
  intros H. unfold count. rewrite filter_all, length_map; [reflexivity |].
  intros o Ho. apply in_map_iff in Ho. destruct Ho as [a [<- Ha]]. now apply H.
Qed.

Lemma member_of_type (e : string) (r : row) :
  member String.compare event_type e r = of_type e r.
Proof.
  unfold member, of_type, same_key. destruct (event_type r) as [e' |]; [| reflexivity].
  destruct (String.eqb_spec e' e) as [-> | N].
  - now rewrite string_compare_refl.
  - destruct (String.compare e' e) eqn:E; try reflexivity.
    apply String.compare_eq_iff in E. contradiction.
Qed.

Lemma member_in_month (p : NycTimeSliderMap.period) (r : row) :
  member NycTimeSliderMap.period_cmp NycTimeSliderMap.year_month p r = in_month p r.
Proof.
  unfold member, in_month, same_key, NycTimeSliderMap.period_cmp.
  destruct (NycTimeSliderMap.year_month r) as [p' |]; [| reflexivity].
  destruct (Z.compare_spec (fst p') (fst p)) as [E | L | L].
  - rewrite E, Z.eqb_refl. cbn [andb].
    destruct (Z.compare_spec (snd p') (snd p)) as [E' | L | L].
    + now rewrite E', Z.eqb_refl.
    + symmetry. apply Z.eqb_neq. lia.
    + symmetry. apply Z.eqb_neq. lia.
  - replace (fst p' =? fst p)%Z with false by (symmetry; apply Z.eqb_neq; lia).
    reflexivity.
  - replace (fst p' =? fst p)%Z with false by (symmetry; apply Z.eqb_neq; lia).
    reflexivity.
Qed.

Lemma leb_desc_total {A : Type} (f : A -> Z) (a b : A) :
  (f b <=? f a)%Z = false -> (f a <=? f b)%Z = true.
Proof. rewrite Z.leb_gt, Z.leb_le. lia. Qed.

Lemma leb_desc_trans {A : Type} (f : A -> Z) (a b c : A) :
  (f b <=? f a)%Z = true -> (f c <=? f b)%Z = true -> (f c <=? f a)%Z = true.
Proof. rewrite !Z.leb_le. lia. Qed.

Lemma leb_sorted_descending {A : Type} (f : A -> Z) (l : list A) :
  StronglySorted (fun a b => (f b <=? f a)%Z = true) l -> descending f l.
Proof.
  unfold descending. induction 1 as [| a l _ IH F]; constructor; [exact IH |].
  rewrite Forall_forall in *. intros b Hb. apply Z.leb_le. now apply F.
Qed.

(** X9: the by-event-type table ([event_summary] of [print_summary] and
    [print_temporal_summary]) has one line per event type that occurs,
    no type twice; a line holds the summed fatalities and the number of
    the rows of its type; every row with an event type is in a line;
    and the lines are in descending order of their fatalities. *)
Theorem X9_event_summary_table :
  forall df : frame,
    (exists groups,
        Permutation groups (Events.event_summary df)
        /\ ascending String.compare tb_event_type groups)
    /\ (forall r e, In r df -> event_type r = Some e ->
                    exists b, In b (Events.event_summary df) /\ tb_event_type b = e)
    /\ (forall b, In b (Events.event_summary df) ->
          filter (of_type (tb_event_type b)) df <> []
          /\ tb_total_fatalities b
             = fatalities (filter (of_type (tb_event_type b)) df)
          /\ tb_incidents b = List.length (filter (of_type (tb_event_type b)) df))
    /\ descending tb_total_fatalities (Events.event_summary df).
Proof.
  intros df.
  pose (mk := fun g : string * list row =>
                mkTypeBucket (fst g) (Pandas.sum (map total_fatalities (snd g)))
                             (count opt_notna (map event_type (snd g)))).
  destruct (table_of_groups String.compare event_type mk tb_event_type
              (fun a b => (tb_total_fatalities b <=? tb_total_fatalities a)%Z)
              string_ordering (fun g => eq_refl)
              (leb_desc_total tb_total_fatalities)
              (leb_desc_trans tb_total_fatalities) df)
    as [Hg [Hc [Hb Hs]]].
  change (sort _ (map mk (groupby String.compare event_type df)))
    with (Events.event_summary df) in *.
  split; [exact Hg |]. split; [| split].
  - intros r e Hr He. destruct (Hc r e Hr He) as [b [Hin E]].
    exists b. split; [exact Hin |]. symmetry. now apply String.compare_eq_iff.
  - intros b Hin. destruct (Hb b Hin) as [g [-> [Rg Ng]]].
    cbn [mk tb_event_type tb_total_fatalities tb_incidents].
    rewrite (filter_ext_all _ _ df (member_of_type (fst g))) in Rg.
    rewrite <- Rg. repeat split; [exact Ng |].
    apply count_all_notna. intros r Hr. rewrite Rg in Hr. apply filter_In in Hr.
    destruct Hr as [_ T]. unfold of_type in T. now destruct (event_type r).
  - now apply leb_sorted_descending.
Qed.

(** X10: when it returns, the by-month table ([month_summary] of
    [print_temporal_summary]) has one line per year and month that
    occurs, no month twice; a line holds the summed fatalities and the
    number of the rows of its month; every dated row is in a line; and
    the lines are in descending order of their fatalities. *)
Theorem X10_month_summary_table :
  forall (df : frame) (ms : list NycTimeSliderMap.month_bucket),
    NycTimeSliderMap.month_summary df = Ok ms ->
    (exists groups,
        Permutation groups ms
        /\ ascending NycTimeSliderMap.period_cmp NycTimeSliderMap.mb_period groups)
    /\ (forall r p, In r df -> NycTimeSliderMap.year_month r = Some p ->
                    exists b, In b ms /\ NycTimeSliderMap.mb_period b = p)
    /\ (forall b, In b ms ->
          filter (in_month (NycTimeSliderMap.mb_period b)) df <> []
          /\ NycTimeSliderMap.mb_total_fatalities b
             = fatalities (filter (in_month (NycTimeSliderMap.mb_period b)) df)
          /\ NycTimeSliderMap.mb_incidents b
             = List.length (filter (in_month (NycTimeSliderMap.mb_period b)) df))
    /\ descending NycTimeSliderMap.mb_total_fatalities ms.
Proof.
  intros df ms. unfold NycTimeSliderMap.month_summary, NycTimeSliderMap.month_groups.
  destruct (existsb NycTimeSliderMap.is_text_date df); [discriminate |].
  intros E. injection E as <-.
  match goal with
  | |- context [map ?f (groupby _ _ _)] => set (mk := f)
  end.
  destruct (table_of_groups NycTimeSliderMap.period_cmp NycTimeSliderMap.year_month
              mk NycTimeSliderMap.mb_period
              (fun a b => (NycTimeSliderMap.mb_total_fatalities b
                           <=? NycTimeSliderMap.mb_total_fatalities a)%Z)
              period_ordering (fun g => eq_refl)
              (leb_desc_total NycTimeSliderMap.mb_total_fatalities)
              (leb_desc_trans NycTimeSliderMap.mb_total_fatalities) df)
    as [Hg [Hc [Hb Hs]]].
  split; [exact Hg |]. split; [| split].
  - intros r p Hr Hp. destruct (Hc r p Hr Hp) as [b [Hin E]].
    exists b. split; [exact Hin |].
    assert (M : in_month (NycTimeSliderMap.mb_period b) r = true).
    { rewrite <- member_in_month. unfold member. rewrite Hp. unfold same_key.
      now rewrite E. }
    unfold in_month in M. rewrite Hp in M. apply andb_true_iff in M.
    destruct M as [M1 M2]. apply Z.eqb_eq in M1, M2.
    destruct p, (NycTimeSliderMap.mb_period b). cbn in *. congruence.
  - intros b Hin. destruct (Hb b Hin) as [g [-> [Rg Ng]]].
    cbn [mk NycTimeSliderMap.mb_period NycTimeSliderMap.mb_total_fatalities
         NycTimeSliderMap.mb_incidents].
    rewrite (filter_ext_all _ _ df (member_in_month (fst g))) in Rg.
    rewrite <- Rg. repeat split; [exact Ng |].
    apply count_all_notna. intros r Hr. rewrite Rg in Hr. apply filter_In in Hr.
    destruct Hr as [_ T]. unfold in_month in T.
    now destruct (NycTimeSliderMap.year_month r).
  - now apply leb_sorted_descending.
Qed.

Lemma X10_one_month_witness :
  descending NycTimeSliderMap.mb_total_fatalities
    [NycTimeSliderMap.mkMonthBucket (2019, 3)%Z 4 2].
Proof.
  apply (X10_month_summary_table
           (value (NycTimeSliderMap.prepare_fatal_events (C := decimal_iso)
                     [manhattan; manhattan]))).
  vm_compute. reflexivity.
Defined.

(** ** Incident counts *)

Lemma count_as_sum {A : Type} (notnull : A -> bool) (l : list A) :
  Z.of_nat (count notnull l) = Pandas.sum (map (counted notnull) l).
Proof.
  unfold count. induction l as [| a l IH]; [reflexivity |].
  cbn [filter map Pandas.sum fold_right]. unfold counted at 1.
  destruct (notnull a); cbn [List.length]; unfold Pandas.sum in IH; lia.
Qed.

Lemma sum_counted_keyed {R A : Type} (cell : R -> A) (notnull : A -> bool)
      (p : R -> bool) (l : list R) :
  Pandas.sum (map (fun r => counted notnull (cell r)) (filter p l))
  = Z.of_nat (List.length (filter (fun r => p r && notnull (cell r)) l)).
Proof.
  induction l as [| r l IH]; [reflexivity |]. cbn [filter].
  destruct (p r); cbn [andb]; [| exact IH].
  cbn [map Pandas.sum fold_right]. unfold counted at 1.
  destruct (notnull (cell r)); cbn [List.length]; unfold Pandas.sum in IH; lia.
Qed.

Lemma sum_by_ext {A : Type} (f g : A -> Z) (l : list A) :
  (forall a, f a = g a) -> sum_by f l = sum_by g l.
Proof.
  intros E. induction l as [| a l IH]; cbn [sum_by]; [reflexivity |].
  now rewrite E, IH.
Qed.

Lemma located_keyed_amount (f : row -> option Z) (df : frame)
      (ldf : list DeadlyEventsMap.located) :
  Forall2 (fun r l => DeadlyEventsMap.add_rounded r = Ok l) df ldf ->
  Pandas.sum (map (fun l => f (DeadlyEventsMap.base l))
                  (filter (fun l => opt_notna (DeadlyEventsMap.coord_key l)) ldf))
  = Pandas.sum (map f (filter has_coord_key df)).
Proof.
  induction 1 as [| r l df ldf Hr _ IH]; [reflexivity |].
  destruct (add_rounded_base r l Hr) as [B Kr].
  cbn [filter]. unfold has_coord_key at 1. rewrite Kr.
  destruct (opt_notna (DeadlyEventsMap.coord_key l)); cbn [map Pandas.sum fold_right].
  - rewrite B. unfold Pandas.sum in IH. now rewrite IH.
  - exact IH.
Qed.

(** X11: the incident counts of the buckets add up to the number of
    input rows that have a group key and a non-null counted cell: for
    the by-event-type and by-month tables, the rows with an event type,
    respectively a date; for the by-coordinate table, the rows with
    coordinates whose incident date is not null. *)
Theorem X11_incident_counts_add_up :
  forall df : frame,
    sum_by (fun b => Z.of_nat (tb_incidents b)) (Events.event_summary df)
      = Z.of_nat (List.length (filter (fun r => opt_notna (event_type r)) df))
    /\ (forall ms,
           NycTimeSliderMap.month_summary df = Ok ms ->
           sum_by (fun b => Z.of_nat (NycTimeSliderMap.mb_incidents b)) ms
           = Z.of_nat (List.length
                         (filter (fun r => opt_notna (NycTimeSliderMap.year_month r)) df)))
    /\ (forall t,
           DeadlyEventsMap.location_fatalities df = Ok t ->
           sum_by (fun b => Z.of_nat (DeadlyEventsMap.b_num_incidents b)) t
           = Z.of_nat (List.length
                         (filter (fun r => has_coord_key r
                                           && date_notna (incident_date r)) df))).
Proof.
  intros df. split; [| split].
  - unfold Events.event_summary, Events.event_groups.
    rewrite (sum_by_perm _ _ _ (sort_perm _ _)), sum_by_map. cbn [tb_incidents].
    rewrite (sum_by_ext _ (fun g : string * list row =>
               Pandas.sum (map (fun r => counted opt_notna (event_type r)) (snd g)))
                        (groupby String.compare event_type df)).
    + change (sum_by _ (groupby String.compare event_type df))
        with (held (fun r => counted opt_notna (event_type r))
                   (groupby String.compare event_type df)).
      rewrite groupby_held, sum_counted_keyed.
      f_equal. f_equal. apply filter_ext_all. intros r. apply andb_diag.
    + intros g. now rewrite count_as_sum, map_map.
  - intros ms. unfold NycTimeSliderMap.month_summary, NycTimeSliderMap.month_groups.
    destruct (existsb NycTimeSliderMap.is_text_date df); [discriminate |].
    intros E. injection E as <-.
    rewrite (sum_by_perm _ _ _ (sort_perm _ _)), sum_by_map.
    cbn [NycTimeSliderMap.mb_incidents].
    rewrite (sum_by_ext _ (fun g : NycTimeSliderMap.period * list row =>
               Pandas.sum (map (fun r => counted opt_notna
                                               (NycTimeSliderMap.year_month r))
                               (snd g)))
                        (groupby NycTimeSliderMap.period_cmp
                                 NycTimeSliderMap.year_month df)).
    + change (sum_by _ (groupby NycTimeSliderMap.period_cmp
                                NycTimeSliderMap.year_month df))
        with (held (fun r => counted opt_notna (NycTimeSliderMap.year_month r))
                   (groupby NycTimeSliderMap.period_cmp
                            NycTimeSliderMap.year_month df)).
      rewrite groupby_held, sum_counted_keyed.
      f_equal. f_equal. apply filter_ext_all. intros r. apply andb_diag.
    + intros g. now rewrite count_as_sum, map_map.
  - intros t.
    unfold DeadlyEventsMap.location_fatalities, DeadlyEventsMap.location_groups.
    destruct (mapM DeadlyEventsMap.add_rounded df) as [ldf | e] eqn:L;
      cbn [Pandas.bind]; [| discriminate].
    destruct (mapM DeadlyEventsMap.agg _) as [t0 | e] eqn:T;
      cbn [Pandas.bind]; [| discriminate].
    intros E. injection E as <-. apply mapM_Ok in L, T.
    rewrite (sum_by_perm _ _ _ (sort_perm _ _)).
    transitivity (held (fun l => counted date_notna
                                         (incident_date (DeadlyEventsMap.base l)))
                       (groupby DeadlyEventsMap.coord_cmp
                                DeadlyEventsMap.coord_key ldf)).
    + clear L. induction T as [| g b gs t0 Hg _ IH]; [reflexivity |].
      unfold held in *. cbn [sum_by]. rewrite IH. f_equal.
      destruct (agg_total g b Hg) as [_ [_ [-> _]]].
      now rewrite count_as_sum, !map_map.
    + rewrite groupby_held.
      rewrite (located_keyed_amount
                 (fun r => counted date_notna (incident_date r)) df ldf L).
      apply sum_counted_keyed.
Qed.

Lemma X11_two_incidents_witness :
  sum_by (fun b => Z.of_nat (DeadlyEventsMap.b_num_incidents b))
         [DeadlyEventsMap.mkBucket
            (FFin (163 # 4), FFin (- 5205879694263583 # 70368744177664))
            3 2 "Homicide" "Station"]
  = 2%Z.
Proof.
  destruct (X11_incident_counts_add_up
              (value (DeadlyEventsMap.prepare_fatal_events (C := decimal_iso)
                        [manhattan; manhattan_homicide]))) as [_ [_ Hloc]].
  rewrite (Hloc [DeadlyEventsMap.mkBucket
                   (FFin (163 # 4), FFin (- 5205879694263583 # 70368744177664))
                   3 2 "Homicide" "Station"]).
  - vm_compute. reflexivity.
  - vm_compute. reflexivity.
Defined.

(** ** The deadliest incidents *)

Lemma sorted_app_le {A : Type} (R : A -> A -> Prop) (l1 l2 : list A) :
  StronglySorted R (l1 ++ l2) ->
  forall a b, In a l1 -> In b l2 -> R a b.
Proof.
  induction l1 as [| x l1 IH]; intros S a b Ha Hb; [destruct Ha |].
  cbn [app] in S. inversion S as [| ? ? S' F]; subst.
  destruct Ha as [<- | Ha].
  - rewrite Forall_forall in F. apply F, in_or_app. now right.
  - now apply IH.
Qed.

Lemma firstn_In {A : Type} (l : list A) (n : nat) (a : A) :
  In a (firstn n l) -> In a l.
Proof.
  revert n. induction l as [| x l IH]; intros [| n]; cbn [firstn In]; try tauto.
  intros [E | H]; [now left | right; now apply (IH n)].
Qed.

Lemma sorted_firstn {A : Type} (R : A -> A -> Prop) (n : nat) (l : list A) :
  StronglySorted R l -> StronglySorted R (firstn n l).
Proof.
  intros S. revert n. induction S as [| a l _ IH F]; intros [| n]; cbn [firstn];
    constructor.
  - apply IH.
  - rewrite Forall_forall in *. intros b Hb. apply F.
    now apply (firstn_In l n).
Qed.

(** X12: [df.nlargest(n, 'total_fatalities')], which picks the
    "deadliest incidents" of [print_deadliest_locations] and
    [print_summary], returns [min n (len df)] rows of the frame: first
    the rows with a fatality count, in descending order of the count, up
    to [n] of them, and then, when fewer than [n] rows have a count, rows
    without one, in frame order.  No row with a count that it leaves out
    has a larger count than a row it returns, and when it leaves one out
    every row it returns has a count. *)
Theorem X12_nlargest_returns_the_top_rows :
  forall (n : nat) (df : frame),
    List.length (nlargest n df) = Nat.min n (List.length df)
    /\ (forall r, In r (nlargest n df) -> In r df)
    /\ (exists top,
          nlargest n df
          = top ++ firstn (n - List.length (filter has_count df))
                          (filter (fun r => negb (has_count r)) df)
          /\ List.length top = Nat.min n (List.length (filter has_count df))
          /\ (forall r, In r top -> exists k, total_fatalities r = Some k)
          /\ descending deaths top)
    /\ (forall r r', In r df -> has_count r = true ->
                     ~ In r (nlargest n df) -> In r' (nlargest n df) ->
                     exists k, total_fatalities r' = Some k /\ (deaths r <= k)%Z).
Proof.
  intros n df. unfold nlargest.
  set (le := fun a b : row => (deaths b <=? deaths a)%Z).
  set (rows := filter has_count df).
  set (rest := filter (fun r => negb (has_count r)) df).
  pose proof (sort_perm le rows) as P.
  pose proof (leb_sorted_descending deaths _
                (sort_sorted le (leb_desc_total deaths) (leb_desc_trans deaths)
                             rows)) as S.
  pose proof (Permutation_length P) as L.
  pose proof (filter_length has_count df) as Hlen. fold rows rest in Hlen.
  assert (Hcount : forall r, In r (firstn n (sort le rows)) ->
                             In r df /\ exists k, total_fatalities r = Some k).
  { intros r Hr. apply firstn_In in Hr. apply (Permutation_in _ P) in Hr.
    apply filter_In in Hr. destruct Hr as [Hin N]. split; [exact Hin |].
    unfold has_count in N.
    destruct (total_fatalities r) as [k |]; [eauto | discriminate N]. }
  rewrite firstn_app.
  replace (List.length (sort le rows)) with (List.length rows) by lia.
  split; [| split; [| split]].
  - rewrite length_app, !length_firstn. lia.
  - intros r Hr. apply in_app_or in Hr. destruct Hr as [Hr | Hr].
    + now apply Hcount.
    + apply firstn_In in Hr. apply filter_In in Hr. tauto.
  - exists (firstn n (sort le rows)). split; [reflexivity |].
    split; [rewrite length_firstn; lia |].
    split; [intros r Hr; now apply Hcount | now apply sorted_firstn].
  - intros r r' Hin N Hout Hr'.
    assert (Hs : In r (sort le rows)).
    { apply (Permutation_in _ (Permutation_sym P)). apply filter_In. auto. }
    rewrite <- (firstn_skipn n (sort le rows)) in Hs, S.
    apply in_app_or in Hs. destruct Hs as [Hs | Hs].
    { exfalso. apply Hout, in_or_app. now left. }
    assert (Hn : (n < List.length rows)%nat).
    { destruct (Nat.le_gt_cases (List.length rows) n) as [Hle | Hlt]; [| exact Hlt].
      rewrite skipn_all2 in Hs by lia. destruct Hs. }
    replace (n - List.length rows)%nat with 0%nat in Hr' by lia.
    cbn [firstn] in Hr'. rewrite app_nil_r in Hr'.
    destruct (Hcount r' Hr') as [_ [k Ek]]. exists k. split; [exact Ek |].
    pose proof (sorted_app_le _ _ _ S r' r Hr' Hs) as D. cbv beta in D.
    assert (Ed : deaths r' = k) by (unfold deaths; now rewrite Ek).
    lia.
Qed.

Lemma X12_uncounted_last_witness :
  List.length (nlargest 3 [uncounted; manhattan_homicide; manhattan]) = 3%nat
  /\ nlargest 3 [uncounted; manhattan_homicide; manhattan]
     = [manhattan; manhattan_homicide; uncounted]
  /\ nlargest 1 [uncounted; manhattan_homicide; manhattan] = [manhattan].
Proof.
  split.
  - exact (proj1 (X12_nlargest_returns_the_top_rows
                    3 [uncounted; manhattan_homicide; manhattan])).
  - split; vm_compute; reflexivity.
Defined.

(** ** Loops that may stop on an error *)

Section ForEach.
Context {A B : Type} (f : A -> Python.outcome B).

Lemma for_each_returns (l : list A) (bs : list B) :
  Python.for_each f l = Python.Returns bs ->
  Forall2 (fun a b => f a = Python.Returns b) l bs.
Proof.
  revert bs. induction l as [| a l IH]; intros bs; cbn [Python.for_each].
  - intros E. injection E as <-. constructor.
  - destruct (f a) as [b | e] eqn:Fa; cbn [Python.and_then]; [| discriminate].
    destruct (Python.for_each f l) as [bs' | e]; cbn [Python.and_then];
      [| discriminate].
    intros E. injection E as <-. constructor; auto.
Qed.

Lemma for_each_throws (l : list A) (e : Python.error) :
  Python.for_each f l = Python.Throws e ->
  exists a, In a l /\ f a = Python.Throws e.
Proof.
  induction l as [| a l IH]; cbn [Python.for_each]; [discriminate |].
  destruct (f a) as [b | e'] eqn:Fa; cbn [Python.and_then].
  - destruct (Python.for_each f l) as [bs' | e']; cbn [Python.and_then];
      [discriminate |].
    intros E. injection E as ->. destruct (IH eq_refl) as [a' [H1 H2]].
    exists a'. split; [now right | exact H2].
  - intros E. injection E as ->. exists a. split; [now left | exact Fa].
Qed.

(** The loop fails exactly when its body fails on some element. *)
Lemma for_each_fails_iff (l : list A) :
  (exists a e, In a l /\ f a = Python.Throws e)
  <-> (exists e, Python.for_each f l = Python.Throws e).
Proof.
  split.
  - intros [a [e [Hin Fa]]].
    destruct (Python.for_each f l) as [bs | e'] eqn:E; [| eauto].
    apply for_each_returns in E.
    destruct (Forall2_In_l _ _ _ _ E Hin) as [b [_ Fb]]. congruence.
  - intros [e E]. destruct (for_each_throws l e E) as [a [Hin Fa]]. eauto.
Qed.
End ForEach.

(** ** The interactive map *)

Lemma unique_In (l : list string) (x : string) :
  In x (Python.unique l) <-> In x l.
Proof.
  induction l as [| a l IH]; cbn [Python.unique In]; [reflexivity |].
  rewrite filter_In, IH, negb_true_iff, String.eqb_neq.
  destruct (string_dec a x) as [-> | N]; [tauto |].
  split; [tauto |]. intros [E | H]; [contradiction | right; split; congruence].
Qed.

Lemma unique_NoDup (l : list string) : NoDup (Python.unique l).
Proof.
  induction l as [| a l IH]; cbn [Python.unique]; constructor.
  - rewrite filter_In, String.eqb_refl. intros [_ H]. discriminate.
  - now apply NoDup_filter.
Qed.

Lemma make_marker_outcome (groups : list string) (r : row) :
  if unmappable r
  then exists e, NycBasemap.make_marker groups r = Python.Throws e
  else NycBasemap.make_marker groups r
       = Python.Returns
           (NycBasemap.mkMarker
              (latitude r) (longitude r) (5 + deaths r * 3)
              (Python.dict_get NycBasemap.event_colors (event_type r) "gray")
              (match event_type r with
               | Some e => if existsb (String.eqb e) groups then Some e else None
               | None => None
               end)).
Proof.
  unfold unmappable, locatable, NycBasemap.make_marker,
    NycBasemap.validate_location, deaths.
  destruct (total_fatalities r) as [k |];
    cbn [Python.int Python.and_then opt_notna negb orb]; [| eauto].
  destruct (total_injuries r) as [i |];
    cbn [Python.int Python.and_then opt_notna negb orb]; [| eauto].
  destruct (latitude r) as [| x | s];
    cbn [Python.format_f Python.and_then negb orb]; [eauto | | eauto].
  destruct (longitude r) as [| y | s];
    cbn [Python.format_f Python.and_then negb orb];
    [rewrite orb_true_r; eauto | | rewrite orb_true_r; eauto].
  destruct (is_nan x), (is_nan y); cbn [Python.and_then negb orb]; eauto.
Qed.

(** On float coordinates the marker loop fails with [ValueError] only. *)
Lemma make_marker_error (groups : list string) (r : row) (e : Python.error) :
  is_float (latitude r) = true -> is_float (longitude r) = true ->
  NycBasemap.make_marker groups r = Python.Throws e -> e = Python.ValueError.
Proof.
  unfold NycBasemap.make_marker, NycBasemap.validate_location, is_float.
  destruct (total_fatalities r) as [k |];
    cbn [Python.int Python.and_then]; [| congruence].
  destruct (total_injuries r) as [i |];
    cbn [Python.int Python.and_then]; [| congruence].
  destruct (latitude r) as [| x | s]; try discriminate.
  destruct (longitude r) as [| y | s]; try discriminate.
  cbn [Python.format_f Python.and_then].
  destruct (is_nan x || is_nan y); cbn [Python.and_then]; congruence.
Qed.

Lemma layer_of_known_type (df : frame) (r : row) :
  In r df ->
  match event_type r with
  | Some e => if existsb (String.eqb e) (NycBasemap.feature_group_names df)
              then Some e else None
  | None => None
  end = event_type r.
Proof.
  intros Hin. destruct (event_type r) as [e |] eqn:E; [| reflexivity].
  replace (existsb (String.eqb e) (NycBasemap.feature_group_names df)) with true;
    [reflexivity |].
  symmetry. apply existsb_exists. exists e. split; [| apply String.eqb_refl].
  unfold NycBasemap.feature_group_names. rewrite unique_In, dropna_In, <- E.
  now apply in_map.
Qed.

Lemma markers_of_rows (df l : frame) (ms : list NycBasemap.marker) :
  (forall r, In r l -> In r df) ->
  Forall2 (fun r k => NycBasemap.make_marker (NycBasemap.feature_group_names df) r
                      = Python.Returns k) l ms ->
  Forall2 (fun r k =>
             NycBasemap.m_latitude k = latitude r
             /\ NycBasemap.m_longitude k = longitude r
             /\ NycBasemap.m_radius k = (5 + deaths r * 3)%Z
             /\ NycBasemap.m_color k
                = Python.dict_get NycBasemap.event_colors (event_type r) "gray"
             /\ NycBasemap.m_layer k = event_type r)
          l ms.
Proof.
  intros Sub F. induction F as [| r k l ms Hr _ IH]; constructor.
  - pose proof (make_marker_outcome (NycBasemap.feature_group_names df) r) as M.
    destruct (unmappable r); [destruct M as [e M]; congruence |].
    rewrite Hr in M. injection M as ->.
    cbn [NycBasemap.m_latitude NycBasemap.m_longitude NycBasemap.m_radius
         NycBasemap.m_color NycBasemap.m_layer].
    repeat split.
    apply layer_of_known_type, Sub. now left.
  - apply IH. intros r' H'. apply Sub. now right.
Qed.

Lemma interactive_map_rows (df : frame) :
  df <> [] ->
  trace (NycBasemap.create_interactive_map df) = []
  /\ ((exists r, In r df /\ unmappable r = true)
      <-> exists e, value (NycBasemap.create_interactive_map df) = Python.Throws e)
  /\ (float_coordinates df ->
      forall e, value (NycBasemap.create_interactive_map df) = Python.Throws e ->
                e = Python.ValueError)
  /\ (forall o, value (NycBasemap.create_interactive_map df) = Python.Returns o ->
        exists m,
          o = Some m
          /\ NoDup (NycBasemap.feature_groups m)
          /\ (forall e, In e (NycBasemap.feature_groups m)
                        <-> In (Some e) (map event_type df))
          /\ Forall2 (fun r k =>
                        NycBasemap.m_latitude k = latitude r
                        /\ NycBasemap.m_longitude k = longitude r
                        /\ NycBasemap.m_radius k = (5 + deaths r * 3)%Z
                        /\ NycBasemap.m_color k
                           = Python.dict_get NycBasemap.event_colors
                                             (event_type r) "gray"
                        /\ NycBasemap.m_layer k = event_type r)
                     df (NycBasemap.markers m)
          /\ List.length (NycBasemap.heat_data m) = List.length df).
Proof.
  intros Hne. unfold NycBasemap.create_interactive_map.
  rewrite (nonempty_len df Hne). cbn [trace value fst snd ret].
  set (groups := NycBasemap.feature_group_names df).
  split; [reflexivity |]. split; [| split].
  - split.
    + intros [r [Hin U]].
      assert (F : exists a e, In a df
                              /\ NycBasemap.make_marker groups a = Python.Throws e).
      { exists r. pose proof (make_marker_outcome groups r) as M.
        rewrite U in M. destruct M as [e M]. eauto. }
      apply for_each_fails_iff in F. destruct F as [e F]. exists e. now rewrite F.
    + intros [e E].
      destruct (Python.for_each (NycBasemap.make_marker groups) df) as [ms | e'] eqn:F;
        cbn [Python.and_then] in E; [discriminate E |].
      destruct (for_each_throws _ _ _ F) as [a [Hin Fa]]. exists a. split; [exact Hin |].
      pose proof (make_marker_outcome groups a) as M.
      destruct (unmappable a); [reflexivity | congruence].
  - intros Fl e E.
    destruct (Python.for_each (NycBasemap.make_marker groups) df) as [ms | e'] eqn:F;
      cbn [Python.and_then] in E; [discriminate E |].
    injection E as <-.
    destruct (for_each_throws _ _ _ F) as [a [Hin Fa]].
    destruct (Fl a Hin) as [La Lo].
    exact (make_marker_error groups a e' La Lo Fa).
  - intros o E.
    destruct (Python.for_each (NycBasemap.make_marker groups) df) as [ms | e] eqn:F;
      cbn [Python.and_then] in E; [| discriminate].
    injection E as <-. eexists. split; [reflexivity |].
    cbn [NycBasemap.feature_groups NycBasemap.markers NycBasemap.heat_data].
    split; [apply unique_NoDup |]. split; [| split].
    + intros e. unfold groups, NycBasemap.feature_group_names.
      now rewrite unique_In, dropna_In.
    + apply for_each_returns in F. apply (markers_of_rows df df ms); auto.
    + apply length_map.
Qed.

(** The frame [prepare_fatal_events] returns holds floats other than NaN
    as coordinates and a fatality count in every row. *)
Lemma prepared_mappable {C : Coercion} (df : frame) (r : row) :
  In r (value (NycBasemap.prepare_fatal_events df)) ->
  locatable (latitude r) = true /\ locatable (longitude r) = true
  /\ exists k, total_fatalities r = Some k /\ (1 <= k)%Z.
Proof.
  intros Hin. rewrite basemap_prepare_value in Hin.
  destruct (survivor_origin _ _ _ Hin) as [r0 [_ [_ [_ [_ [_ [_ [_ Hk]]]]]]]].
  apply in_map_iff in Hin. destruct Hin as [r1 [<- Hin]].
  apply filter_In in Hin. destruct Hin as [_ S].
  destruct (survivor_coordinates _ _ S) as [x [y [La [Lo [Nx Ny]]]]].
  rewrite La, Lo. unfold locatable. rewrite Nx, Ny. auto.
Qed.

Lemma locatable_float (c : cell) : locatable c = true -> is_float c = true.
Proof. destruct c; [discriminate | reflexivity | discriminate]. Qed.

(** X13: [create_interactive_map] of [fta_nyc_basemap.py].  On an empty
    frame it logs a warning and returns no map.  On a frame with rows it
    logs nothing, and it raises exactly when some row has no fatality
    count, no injury count ([int] of NaN), or a coordinate that is not a
    float other than NaN (the popup formats both with [.4f], and a
    marker cannot sit at NaN); on a frame whose coordinates are floats
    the error is [ValueError].  Otherwise it returns a map: its feature
    groups are the event types that occur, each once; it has one marker
    per row, in frame order, at the row's coordinates, of radius 5 plus
    three times the fatalities, coloured by event type (gray for an
    unlisted or missing one) and put in the feature group of the row's
    event type, or on the map itself when the row has none; and the
    heat layer has one entry per row. *)
Theorem X13_interactive_map_markers :
  forall df : frame,
    (df = [] ->
     NycBasemap.create_interactive_map df
     = (Python.Returns None, [Log WARNING "No fatal events with coordinates found"]))
    /\ (df <> [] ->
        trace (NycBasemap.create_interactive_map df) = []
        /\ ((exists r, In r df /\ unmappable r = true)
            <-> exists e, value (NycBasemap.create_interactive_map df)
                          = Python.Throws e)
        /\ (float_coordinates df ->
            forall e, value (NycBasemap.create_interactive_map df) = Python.Throws e ->
                      e = Python.ValueError)
        /\ (forall o, value (NycBasemap.create_interactive_map df) = Python.Returns o ->
              exists m,
                o = Some m
                /\ NoDup (NycBasemap.feature_groups m)
                /\ (forall e, In e (NycBasemap.feature_groups m)
                              <-> In (Some e) (map event_type df))
                /\ Forall2 (fun r k =>
                              NycBasemap.m_latitude k = latitude r
                              /\ NycBasemap.m_longitude k = longitude r
                              /\ NycBasemap.m_radius k = (5 + deaths r * 3)%Z
                              /\ NycBasemap.m_color k
                                 = Python.dict_get NycBasemap.event_colors
                                                   (event_type r) "gray"
                              /\ NycBasemap.m_layer k = event_type r)
                           df (NycBasemap.markers m)
                /\ List.length (NycBasemap.heat_data m) = List.length df)).
Proof.
  intros df. split; [intros ->; reflexivity | apply interactive_map_rows].
Qed.

Lemma X13_text_coordinate_witness :
  (exists e, value (NycBasemap.create_interactive_map [manhattan_homicide; manhattan])
             = Python.Throws e)
  /\ exists m,
       value (NycBasemap.create_interactive_map
                (value (NycBasemap.prepare_fatal_events (C := decimal_iso)
                          [manhattan; manhattan_homicide])))
       = Python.Returns (Some m)
       /\ List.length (NycBasemap.heat_data m) = 2%nat.
Proof.
  split.
  - destruct (X13_interactive_map_markers [manhattan_homicide; manhattan])
      as [_ Hrows].
    destruct Hrows as [_ [Hraise _]]; [discriminate |].
    apply Hraise. exists manhattan. split; [right; left; reflexivity | reflexivity].
  - destruct (X13_interactive_map_markers
                (value (NycBasemap.prepare_fatal_events (C := decimal_iso)
                          [manhattan; manhattan_homicide]))) as [_ Hrows].
    destruct Hrows as [_ [_ [_ Hmap]]]; [vm_compute; discriminate |].
    destruct (value (NycBasemap.create_interactive_map _)) as [o | e] eqn:E.
    + destruct (Hmap o eq_refl) as [m [-> [_ [_ [_ Hheat]]]]].
      exists m. split; [reflexivity | exact Hheat].
    + vm_compute in E. discriminate E.
Defined.

(** X14: on the frame [prepare_fatal_events] returns (the one [main]
    hands over), [create_interactive_map] raises exactly when a row has
    no injury count: the fatality counts are all there.  When it returns
    a map, every marker has a radius of at least 8. *)
Theorem X14_map_of_prepared_frame :
  forall (C : Coercion) (df : frame),
    value (NycBasemap.prepare_fatal_events df) <> [] ->
    ((exists r, In r (value (NycBasemap.prepare_fatal_events df))
                /\ total_injuries r = None)
     <-> value (NycBasemap.create_interactive_map
                  (value (NycBasemap.prepare_fatal_events df)))
         = Python.Throws Python.ValueError)
    /\ (forall m k,
           value (NycBasemap.create_interactive_map
                    (value (NycBasemap.prepare_fatal_events df)))
           = Python.Returns (Some m) ->
           In k (NycBasemap.markers m) -> (8 <= NycBasemap.m_radius k)%Z).
Proof.
  intros C df Hne.
  destruct (interactive_map_rows (value (NycBasemap.prepare_fatal_events df)) Hne)
    as [_ [Hraise [Hkind Hmap]]].
  assert (Floats : float_coordinates (value (NycBasemap.prepare_fatal_events df))).
  { intros r Hin. destruct (prepared_mappable df r Hin) as [La [Lo _]].
    split; now apply locatable_float. }
  assert (U : forall r, In r (value (NycBasemap.prepare_fatal_events df)) ->
                        unmappable r = true <-> total_injuries r = None).
  { intros r Hin. destruct (prepared_mappable df r Hin) as [La [Lo [k [Ek _]]]].
    unfold unmappable. rewrite La, Lo, Ek. cbn [opt_notna negb orb].
    rewrite !orb_false_r.
    destruct (total_injuries r); cbn [opt_notna negb]; split; congruence. }
  split.
  - split.
    + intros [r [Hin E]].
      destruct (proj1 Hraise) as [e He].
      { exists r. split; [exact Hin | now apply U]. }
      rewrite He. f_equal. now apply (Hkind Floats).
    + intros E. destruct (proj2 Hraise) as [r [Hin Hu]]; [eauto |].
      exists r. split; [exact Hin | now apply U].
  - intros m k E Hk. destruct (Hmap _ E) as [m' [Em [_ [_ [Hmarkers _]]]]].
    inversion Em; subst m'.
    destruct (Forall2_In_r _ _ _ _ Hmarkers Hk) as [r [Hin [_ [_ [-> _]]]]].
    destruct (prepared_mappable df r Hin) as [_ [_ [kf [Ek Hk1]]]].
    unfold deaths. rewrite Ek. lia.
Qed.

Lemma X14_manhattan_witness :
  (8 <= NycBasemap.m_radius
          (NycBasemap.mkMarker (CNum (FFin (163 # 4)))
             (CNum (FFin (- 5205879694263583 # 70368744177664)))
             11 "purple" (Some "Suicide"%string)))%Z.
Proof.
  destruct (X14_map_of_prepared_frame decimal_iso [manhattan]) as [_ Hradius].
  - vm_compute. discriminate.
  - eapply Hradius; [vm_compute; reflexivity | left; reflexivity].
Defined.

(** ** Incidents by year *)

Lemma sum_ones {A : Type} (l : list A) :
  Pandas.sum (map (fun _ => Some 1%Z) l) = Z.of_nat (List.length l).
Proof.
  induction l as [| a l IH]; [reflexivity |].
  cbn [map Pandas.sum fold_right List.length]. unfold Pandas.sum in IH. lia.
Qed.

Lemma filter_map_length {A B : Type} (f : A -> B) (p : B -> bool) (l : list A) :
  List.length (filter p (map f l)) = List.length (filter (fun a => p (f a)) l).
Proof. now rewrite filter_map_swap, length_map. Qed.

Section Years.
Context {C : Coercion}.

Lemma member_in_year (y : Z) (r : row) :
  member Z.compare NycBasemap.year_of y
         (set_incident_date r (to_datetime (incident_date r)))
  = in_year y r.
Proof.
  unfold member, in_year, NycBasemap.year_of, same_key. cbn [incident_date set_incident_date].
  destruct (to_datetime (incident_date r)) as [| s | t]; try reflexivity.
  destruct (Z.compare_spec (year t) y) as [E | L | L].
  - symmetry. now apply Z.eqb_eq.
  - symmetry. apply Z.eqb_neq. lia.
  - symmetry. apply Z.eqb_neq. lia.
Qed.

Lemma year_of_with_date (r : row) :
  opt_notna (NycBasemap.year_of (set_incident_date r (to_datetime (incident_date r))))
  = date_notna (to_datetime (incident_date r)).
Proof.
  unfold NycBasemap.year_of. cbn [incident_date set_incident_date].
  destruct (incident_date r) as [| s | t]; cbn [to_datetime]; try reflexivity.
  destruct (str_to_datetime s); reflexivity.
Qed.

End Years.

(** X15: the "By Year" counts of [print_summary] list the years in
    ascending order, no year twice; the count of a year is the number of
    rows whose incident date coerces to a timestamp of that year, at
    least 1; every such row's year is listed; and the counts add up to
    the number of rows whose date coerces (rows with an unparsable or
    missing date are in no year). *)
Theorem X15_year_counts :
  forall (C : Coercion) (df : frame),
    ascending Z.compare fst (NycBasemap.year_counts df)
    /\ (forall y n, In (y, n) (NycBasemap.year_counts df) ->
                    n = List.length (filter (in_year y) df) /\ (1 <= n)%nat)
    /\ (forall r t, In r df -> to_datetime (incident_date r) = DTime t ->
                    exists n, In (year t, n) (NycBasemap.year_counts df))
    /\ sum_by (fun yn => Z.of_nat (snd yn)) (NycBasemap.year_counts df)
       = Z.of_nat (List.length
                     (filter (fun r => date_notna (to_datetime (incident_date r))) df)).
Proof.
  intros C df. unfold NycBasemap.year_counts.
  set (mk := fun g : Z * list row => (fst g, len (snd g))).
  destruct (groupby_grouping Z.compare NycBasemap.year_of Z_ordering
                             (NycBasemap.with_dates df)) as [S [G V]].
  split; [| split; [| split]].
  - apply (map_ascending Z.compare mk fst (fun g => eq_refl)), S.
  - intros y n Hin. apply in_map_iff in Hin. destruct Hin as [g [E Hg]].
    unfold mk in E. injection E as <- <-. destruct (G g Hg) as [Rg Ng].
    unfold len. rewrite Rg in *. unfold NycBasemap.with_dates in *.
    rewrite filter_map_length.
    rewrite (filter_ext_all _ _ df (member_in_year (fst g))).
    split; [reflexivity |].
    rewrite filter_map_swap in Ng.
    rewrite (filter_ext_all _ _ df (member_in_year (fst g))) in Ng.
    destruct (filter (in_year (fst g)) df); [now elim Ng | cbn; lia].
  - intros r t Hr Ht.
    assert (Hin : In (set_incident_date r (to_datetime (incident_date r)))
                     (NycBasemap.with_dates df))
      by (unfold NycBasemap.with_dates; apply in_map_iff; exists r; auto).
    destruct (V _ (year t) Hin) as [g [Hg Eg]].
    + unfold NycBasemap.year_of. cbn [incident_date set_incident_date].
      now rewrite Ht.
    + apply Z.compare_eq in Eg. exists (len (snd g)). apply in_map_iff.
      exists g. split; [| exact Hg]. unfold mk. now rewrite Eg.
  - rewrite sum_by_map. cbn [mk snd].
    rewrite (sum_by_ext _ (fun g : Z * list row =>
               Pandas.sum (map (fun _ : row => Some 1%Z) (snd g)))
                        (groupby Z.compare NycBasemap.year_of
                                 (NycBasemap.with_dates df))).
    + change (sum_by _ (groupby Z.compare NycBasemap.year_of
                                (NycBasemap.with_dates df)))
        with (held (fun _ : row => Some 1%Z)
                   (groupby Z.compare NycBasemap.year_of (NycBasemap.with_dates df))).
      rewrite groupby_held, sum_ones. f_equal.
      unfold NycBasemap.with_dates. rewrite filter_map_length.
      f_equal. apply filter_ext_all. intros r. apply year_of_with_date.
    + intros g. unfold len. now rewrite sum_ones.
Qed.

Lemma X15_one_year_witness :
  exists n, In (2019%Z, n)
               (NycBasemap.year_counts (C := decimal_iso) [manhattan; unparsable_latitude]).
Proof.
  destruct (X15_year_counts decimal_iso [manhattan; unparsable_latitude])
    as [_ [_ [Hlisted _]]].
  apply (Hlisted manhattan march_first_2019); [left |]; reflexivity.
Defined.

Lemma X9_suicide_line_witness :
  exists b, In b (Events.event_summary [manhattan; untyped])
            /\ tb_event_type b = "Suicide"%string.
Proof.
  destruct (X9_event_summary_table [manhattan; untyped]) as [_ [Hlisted _]].
  apply (Hlisted manhattan); [left |]; reflexivity.
Defined.

(** ** The listing of the deadliest incidents *)












(** ** When the table of deadliest locations fails *)

Section MapM.
Context {A B : Type} (f : A -> result B).

Lemma mapM_Raise (l : list A) (e : exn) :
  mapM f l = Raise e -> exists a, In a l /\ f a = Raise e.
Proof.
  induction l as [| a l IH]; cbn [mapM]; [discriminate |].
  destruct (f a) as [b | e'] eqn:Fa; cbn [Pandas.bind].
  - destruct (mapM f l) as [bs | e']; cbn [Pandas.bind]; [discriminate |].
    intros E. injection E as ->. destruct (IH eq_refl) as [a' [H1 H2]].
    exists a'. split; [now right | exact H2].
  - intros E. injection E as ->. exists a. split; [now left | exact Fa].
Qed.

Lemma mapM_fails_iff (l : list A) :
  (exists a e, In a l /\ f a = Raise e) <-> (exists e, mapM f l = Raise e).
Proof.
  split.
  - intros [a [e [Hin Fa]]].
    destruct (mapM f l) as [bs | e'] eqn:E; [| eauto].
    apply mapM_Ok in E.
    destruct (Forall2_In_l _ _ _ _ E Hin) as [b [_ Fb]]. congruence.
  - intros [e E]. destruct (mapM_Raise l e E) as [a [Hin Fa]]. eauto.
Qed.
End MapM.

Lemma max_attained (f : string -> nat) (vals : list string) :
  vals <> [] -> exists v, In v vals /\ f v = fold_right Nat.max 0%nat (map f vals).
Proof.
  induction vals as [| a vals IH]; [congruence |]. intros _.
  cbn [map fold_right]. destruct vals as [| b vals].
  - exists a. split; [now left |]. cbn. now rewrite Nat.max_0_r.
  - destruct IH as [v [Hv Ev]]; [discriminate |].
    destruct (Nat.max_spec (f a) (fold_right Nat.max 0%nat (map f (b :: vals))))
      as [[_ M] | [_ M]]; rewrite M.
    + exists v. split; [now right | exact Ev].
    + exists a. split; [now left | reflexivity].
Qed.

Lemma dropna_nil {A : Type} (x : list (option A)) :
  dropna x = [] <-> (forall o, In o x -> o = None).
Proof.
  induction x as [| [a |] x IH]; cbn [dropna].
  - split; [intros _ o [] | reflexivity].
  - split; [discriminate |]. intros H. specialize (H (Some a) (or_introl eq_refl)).
    discriminate.
  - rewrite IH. split.
    + intros H o [<- | Ho]; auto.
    + intros H o Ho. apply H. now right.
Qed.

(** The mode of a column is empty exactly when the column has no
    non-null value. *)
Lemma mode_nil (x : list (option string)) : mode x = [] <-> dropna x = [].
Proof.
  unfold mode. split.
  - intros E. destruct (dropna x) as [| a vals] eqn:D; [reflexivity |]. exfalso.
    destruct (max_attained (fun v => occurrences v (a :: vals)) (a :: vals))
      as [v [Hv Ev]]; [discriminate |].
    assert (Hin : In v (sort String.leb
                          (nodup string_dec
                             (filter (fun v => Nat.eqb (occurrences v (a :: vals))
                                                  (fold_right Nat.max 0%nat
                                                     (map (fun v => occurrences v (a :: vals))
                                                          (a :: vals))))
                                     (a :: vals))))).
    { apply (Permutation_in _ (Permutation_sym (sort_perm _ _))).
      apply nodup_In, filter_In. split; [exact Hv | now apply Nat.eqb_eq]. }
    rewrite E in Hin. destruct Hin.
  - intros ->. reflexivity.
Qed.

Lemma modal_label_fails (x : list (option string)) :
  x <> [] ->
  ((exists e, DeadlyEventsMap.modal_label x = Raise e)
   <-> (forall o, In o x -> o = None))
  /\ (forall e, DeadlyEventsMap.modal_label x = Raise e -> e = KeyError).
Proof.
  intros Hne. unfold DeadlyEventsMap.modal_label, len.
  destruct x as [| a x]; [congruence |]. cbn [List.length Nat.ltb Nat.leb].
  rewrite <- dropna_nil, <- mode_nil. unfold item0.
  destruct (mode (a :: x)) as [| m rest]; split.
  - split; [reflexivity | eauto].
  - intros e E. now injection E as <-.
  - split; [intros [e E]; discriminate | discriminate].
  - intros e E. discriminate.
Qed.

Lemma agg_fails (g : DeadlyEventsMap.coord * list DeadlyEventsMap.located) :
  snd g <> [] ->
  ((exists e, DeadlyEventsMap.agg g = Raise e)
   <-> ((forall r, In r (map DeadlyEventsMap.base (snd g)) -> event_type r = None)
        \/ (forall r, In r (map DeadlyEventsMap.base (snd g)) -> location_type r = None)))
  /\ (forall e, DeadlyEventsMap.agg g = Raise e -> e = KeyError).
Proof.
  intros Hne.
  assert (Nr : map DeadlyEventsMap.base (snd g) <> [])
    by (intros Z; apply map_eq_nil in Z; contradiction).
  assert (Col : forall (f : row -> option string),
             (forall o, In o (map f (map DeadlyEventsMap.base (snd g))) -> o = None)
             <-> (forall r, In r (map DeadlyEventsMap.base (snd g)) -> f r = None)).
  { intros f. split.
    - intros H r Hr. apply H. now apply in_map.
    - intros H o Ho. apply in_map_iff in Ho. destruct Ho as [r [<- Hr]]. auto. }
  destruct (modal_label_fails (map event_type (map DeadlyEventsMap.base (snd g))))
    as [Ef Ek]; [intros Z; apply map_eq_nil in Z; contradiction |].
  destruct (modal_label_fails (map location_type (map DeadlyEventsMap.base (snd g))))
    as [Lf Lk]; [intros Z; apply map_eq_nil in Z; contradiction |].
  rewrite Col in Ef, Lf. unfold DeadlyEventsMap.agg.
  destruct (DeadlyEventsMap.modal_label (map event_type _)) as [et | e1];
    cbn [Pandas.bind].
  - destruct (DeadlyEventsMap.modal_label (map location_type _)) as [lt | e2];
      cbn [Pandas.bind].
    + split.
      * split; [intros [e E]; discriminate |].
        intros [H | H]; [apply Ef in H | apply Lf in H];
          destruct H as [e E]; discriminate.
      * intros e E. discriminate.
    + split.
      * split; [intros _; right; apply Lf; eauto | eauto].
      * intros e E. injection E as <-. now apply Lk.
  - split.
    + split; [intros _; left; apply Ef; eauto | eauto].
    + intros e E. injection E as <-. now apply Ek.
Qed.

Lemma member_same_key {K R : Type} (cmp : K -> K -> comparison) (key : R -> option K)
      (order : ordering cmp) (k1 k2 : K) (r : R) :
  cmp k1 k2 = Eq -> member cmp key k1 r = member cmp key k2 r.
Proof.
  intros E. unfold member, same_key. destruct (key r) as [k |]; [| reflexivity].
  destruct (cmp k k1) eqn:E1.
  - now rewrite (cmp_eq_trans cmp order k k1 k2 E1 E).
  - destruct (cmp k k2) eqn:E2; try reflexivity.
    rewrite (cmp_eq_trans cmp order k k2 k1 E2 (cmp_eq_sym cmp order _ _ E)) in E1.
    discriminate.
  - destruct (cmp k k2) eqn:E2; try reflexivity.
    rewrite (cmp_eq_trans cmp order k k2 k1 E2 (cmp_eq_sym cmp order _ _ E)) in E1.
    discriminate.
Qed.

Lemma mapM_total {A B : Type} (f : A -> result B) (l : list A) :
  (forall a, In a l -> exists b, f a = Ok b) -> exists bs, mapM f l = Ok bs.
Proof.
  intros H. destruct (mapM f l) as [bs | e] eqn:E; [eauto |].
  destruct (mapM_Raise f l e E) as [a [Hin Fa]].
  destruct (H a Hin) as [b Fb]. congruence.
Qed.

Lemma prepared_located {C : Coercion} (df : frame) :
  exists ldf, mapM DeadlyEventsMap.add_rounded
                   (value (DeadlyEventsMap.prepare_fatal_events df)) = Ok ldf.
Proof.
  apply mapM_total. intros r. rewrite deadly_prepare_value, in_map_iff.
  intros [r0 [<- Hin]]. apply filter_In in Hin. destruct Hin as [_ S].
  destruct (survivor_coordinates _ _ S) as [x [y [La [Lo _]]]].
  unfold DeadlyEventsMap.add_rounded, DeadlyEventsMap.round_col.
  rewrite La, Lo. cbn [Pandas.bind]. eauto.
Qed.

(** The table fails exactly on a frame with a bucket all of whose event
    types, or all of whose location types, are null. *)
Lemma located_table_fails (df : frame) (ldf : list DeadlyEventsMap.located) :
  mapM DeadlyEventsMap.add_rounded df = Ok ldf ->
  ((exists k, bucket_rows k df <> []
              /\ ((forall r, In r (bucket_rows k df) -> event_type r = None)
                  \/ (forall r, In r (bucket_rows k df) -> location_type r = None)))
   <-> DeadlyEventsMap.location_fatalities df = Raise KeyError)
  /\ (DeadlyEventsMap.location_fatalities df = Raise KeyError
      \/ exists t, DeadlyEventsMap.location_fatalities df = Ok t).
Proof.
  intros L.
  unfold DeadlyEventsMap.location_fatalities, DeadlyEventsMap.location_groups.
  rewrite L. cbn [Pandas.bind]. apply mapM_Ok in L.
  set (gs := groupby DeadlyEventsMap.coord_cmp DeadlyEventsMap.coord_key ldf).
  destruct (groupby_grouping DeadlyEventsMap.coord_cmp DeadlyEventsMap.coord_key
                             coord_ordering ldf) as [_ [G V]].
  fold gs in G, V.
  assert (Rows : forall g, In g gs ->
                           map DeadlyEventsMap.base (snd g) = bucket_rows (fst g) df
                           /\ snd g <> []).
  { intros g Hg. destruct (G g Hg) as [Rg Ng]. split; [| exact Ng].
    rewrite Rg. now apply located_bucket_rows. }
  assert (Key : forall e, mapM DeadlyEventsMap.agg gs = Raise e -> e = KeyError).
  { intros e E. destruct (mapM_Raise _ _ _ E) as [g [Hg Ag]].
    destruct (Rows g Hg) as [_ Ng]. now apply (proj2 (agg_fails g Ng)). }
  split.
  - split.
    + intros [k [Hne Hnull]].
      destruct (bucket_rows k df) as [| r rest] eqn:Bk; [congruence |].
      assert (Hr : In r (bucket_rows k df)) by (rewrite Bk; now left).
      unfold bucket_rows in Hr. apply filter_In in Hr. destruct Hr as [Hin M].
      unfold member in M. destruct (rounded_coord r) as [k' |] eqn:Rk; [| discriminate].
      apply same_key_iff in M.
      destruct (Forall2_In_l _ _ _ _ L Hin) as [l [Hl Al]].
      destruct (add_rounded_base r l Al) as [_ Kr]. rewrite Rk in Kr.
      destruct (V l k' Hl (eq_sym Kr)) as [g [Hg Eg]].
      assert (Ekg : DeadlyEventsMap.coord_cmp k (fst g) = Eq).
      { apply (cmp_eq_trans _ coord_ordering k k' (fst g)); [| exact Eg].
        now apply (cmp_eq_sym _ coord_ordering). }
      assert (Same : bucket_rows (fst g) df = bucket_rows k df).
      { unfold bucket_rows. apply filter_ext_all. intros r'. symmetry.
        now apply (member_same_key _ _ coord_ordering). }
      destruct (Rows g Hg) as [Rg Ng].
      assert (F : exists a e, In a gs /\ DeadlyEventsMap.agg a = Raise e).
      { destruct (proj2 (proj1 (agg_fails g Ng))) as [e Ae].
        - rewrite Rg, Same, Bk. exact Hnull.
        - eauto. }
      apply mapM_fails_iff in F. destruct F as [e F].
      rewrite F. cbn [Pandas.bind]. f_equal. now apply Key.
    + intros E.
      destruct (mapM DeadlyEventsMap.agg gs) as [t | e] eqn:T;
        cbn [Pandas.bind] in E; [discriminate |].
      destruct (mapM_Raise _ _ _ T) as [g [Hg Ag]].
      destruct (Rows g Hg) as [Rg Ng]. exists (fst g). split.
      * rewrite <- Rg. intros Z. apply map_eq_nil in Z. contradiction.
      * rewrite <- Rg. apply (proj1 (agg_fails g Ng)). eauto.
  - destruct (mapM DeadlyEventsMap.agg gs) as [t | e] eqn:T; cbn [Pandas.bind].
    + right. eauto.
    + left. f_equal. now apply Key.
Qed.

(** X17: on the frame [prepare_fatal_events] returns, the table of
    [print_deadliest_locations] either is computed or raises [KeyError],
    nothing else; it raises exactly when some coordinate bucket has rows
    that all lack an event type, or that all lack a location type. *)
Theorem X17_table_fails_on_untyped_buckets :
  forall (C : Coercion) (df : frame),
    ((exists k,
         bucket_rows k (value (DeadlyEventsMap.prepare_fatal_events df)) <> []
         /\ ((forall r, In r (bucket_rows k (value (DeadlyEventsMap.prepare_fatal_events df)))
                        -> event_type r = None)
             \/ (forall r, In r (bucket_rows k (value (DeadlyEventsMap.prepare_fatal_events df)))
                           -> location_type r = None)))
     <-> DeadlyEventsMap.location_fatalities
           (value (DeadlyEventsMap.prepare_fatal_events df)) = Raise KeyError)
    /\ (DeadlyEventsMap.location_fatalities
          (value (DeadlyEventsMap.prepare_fatal_events df)) = Raise KeyError
        \/ exists t, DeadlyEventsMap.location_fatalities
                       (value (DeadlyEventsMap.prepare_fatal_events df)) = Ok t).
Proof.
  intros C df. destruct (prepared_located df) as [ldf L].
  exact (located_table_fails _ ldf L).
Qed.

Lemma X17_untyped_bucket_witness :
  DeadlyEventsMap.location_fatalities
    (value (DeadlyEventsMap.prepare_fatal_events (C := decimal_iso) [untyped]))
  = Raise KeyError.
Proof.
  apply (proj1 (proj1 (X17_table_fails_on_untyped_buckets decimal_iso [untyped]))).
  exists (FFin (163 # 4), FFin (- 5205879694263583 # 70368744177664)).
  split.
  - vm_compute. discriminate.
  - left. vm_compute. intros r [<- | []]. reflexivity.
Defined.

(** ** A run of fta_safety_analysis.py that has New York records *)

(** X18: when [filter_new_york_data] returns records, [main] of
    [fta_safety_analysis.py] logs the start and the download, prints
    the overview of the whole download, runs the filter, and then runs
    the analyses once, on the filtered frame; it logs no warning of its
    own and nothing follows the analyses. *)
Theorem X18_safety_main_analyses_the_filtered_frame :
  forall (explore_dataset analyze : SafetyAnalysis.dataframe -> list event)
         (df : SafetyAnalysis.dataframe),
    SafetyAnalysis.len (value (SafetyAnalysis.filter_new_york_data df)) <> 0%nat ->
    trace (SafetyAnalysis.main explore_dataset analyze (ReadOk df))
    = [Log INFO "Starting FTA Safety Events Analysis for New York...";
       Log INFO "Downloading FTA Major Safety Events data...";
       Log INFO ("Successfully loaded " ++ show_nat (SafetyAnalysis.len df)
                 ++ " safety events")]
      ++ explore_dataset df
      ++ trace (SafetyAnalysis.filter_new_york_data df)
      ++ analyze (value (SafetyAnalysis.filter_new_york_data df)).
Proof.
  intros explore_dataset analyze df E. unfold SafetyAnalysis.main.
  rewrite ?trace_bind.
  change (value (SafetyAnalysis.load_fta_data (ReadOk df))) with (Some df).
  cbv iota beta. rewrite ?trace_bind.
  apply Nat.eqb_neq in E. rewrite E. reflexivity.
Qed.

Lemma X18_anonymous_frame_witness :
  trace (SafetyAnalysis.main (fun _ => []) (fun _ => [Print "analysis"])
                             (ReadOk anonymous_frame))
  = [Log INFO "Starting FTA Safety Events Analysis for New York...";
     Log INFO "Downloading FTA Major Safety Events data...";
     Log INFO ("Successfully loaded " ++ show_nat (SafetyAnalysis.len anonymous_frame)
               ++ " safety events")]
    ++ []
    ++ trace (SafetyAnalysis.filter_new_york_data anonymous_frame)
    ++ [Print "analysis"].
Proof.
  apply (X18_safety_main_analyses_the_filtered_frame
           (fun _ => []) (fun _ => [Print "analysis"]) anonymous_frame).
  vm_compute. discriminate.
Defined.
